(** * Authentication and session lifecycle of the ToS Dumbifier

    A shallow embedding of the server middleware ([authenticateToken],
    [optionalAuth], [generateToken]), of the [/register], [/login],
    [/me], [/logout] and [/refresh] handlers, of the document-history
    routes, of the [User] model they use, and of the client's
    [authReducer], interceptors and actions ([login], [register],
    [logout], [updateProfile], [checkAuthStatus]), followed by the
    properties the specification states about them and by further
    properties the code shows.

    Conventions.  A JavaScript string is a [string] whose characters are
    its code units (below 256).  A JavaScript value that the code only
    tests, compares and forwards is a [JsVal]; numbers are integers.
    [jsonwebtoken] and [bcryptjs] are interfaces ([Jwt], [Bcrypt]).  The
    collection of users is a list of documents together with a script of
    the faults the driver raises; the network is a script of answers, which
    the requests get in the order they are made.  Every request of the
    client goes through the interceptors that are installed when it is
    made.  A caller that awaits a request goes on when the answer is
    there; the one call nobody awaits, [logout()] in the response
    interceptor, stays in flight while its caller goes on.  While a
    request is in flight React commits the render that is due.  Requests
    of two actions that run at the same time are not modelled.

    The definitions come first; the properties, and the runs on sample
    inputs that witness their hypotheses, follow. *)

From Stdlib Require Import ZArith NArith Lia Ascii String.
From stdpp Require Import base tactics option list strings pretty gmap.

Local Open Scope string_scope.
Local Open Scope list_scope.
Set Warnings "-register-all".

(** ** JavaScript values *)

Inductive JsVal :=
| VUndefined
| VNull
| VBool (b : bool)
| VNum (n : Z)
| VStr (s : string)
| VArr (items : list JsVal)
| VObj (fields : list (string * JsVal)).

(** [!!v] is false: the falsy values are [undefined], [null], [false], [0]
    and the empty string. *)
Definition truthy (v : JsVal) : bool :=
  match v with
  | VUndefined | VNull => false
  | VBool b => b
  | VNum n => negb (n =? 0)%Z
  | VStr s => negb (String.eqb s "")
  | VArr _ | VObj _ => true
  end.

(** The first binding of a key wins, so that [{...a, ...b}] is the fields
    of [b] followed by those of [a]. *)
Fixpoint assoc (k : string) (l : list (string * JsVal)) : JsVal :=
  match l with
  | [] => VUndefined
  | (k', v) :: r => if String.eqb k k' then v else assoc k r
  end.

(** [v.k] on a value that is neither [undefined] nor [null]. *)
Definition js_get (k : string) (v : JsVal) : JsVal :=
  match v with
  | VObj f => assoc k f
  | _ => VUndefined
  end.

(** [a === b].  Two arrays or objects read from different places of a
    parsed body are different references, hence never identical. *)
Definition strict_eq (a b : JsVal) : bool :=
  match a, b with
  | VUndefined, VUndefined => true
  | VNull, VNull => true
  | VBool x, VBool y => Bool.eqb x y
  | VNum x, VNum y => (x =? y)%Z
  | VStr x, VStr y => String.eqb x y
  | _, _ => false
  end.

(** [v.length]. *)
Definition js_length (v : JsVal) : JsVal :=
  match v with
  | VStr s => VNum (Z.of_nat (String.length s))
  | VArr l => VNum (Z.of_nat (length l))
  | VObj f => assoc "length" f
  | _ => VUndefined
  end.

(** [v < k] for a number [k]: [undefined] converts to NaN, [null] and the
    booleans to 0 and 1.  The conversion of strings, arrays and objects to
    numbers is not modelled; see [strict_eq_primitive] for why the handlers
    never get there. *)
Definition js_lt_num (v : JsVal) (k : Z) : bool :=
  match v with
  | VNum n => (n <? k)%Z
  | VNull => (0 <? k)%Z
  | VBool b => ((if b then 1 else 0) <? k)%Z
  | _ => false
  end.

Definition primitive (v : JsVal) : bool :=
  match v with
  | VArr _ | VObj _ => false
  | _ => true
  end.

(** [String(v)], as a template literal computes it; an integer is
    written out in full, which is what the code does with the integers
    that a double holds exactly, those up to 2^53: see [printable]. *)
Fixpoint js_to_string (v : JsVal) : string :=
  match v with
  | VUndefined => "undefined"
  | VNull => "null"
  | VBool b => if b then "true" else "false"
  | VNum n => pretty n
  | VStr s => s
  | VArr l =>
      (fix join (l : list JsVal) : string :=
         match l with
         | [] => ""
         | [x] => match x with VUndefined | VNull => "" | _ => js_to_string x end
         | x :: r =>
             (match x with VUndefined | VNull => "" | _ => js_to_string x end)
               +:+ "," +:+ join r
         end) l
  | VObj _ => "[object Object]"
  end.

(** The values whose text [js_to_string] gives as the code does.  The
    numbers beyond 2^53 are not among them: the code writes the shortest
    digits that give the double back, followed by zeros, and an exponent
    from 10^21 on. *)
Fixpoint printable (v : JsVal) : bool :=
  match v with
  | VNum n => (Z.abs n <=? 2 ^ 53)%Z
  | VArr l =>
      (fix all_printable (l : list JsVal) : bool :=
         match l with
         | [] => true
         | x :: r => printable x && all_printable r
         end) l
  | _ => true
  end.

(** ** Strings *)

Definition space : ascii := " "%char.

(** [s.split(' ')]. *)
Fixpoint split_space (s : string) : list string :=
  match s with
  | EmptyString => [""]
  | String c r =>
      if Ascii.eqb c space then "" :: split_space r
      else match split_space r with
           | h :: t => String c h :: t
           | [] => [String c ""]
           end
  end.

Definition lower_char (c : ascii) : ascii :=
  let n := Ascii.nat_of_ascii c in
  if (((65 <=? n) && (n <=? 90)) || ((192 <=? n) && (n <=? 222) && negb (n =? 215)))%nat
  then Ascii.ascii_of_nat (n + 32) else c.

(** [s.toLowerCase()]. *)
Fixpoint to_lower (s : string) : string :=
  match s with
  | EmptyString => EmptyString
  | String c r => String (lower_char c) (to_lower r)
  end.

Definition is_white (c : ascii) : bool :=
  let n := Ascii.nat_of_ascii c in
  (((9 <=? n) && (n <=? 13)) || (n =? 32) || (n =? 160))%nat.

Fixpoint trim_start (s : string) : string :=
  match s with
  | String c r => if is_white c then trim_start r else s
  | EmptyString => EmptyString
  end.

Fixpoint trim_end (s : string) : string :=
  match s with
  | EmptyString => EmptyString
  | String c r =>
      match trim_end r with
      | EmptyString => if is_white c then EmptyString else String c EmptyString
      | r' => String c r'
      end
  end.

(** [s.trim()]. *)
Definition js_trim (s : string) : string := trim_end (trim_start s).

(** ** Errors, documents and the world a handler runs in *)

(** A thrown [Error]: the handlers read [error.name] and [error.code]. *)
Record JsError := mkError { err_name : string; err_code : option Z }.

Definition TypeError : JsError := mkError "TypeError" None.
Definition MongoDuplicateKey : JsError := mkError "MongoServerError" (Some 11000%Z).

(** A document of the [User] collection.  [u_password] is the stored hash;
    it is [None] on a document read with [.select('-password')]. *)
Record User := mkUser {
  u_id : string;
  u_email : string;
  u_password : option string;
  u_name : string;
  u_preferences : JsVal;
  u_documentHistory : JsVal;
  u_isEmailVerified : bool;
  u_lastLoginAt : option Z;
  u_createdAt : Z;
  u_updatedAt : Z
}.

(** [req.user]. *)
Inductive ReqUser := RUndefined | RNull | RDoc (u : User).

Inductive StoreCall :=
| FindById (id : option string)
| FindOneByEmail (email : string)
| Save (id : string).

(** What a handler does that its caller can see. *)
Inductive Event :=
| Store (c : StoreCall)
| Respond (status : nat) (body : JsVal)
| Next.

(** [w_faults] scripts the store: the k-th operation on the collection
    throws the k-th entry when that is an error (a lost connection, an
    id that cannot be cast, a failed schema validation, a duplicate key
    raised by a concurrent insert) and runs normally otherwise. *)
Record World := mkWorld {
  w_users : list User;
  w_faults : list (option JsError);
  w_now : Z;
  w_next_id : N;
  w_req_user : ReqUser;
  w_log : list Event
}.

Definition set_users (us : list User) (w : World) : World :=
  mkWorld us (w_faults w) (w_now w) (w_next_id w) (w_req_user w) (w_log w).
Definition set_faults (fs : list (option JsError)) (w : World) : World :=
  mkWorld (w_users w) fs (w_now w) (w_next_id w) (w_req_user w) (w_log w).
Definition set_next_id (n : N) (w : World) : World :=
  mkWorld (w_users w) (w_faults w) (w_now w) n (w_req_user w) (w_log w).
Definition set_req_user (r : ReqUser) (w : World) : World :=
  mkWorld (w_users w) (w_faults w) (w_now w) (w_next_id w) r (w_log w).
Definition add_event (e : Event) (w : World) : World :=
  mkWorld (w_users w) (w_faults w) (w_now w) (w_next_id w) (w_req_user w) (w_log w ++ [e]).

(** ** The monad of a handler: state and exceptions *)

Inductive Res (A : Type) := Ret (a : A) | Throw (e : JsError).
Arguments Ret {A} a.
Arguments Throw {A} e.

Definition M (A : Type) : Type := World -> Res A * World.

Definition ret {A} (a : A) : M A := fun w => (Ret a, w).
Definition throw {A} (e : JsError) : M A := fun w => (Throw e, w).
Definition bind {A B} (m : M A) (k : A -> M B) : M B :=
  fun w => match m w with
           | (Ret a, w') => k a w'
           | (Throw e, w') => (Throw e, w')
           end.
(** [try { m } catch (error) { h error }]: what [m] did before it threw stays done. *)
Definition try_catch {A} (m : M A) (h : JsError -> M A) : M A :=
  fun w => match m w with
           | (Ret a, w') => (Ret a, w')
           | (Throw e, w') => h e w'
           end.

Declare Scope handler_scope.
Delimit Scope handler_scope with handler.
Notation "'let!' x ':=' m 'in' k" := (bind m (fun x => k))
  (at level 10, x name, m at level 100, k at level 200) : handler_scope.
Notation "'do!' m 'in' k" := (bind m (fun _ => k))
  (at level 10, m at level 100, k at level 200) : handler_scope.
Local Open Scope handler_scope.

Definition get_world : M World := fun w => (Ret w, w).
Definition modify (f : World -> World) : M unit := fun w => (Ret tt, f w).
Definition emit (e : Event) : M unit := modify (add_event e).

(** [res.status(code).json(body)]. *)
Definition respond (code : nat) (body : JsVal) : M unit := emit (Respond code body).
Definition error_body (message code : string) : JsVal :=
  VObj [("message", VStr message); ("error", VStr code)].
(** [next()]. *)
Definition next : M unit := emit Next.

(** The run of a handler on a world, and what is read off it. *)
Definition run {A} (m : M A) (w : World) : World := snd (m w).

Definition responses (w : World) : list (nat * JsVal) :=
  omap (fun e => match e with Respond c b => Some (c, b) | _ => None end) (w_log w).
Definition next_calls (w : World) : nat :=
  length (omap (fun e => match e with Next => Some tt | _ => None end) (w_log w)).
Definition store_calls (w : World) : list StoreCall :=
  omap (fun e => match e with Store c => Some c | _ => None end) (w_log w).

(** ** The libraries: jsonwebtoken and bcryptjs *)

(** What [jwt.verify] gives: the decoded payload's [userId] ([None] when
    the payload has none), or the error it throws. *)
Inductive Verified :=
| Decoded (userId : option string)
| VerifyThrows (e : JsError).

(** [jwt_sign userId secret expiresIn now] is [jwt.sign({ userId }, secret,
    { expiresIn })] called at time [now]; [jwt_verify token secret now] is
    [jwt.verify(token, secret)] called at time [now]; [jwt_decode] reads
    the subject a token embeds, without checking anything.  [jwt_sign]
    is [None] when [jwt.sign] throws, as it does on an [expiresIn] that is
    not a time span.  The two laws are the library's: a token that was
    signed embeds the payload, and verification returns the payload the
    token embeds. *)
Class Jwt := {
  jwt_sign : option string -> string -> string -> Z -> option string;
  jwt_verify : string -> string -> Z -> Verified;
  jwt_decode : string -> option (option string);
  jwt_decode_sign : forall u s e now t,
    jwt_sign u s e now = Some t -> jwt_decode t = Some u;
  jwt_verify_decode : forall t s now u,
    jwt_verify t s now = Decoded u -> jwt_decode t = Some u
}.

(** The [Error] that [jwt.sign] throws; it has no [code]. *)
Definition SignError : JsError := mkError "Error" None.

Class Bcrypt := {
  bcrypt_hash : string -> string;
  bcrypt_compare : string -> string -> bool
}.

(** [process.env], and the schema's [match] pattern for e-mail addresses. *)
Record Env := mkEnv {
  JWT_SECRET : option string;
  JWT_REFRESH_SECRET : option string;
  JWT_EXPIRES_IN : option string;
  email_matches : string -> bool
}.

(** [process.env.X || d]. *)
Definition or_default (x : option string) (d : string) : string :=
  match x with
  | Some s => if String.eqb s "" then d else s
  | None => d
  end.

Definition access_secret (env : Env) : string := or_default (JWT_SECRET env) "your-secret-key".
Definition refresh_secret (env : Env) : string :=
  or_default (JWT_REFRESH_SECRET env) "your-refresh-secret-key".
Definition access_lifetime (env : Env) : string := or_default (JWT_EXPIRES_IN env) "7d".

(** ** The User model *)

Definition poll_fault : M unit :=
  fun w => match w_faults w with
           | Some e :: r => (Throw e, set_faults r w)
           | None :: r => (Ret tt, set_faults r w)
           | [] => (Ret tt, w)
           end.

(** One operation on the collection: logged, then faulted or not. *)
Definition store_op (c : StoreCall) : M unit :=
  do! emit (Store c) in poll_fault.

Definition select_minus_password (u : User) : User :=
  mkUser (u_id u) (u_email u) None (u_name u) (u_preferences u)
         (u_documentHistory u) (u_isEmailVerified u) (u_lastLoginAt u)
         (u_createdAt u) (u_updatedAt u).

Definition lookup_id (id : option string) (us : list User) : option User :=
  match id with
  | Some i => List.find (fun u => String.eqb (u_id u) i) us
  | None => None
  end.

Definition lookup_email (e : string) (us : list User) : option User :=
  List.find (fun u => String.eqb (u_email u) e) us.

(** [User.findById(id).select('-password')]. *)
Definition findById_select (id : option string) : M (option User) :=
  do! store_op (FindById id) in
  let! w := get_world in
  ret (select_minus_password <$> lookup_id id (w_users w)).

(** [User.findByEmail(email)]: [email.toLowerCase()] throws on a value that
    has no such method, before the collection is asked; the cast of the
    filter applies the setters of the schema's [email], so that the
    address looked up is also trimmed. *)
Definition findByEmail (email : JsVal) : M (option User) :=
  match email with
  | VStr s =>
      do! store_op (FindOneByEmail (to_lower s)) in
      let! w := get_world in
      ret (lookup_email (js_trim (to_lower s)) (w_users w))
  | _ => throw TypeError
  end.

Definition default_preferences : JsVal :=
  VObj [("theme", VStr "dark"); ("simplificationLevel", VStr "detailed");
        ("saveHistory", VBool true)].

(** The cast of a field to the schema's [String]. *)
Definition cast_string (v : JsVal) : option string :=
  match v with
  | VStr s => Some s
  | VNum _ | VBool _ => Some (js_to_string v)
  | _ => None
  end.

Definition ValidationError : JsError := mkError "ValidationError" None.

Definition replace_user (u : User) (us : list User) : list User :=
  map (fun v => if String.eqb (u_id v) (u_id u) then u else v) us.

Section Server.
Context `{!Jwt} `{!Bcrypt} (env : Env).

(** [user.comparePassword(candidate)]: [bcrypt.compare] rejects
    arguments that are not two strings. *)
Definition comparePassword (u : User) (candidate : JsVal) : M bool :=
  match candidate, u_password u with
  | VStr c, Some h => ret (bcrypt_compare c h)
  | _, _ => throw (mkError "Error" None)
  end.

(** [new User({ email, password, name }).save()]: the setters lowercase
    and trim, the validators run, the first pre-save hook hashes the
    password, the second stamps [updatedAt], and the insert respects the
    unique index on [email]. *)
Definition save_new (email password name : JsVal) : M User :=
  let! w := get_world in
  let id := pretty (w_next_id w) in
  do! modify (set_next_id (N.succ (w_next_id w))) in
  match cast_string email, cast_string password, cast_string name with
  | Some e, Some p, Some n =>
      let e' := js_trim (to_lower e) in
      let n' := js_trim n in
      if negb (email_matches env e') || (String.length p <? 6)%nat
         || (50 <? String.length n')%nat
      then throw ValidationError
      else
        let doc := mkUser id e' (Some (bcrypt_hash p)) n' default_preferences
                          (VArr []) false None (w_now w) (w_now w) in
        do! store_op (Save id) in
        let! w' := get_world in
        match lookup_email e' (w_users w') with
        | Some _ => throw MongoDuplicateKey
        | None => do! modify (set_users (w_users w' ++ [doc])) in ret doc
        end
  | _, _, _ => throw ValidationError
  end.

(** [user.save()] on a stored document whose password is unchanged. *)
Definition save_existing (u : User) : M User :=
  do! store_op (Save (u_id u)) in
  let! w := get_world in
  let u' := mkUser (u_id u) (u_email u) (u_password u) (u_name u) (u_preferences u)
                   (u_documentHistory u) (u_isEmailVerified u) (u_lastLoginAt u)
                   (u_createdAt u) (w_now w) in
  do! modify (set_users (replace_user u' (w_users w))) in
  ret u'.

Definition with_lastLoginAt (t : Z) (u : User) : User :=
  mkUser (u_id u) (u_email u) (u_password u) (u_name u) (u_preferences u)
         (u_documentHistory u) (u_isEmailVerified u) (Some t)
         (u_createdAt u) (u_updatedAt u).

(** ** middleware/auth.js *)

Record Request := mkRequest {
  headers : gmap string string;
  body : JsVal
}.

(** [authHeader && authHeader.split(' ')[1]]: [None] is [undefined]. *)
Definition bearer_token (req : Request) : option string :=
  match headers req !! "authorization" with
  | None => None
  | Some h => if String.eqb h "" then Some "" else split_space h !! 1%nat
  end.

Definition truthy_token (t : option string) : bool :=
  match t with
  | Some s => negb (String.eqb s "")
  | None => false
  end.

Definition token_string (t : option string) : string := default "" t.

(** [jwt.verify(token, secret)] as a step of a handler. *)
Definition verify (token secret : string) : M (option string) :=
  let! w := get_world in
  match jwt_verify token secret (w_now w) with
  | Decoded uid => ret uid
  | VerifyThrows e => throw e
  end.

Definition authenticateToken_try (req : Request) : M unit :=
    (let token := bearer_token req in
     if negb (truthy_token token) then
       respond 401 (error_body "Access token is required" "NO_TOKEN")
     else
       let! userId := verify (token_string token) (access_secret env) in
       let! user := findById_select userId in
       match user with
       | None => respond 401 (error_body "User not found" "INVALID_USER")
       | Some u => do! modify (set_req_user (RDoc u)) in next
       end).

Definition authenticateToken_catch (error : JsError) : M unit :=
       if String.eqb (err_name error) "JsonWebTokenError" then
         respond 403 (error_body "Invalid token" "INVALID_TOKEN")
       else if String.eqb (err_name error) "TokenExpiredError" then
         respond 403 (error_body "Token expired" "TOKEN_EXPIRED")
       else
         respond 500 (error_body "Server error during authentication" "AUTH_SERVER_ERROR").

Definition authenticateToken (req : Request) : M unit :=
  try_catch (authenticateToken_try req) authenticateToken_catch.

Definition optionalAuth (req : Request) : M unit :=
  try_catch
    (let token := bearer_token req in
     do! (if truthy_token token then
            let! userId := verify (token_string token) (access_secret env) in
            let! user := findById_select userId in
            modify (set_req_user (match user with Some u => RDoc u | None => RNull end))
          else ret tt) in
     next)
    (fun _ => next).

Definition generateToken (userId : option string) : M string :=
  let! w := get_world in
  match jwt_sign userId (access_secret env) (access_lifetime env) (w_now w) with
  | Some token => ret token
  | None => throw SignError
  end.

Definition generateRefreshToken (userId : option string) : M string :=
  let! w := get_world in
  match jwt_sign userId (refresh_secret env) "30d" (w_now w) with
  | Some token => ret token
  | None => throw SignError
  end.

(** ** routes/auth.js *)

Definition user_summary (u : User) : list (string * JsVal) :=
  [("id", VStr (u_id u)); ("email", VStr (u_email u)); ("name", VStr (u_name u));
   ("preferences", u_preferences u)].

Definition date_value (t : option Z) : JsVal :=
  match t with
  | Some x => VNum x
  | None => VUndefined
  end.

Definition register_try (req : Request) : M unit :=
    (let email := js_get "email" (body req) in
     let password := js_get "password" (body req) in
     let confirmPassword := js_get "confirmPassword" (body req) in
     let name := js_get "name" (body req) in
     if negb (truthy email) || negb (truthy password) then
       respond 400 (error_body "Email and password are required" "MISSING_FIELDS")
     else if negb (strict_eq password confirmPassword) then
       respond 400 (error_body "Passwords do not match" "PASSWORD_MISMATCH")
     else if js_lt_num (js_length password) 6 then
       respond 400 (error_body "Password must be at least 6 characters long"
                               "PASSWORD_TOO_SHORT")
     else
       let! existingUser := findByEmail email in
       match existingUser with
       | Some _ =>
           respond 400 (error_body "User with this email already exists" "USER_EXISTS")
       | None =>
           let! user := save_new email password (if truthy name then name else VStr "") in
           let! token := generateToken (Some (u_id user)) in
           let! refreshToken := generateRefreshToken (Some (u_id user)) in
           let! w := get_world in
           let! user := save_existing (with_lastLoginAt (w_now w) user) in
           respond 201 (VObj [("message", VStr "User registered successfully");
                              ("user", VObj (user_summary user));
                              ("token", VStr token);
                              ("refreshToken", VStr refreshToken)])
       end).

Definition register_catch (error : JsError) : M unit :=
       if bool_decide (err_code error = Some 11000%Z) then
         respond 400 (error_body "Email already exists" "DUPLICATE_EMAIL")
       else
         respond 500 (error_body "Server error during registration" "REGISTRATION_ERROR").

Definition register (req : Request) : M unit :=
  try_catch (register_try req) register_catch.

Definition login (req : Request) : M unit :=
  try_catch
    (let email := js_get "email" (body req) in
     let password := js_get "password" (body req) in
     if negb (truthy email) || negb (truthy password) then
       respond 400 (error_body "Email and password are required" "MISSING_FIELDS")
     else
       let! found := findByEmail email in
       match found with
       | None =>
           respond 401 (error_body "Invalid email or password" "INVALID_CREDENTIALS")
       | Some user =>
           let! isPasswordValid := comparePassword user password in
           if negb isPasswordValid then
             respond 401 (error_body "Invalid email or password" "INVALID_CREDENTIALS")
           else
             let! token := generateToken (Some (u_id user)) in
             let! refreshToken := generateRefreshToken (Some (u_id user)) in
             let! w := get_world in
             let! user := save_existing (with_lastLoginAt (w_now w) user) in
             respond 200 (VObj [("message", VStr "Login successful");
                                ("user", VObj (user_summary user ++
                                   [("lastLoginAt", date_value (u_lastLoginAt user))]));
                                ("token", VStr token);
                                ("refreshToken", VStr refreshToken)])
       end)
    (fun _ => respond 500 (error_body "Server error during login" "LOGIN_ERROR")).

(** [jwt.verify(v, secret)] on a value of the body: a value that is not
    a string is refused with a [JsonWebTokenError]. *)
Definition verify_value (v : JsVal) (secret : string) : M (option string) :=
  match v with
  | VStr t => verify t secret
  | _ => throw (mkError "JsonWebTokenError" None)
  end.

Definition refresh (req : Request) : M unit :=
  try_catch
    (let refreshToken := js_get "refreshToken" (body req) in
     if negb (truthy refreshToken) then
       respond 401 (error_body "Refresh token is required" "NO_REFRESH_TOKEN")
     else
       let! userId := verify_value refreshToken (refresh_secret env) in
       let! newToken := generateToken userId in
       respond 200 (VObj [("token", VStr newToken)]))
    (fun _ => respond 403 (error_body "Invalid refresh token" "INVALID_REFRESH_TOKEN")).

End Server.

(** ** What the properties of the server speak of *)

(** The header carries no token: it is absent, or its value has no second
    space-separated field, or an empty one. *)
Definition lacks_token (req : Request) : Prop :=
  headers req !! "authorization" = None \/
  exists h, headers req !! "authorization" = Some h /\
            (split_space h !! 1%nat = None \/ split_space h !! 1%nat = Some "").

Definition invalid_token_body : JsVal := error_body "Invalid token" "INVALID_TOKEN".
Definition token_expired_body : JsVal := error_body "Token expired" "TOKEN_EXPIRED".
Definition refresh_reply (token : string) : JsVal := VObj [("token", VStr token)].

(** The next operation on the collection is not scripted to fail. *)
Definition store_answers (w : World) : Prop :=
  match w_faults w with
  | Some _ :: _ => False
  | _ => True
  end.

(** The identity a decode-and-lookup yields, if it yields one. *)
Definition resolved_identity `{!Jwt} (env : Env) (req : Request) (w : World) : option User :=
  if truthy_token (bearer_token req) then
    match jwt_verify (token_string (bearer_token req)) (access_secret env) (w_now w) with
    | Decoded uid =>
        match w_faults w with
        | Some _ :: _ => None
        | _ => select_minus_password <$> lookup_id uid (w_users w)
        end
    | VerifyThrows _ => None
    end
  else None.

(** The request passes the four checks that come before the lookup. *)
Definition passes_validation (req : Request) : Prop :=
  truthy (js_get "email" (body req)) = true
  /\ truthy (js_get "password" (body req)) = true
  /\ strict_eq (js_get "password" (body req)) (js_get "confirmPassword" (body req)) = true
  /\ js_lt_num (js_length (js_get "password" (body req))) 6 = false.

(** ** The client: AuthContext *)

(** The state the reducer manages.  Apart from [isAuthenticated], which
    only ever receives a literal, a field holds whatever an action's
    payload put there. *)
Record SessionState := mkState {
  user : JsVal;
  token : JsVal;
  refreshToken : JsVal;
  isAuthenticated : bool;
  isLoading : JsVal;
  error : JsVal
}.

(** [localStorage.getItem(k)]. *)
Definition getItem (k : string) (storage : gmap string string) : JsVal :=
  match storage !! k with
  | Some s => VStr s
  | None => VNull
  end.

Definition initialState (storage : gmap string string) : SessionState :=
  mkState VNull (getItem "token" storage) (getItem "refreshToken" storage)
          false (VBool true) VNull.

(** An action; the payload of [AUTH_SUCCESS] is the object every dispatch
    of it builds. *)
Inductive Action :=
| AUTH_START
| AUTH_SUCCESS (payload : list (string * JsVal))
| AUTH_FAILURE (payload : JsVal)
| LOGOUT
| SET_LOADING (payload : JsVal)
| CLEAR_ERROR
| UPDATE_USER (payload : JsVal)
| OTHER (type : string).

(** The own enumerable properties that [{...v}] copies. *)
Definition js_spread (v : JsVal) : list (string * JsVal) :=
  match v with
  | VObj f => f
  | VArr l => imap (fun i x => (pretty i, x)) l
  | VStr s => imap (fun i ch => (pretty i, VStr (String ch ""))) (list_ascii_of_string s)
  | _ => []
  end.

Definition authReducer (state : SessionState) (action : Action) : SessionState :=
  match action with
  | AUTH_START =>
      mkState (user state) (token state) (refreshToken state) (isAuthenticated state)
              (VBool true) VNull
  | AUTH_SUCCESS payload =>
      mkState (assoc "user" payload) (assoc "token" payload) (assoc "refreshToken" payload)
              true (VBool false) VNull
  | AUTH_FAILURE payload =>
      mkState VNull VNull VNull false (VBool false) payload
  | LOGOUT =>
      mkState VNull VNull VNull false (VBool false) VNull
  | SET_LOADING payload =>
      mkState (user state) (token state) (refreshToken state) (isAuthenticated state)
              payload (error state)
  | CLEAR_ERROR =>
      mkState (user state) (token state) (refreshToken state) (isAuthenticated state)
              (isLoading state) VNull
  | UPDATE_USER payload =>
      mkState (VObj (js_spread payload ++ js_spread (user state)))
              (token state) (refreshToken state) (isAuthenticated state)
              (isLoading state) (error state)
  | OTHER _ => state
  end.

(** [{...state}]. *)
Definition state_fields (st : SessionState) : list (string * JsVal) :=
  [("user", user st); ("token", token st); ("refreshToken", refreshToken st);
   ("isAuthenticated", VBool (isAuthenticated st)); ("isLoading", isLoading st);
   ("error", error st)].

(** A request configuration; [cfg_retry] is its [_retry] property. *)
Record RequestConfig := mkConfig {
  cfg_url : string;
  cfg_method : string;
  cfg_headers : gmap string string;
  cfg_data : JsVal;
  cfg_retry : bool
}.

(** What the network answers to a request: a status, if a response came
    at all, and a body. *)
Record Reply := mkReply { reply_status : option nat; reply_data : JsVal }.

(** The reason of a rejection: an error of the HTTP client, with the
    configuration of the request and the response if there was one, or an
    error thrown by the code. *)
Inductive Reason :=
| AxiosError (config : RequestConfig) (response : option (nat * JsVal))
| Thrown (e : JsError).

Inductive Settled :=
| Fulfilled (status : nat) (data : JsVal)
| RejectedWith (r : Reason).

(** [Object.is(a, b)] as far as the model has it: there are no references
    here, and two arrays or two objects count as the same when they are
    equal. *)
Fixpoint same_value (a b : JsVal) : bool :=
  match a, b with
  | VUndefined, VUndefined | VNull, VNull => true
  | VBool x, VBool y => Bool.eqb x y
  | VNum x, VNum y => (x =? y)%Z
  | VStr x, VStr y => String.eqb x y
  | VArr x, VArr y =>
      (fix all_same (x y : list JsVal) : bool :=
         match x, y with
         | [], [] => true
         | v :: x', w :: y' => same_value v w && all_same x' y'
         | _, _ => false
         end) x y
  | VObj x, VObj y =>
      (fix all_same (x y : list (string * JsVal)) : bool :=
         match x, y with
         | [], [] => true
         | (k, v) :: x', (l, w) :: y' => String.eqb k l && same_value v w && all_same x' y'
         | _, _ => false
         end) x y
  | _, _ => false
  end.

(** The dependencies of the effect that installs the interceptors,
    [state.token] and [state.refreshToken], are the same in both states. *)
Definition same_tokens (a b : SessionState) : bool :=
  same_value (token a) (token b) && same_value (refreshToken a) (refreshToken b).

(** The client: the reducer's current state, [localStorage], the requests
    handed to the network so far, the answers to the next ones, the
    [state] that the interceptors now installed close over, and the calls
    of [logout] whose request is in flight, each with the [state] that the
    interceptors its request went through close over, the request, and the
    answer that is on its way. *)
Record Client := mkClient {
  c_state : SessionState;
  c_storage : gmap string string;
  c_sent : list RequestConfig;
  c_replies : list Reply;
  c_installed : SessionState;
  c_pending : list (SessionState * RequestConfig * option Reply)
}.

Definition dispatch (a : Action) (c : Client) : Client :=
  mkClient (authReducer (c_state c) a) (c_storage c) (c_sent c) (c_replies c)
           (c_installed c) (c_pending c).
Definition setItem (k v : string) (c : Client) : Client :=
  mkClient (c_state c) (<[k := v]> (c_storage c)) (c_sent c) (c_replies c)
           (c_installed c) (c_pending c).
Definition removeItem (k : string) (c : Client) : Client :=
  mkClient (c_state c) (delete k (c_storage c)) (c_sent c) (c_replies c)
           (c_installed c) (c_pending c).
Definition set_pending (ps : list (SessionState * RequestConfig * option Reply))
    (c : Client) : Client :=
  mkClient (c_state c) (c_storage c) (c_sent c) (c_replies c) (c_installed c) ps.

Definition settle (cfg : RequestConfig) (r : option Reply) : Settled :=
  match r with
  | Some (mkReply (Some s) d) =>
      if ((200 <=? s) && (s <? 300))%nat then Fulfilled s d
      else RejectedWith (AxiosError cfg (Some (s, d)))
  | _ => RejectedWith (AxiosError cfg None)
  end.

(** The request goes out. *)
Definition send (cfg : RequestConfig) (c : Client) : Client :=
  mkClient (c_state c) (c_storage c) (c_sent c ++ [cfg]) (c_replies c)
           (c_installed c) (c_pending c).

(** While the client waits for the network, React commits the render that
    is due: when the tokens of the state differ from those of the render
    that installed the interceptors, the effect ejects them and installs
    new ones, which close over the state of this render. *)
Definition commit (c : Client) : Client :=
  if same_tokens (c_state c) (c_installed c) then c
  else mkClient (c_state c) (c_storage c) (c_sent c) (c_replies c) (c_state c) (c_pending c).

(** The answer to the request just made arrives: it is the next answer
    of the network; a status outside 2xx, or no response, is an error that
    carries the request's configuration. *)
Definition receive (cfg : RequestConfig) (c : Client) : Settled * Client :=
  let c' := commit c in
  (settle cfg (head (c_replies c')),
   mkClient (c_state c') (c_storage c') (c_sent c') (tail (c_replies c'))
            (c_installed c') (c_pending c')).

(** [axios.post(url, data)]. *)
Definition post_config (url : string) (data : JsVal) : RequestConfig :=
  mkConfig url "post" ∅ data false.

(** [v.k], which throws on [undefined] and [null]. *)
Definition js_prop (k : string) (v : JsVal) : option JsVal :=
  match v with
  | VUndefined | VNull => None
  | _ => Some (js_get k v)
  end.

Definition set_retry (cfg : RequestConfig) : RequestConfig :=
  mkConfig (cfg_url cfg) (cfg_method cfg) (cfg_headers cfg) (cfg_data cfg) true.
Definition set_authorization (v : string) (cfg : RequestConfig) : RequestConfig :=
  mkConfig (cfg_url cfg) (cfg_method cfg) (<["Authorization" := v]> (cfg_headers cfg))
           (cfg_data cfg) (cfg_retry cfg).

Section AuthProvider.
Variable API_BASE_URL : string.

(** The request interceptor installed by the render with [state]. *)
Definition requestInterceptor (state : SessionState) (config : RequestConfig)
  : RequestConfig :=
  if truthy (token state)
  then set_authorization ("Bearer " +:+ js_to_string (token state)) config
  else config.

(** The [finally] block of [logout]. *)
Definition logout_finally (c : Client) : Client :=
  dispatch LOGOUT (removeItem "refreshToken" (removeItem "token" c)).

(** [logout()] of the render with [state], as far as it runs before it
    returns to its caller, who does not wait for it: with a token, the
    request goes out, through the interceptors installed at that moment,
    and the rest waits for the answer; without one, the [finally] block
    runs at once. *)
Definition logout (state : SessionState) (c : Client) : Client :=
  if truthy (token state) then
    let cfg := requestInterceptor (c_installed c)
                 (post_config (API_BASE_URL +:+ "/auth/logout") VUndefined) in
    mkClient (c_state c) (c_storage c) (c_sent c ++ [cfg]) (tail (c_replies c))
             (c_installed c) (c_pending c ++ [(c_installed c, cfg, head (c_replies c))])
  else logout_finally c.

Definition refresh_request (state : SessionState) : RequestConfig :=
  post_config (API_BASE_URL +:+ "/auth/refresh")
              (VObj [("refreshToken", refreshToken state)]).

(** The request the interceptor issues again after a renewal. *)
Definition renewed (originalRequest : RequestConfig) (newToken : JsVal) : RequestConfig :=
  set_authorization ("Bearer " +:+ js_to_string newToken) (set_retry originalRequest).

(** [error.response?.status]. *)
Definition response_status (error : Reason) : option nat :=
  match error with
  | AxiosError _ (Some (s, _)) => Some s
  | _ => None
  end.

Section Installed.
(** The global [axios], which the handler below calls and which calls the
    handler: see [axios_fuel]. *)
Variable axios : RequestConfig -> Client -> Settled * Client.

(** The rejection handler of the response interceptor installed by the
    render with [state].  The assignment [originalRequest._retry = true]
    shows in the request issued again. *)
Definition responseInterceptor (state : SessionState) (error : Reason) (c : Client)
  : Settled * Client :=
  match error with
  | AxiosError originalRequest _ =>
      if bool_decide (response_status error = Some 403%nat)
         && negb (cfg_retry originalRequest) then
        let '(refreshed, c1) := axios (refresh_request state) c in
        match refreshed with
        | Fulfilled _ data =>
            match js_prop "token" data with
            | Some newToken =>
                let c2 := setItem "token" (js_to_string newToken) c1 in
                let c3 := dispatch (AUTH_SUCCESS (("token", newToken) :: state_fields state))
                                   c2 in
                axios (renewed originalRequest newToken) c3
            | None => (RejectedWith (Thrown TypeError), logout state c1)
            end
        | RejectedWith refreshError => (RejectedWith refreshError, logout state c1)
        end
      else (RejectedWith error, c)
  | Thrown _ => (RejectedWith error, c)
  end.

End Installed.

(** [axios(config)]: the request goes through the request interceptor
    now installed, out to the network, and its answer through the response
    interceptor installed with it, whose handler calls [axios] in turn.
    Every call that reaches the handler has used up one answer of the
    network, so that [fuel] beyond the number of answers left is never
    used up: see [axios_fuel_enough] and [axios_unfold]. *)
Fixpoint axios_fuel (fuel : nat) (config : RequestConfig) (c : Client) : Settled * Client :=
  match fuel with
  | O => (RejectedWith (Thrown TypeError), c)
  | S fuel' =>
      let state := c_installed c in
      let cfg := requestInterceptor state config in
      let '(settled, c1) := receive cfg (send cfg c) in
      match settled with
      | Fulfilled _ _ => (settled, c1)
      | RejectedWith error => responseInterceptor (axios_fuel fuel') state error c1
      end
  end.

Definition axios (config : RequestConfig) (c : Client) : Settled * Client :=
  axios_fuel (S (length (c_replies c))) config c.

(** The rest of a [logout()] whose request was in flight: the answer
    arrives, through the response interceptor its request went through, a
    rejection is only logged, and the [finally] block runs. *)
Definition resume (p : SessionState * RequestConfig * option Reply) (c : Client)
  : Client :=
  let '(state, cfg, answer) := p in
  let c1 := commit c in
  logout_finally
    match settle cfg answer with
    | Fulfilled _ _ => c1
    | RejectedWith error => snd (responseInterceptor axios state error c1)
    end.

Fixpoint settle_pending (fuel : nat) (c : Client) : Client :=
  match fuel, c_pending c with
  | S fuel', p :: rest => settle_pending fuel' (resume p (set_pending rest c))
  | _, _ => c
  end.

(** The client once every request in flight has been answered; see
    [quiesce_settles]. *)
Definition quiesce (c : Client) : Client :=
  settle_pending (2 * length (c_pending c) + 2 * length (c_replies c)) c.

(** [checkAuthStatus()], run once when the client starts. *)
Definition checkAuthStatus (c : Client) : Client :=
  let stored_token := getItem "token" (c_storage c) in
  if negb (truthy stored_token) then dispatch (SET_LOADING (VBool false)) c
  else
    let '(settled, c1) :=
      axios (mkConfig (API_BASE_URL +:+ "/auth/me") "get"
                      {["Authorization" := "Bearer " +:+ js_to_string stored_token]}
                      VUndefined false) c in
    let failure :=
      dispatch (AUTH_FAILURE (VStr "Session expired"))
               (removeItem "refreshToken" (removeItem "token" c1)) in
    match settled with
    | Fulfilled _ data =>
        match js_prop "user" data with
        | Some u =>
            dispatch (AUTH_SUCCESS [("user", u); ("token", stored_token);
                                    ("refreshToken", getItem "refreshToken" (c_storage c1))])
                     c1
        | None => failure
        end
    | RejectedWith _ => failure
    end.

End AuthProvider.

(** The answers left, and with them the calls of [logout] in flight. *)
Definition answers_left (c : Client) : nat := length (c_replies c).
Definition in_flight (c : Client) : nat :=
  length (c_pending c) + length (omap snd (c_pending c)) + 2 * length (c_replies c).

(** The status of the answer that comes next, if one comes with a status. *)
Definition next_status (c : Client) : option nat :=
  match head (c_replies c) with
  | Some r => reply_status r
  | None => None
  end.

(** What the [finally] block of [logout] leaves. *)
Definition logged_out (c : Client) : Prop :=
  c_state c = mkState VNull VNull VNull false (VBool false) VNull
  /\ c_storage c !! "token" = None
  /\ c_storage c !! "refreshToken" = None.

(** What identifies an account and lets its owner in. *)
Definition account (u : User) : string * string * option string * string :=
  (u_id u, u_email u, u_password u, u_name u).

(** No character of the string is a space. *)
Fixpoint space_free (s : string) : bool :=
  match s with
  | EmptyString => true
  | String c r => negb (Ascii.eqb c space) && space_free r
  end.

(** ** The actions of the AuthProvider *)

(** What [login], [register] and [updateProfile] return. *)
Inductive Outcome := Succeeded | Failed (error : JsVal).

(** [error.response?.data?.message || fallback]. *)
Definition failure_message (error : Reason) (fallback : string) : JsVal :=
  let message :=
    match error with
    | AxiosError _ (Some (_, data)) =>
        match data with
        | VUndefined | VNull => VUndefined
        | _ => js_get "message" data
        end
    | _ => VUndefined
    end in
  if truthy message then message else VStr fallback.

Module AuthContext.
Section Actions.
Variable API_BASE_URL : string.

Definition login (email password : JsVal) (c : Client) : Outcome * Client :=
  let c0 := dispatch AUTH_START c in
  let '(settled, c1) :=
    axios API_BASE_URL (post_config (API_BASE_URL +:+ "/auth/login")
                       (VObj [("email", email); ("password", password)])) c0 in
  let failed (error : Reason) :=
    let message := failure_message error "Login failed" in
    (Failed message, dispatch (AUTH_FAILURE message) c1) in
  match settled with
  | Fulfilled _ data =>
      match data with
      | VUndefined | VNull => failed (Thrown TypeError)
      | _ =>
          let user := js_get "user" data in
          let token := js_get "token" data in
          let refreshToken := js_get "refreshToken" data in
          let c2 := setItem "token" (js_to_string token) c1 in
          let c3 := setItem "refreshToken" (js_to_string refreshToken) c2 in
          (Succeeded,
           dispatch (AUTH_SUCCESS [("user", user); ("token", token);
                                   ("refreshToken", refreshToken)]) c3)
      end
  | RejectedWith error => failed error
  end.

Definition register (email password confirmPassword name : JsVal) (c : Client)
  : Outcome * Client :=
  let c0 := dispatch AUTH_START c in
  let '(settled, c1) :=
    axios API_BASE_URL (post_config (API_BASE_URL +:+ "/auth/register")
                       (VObj [("email", email); ("password", password);
                              ("confirmPassword", confirmPassword); ("name", name)])) c0 in
  let failed (error : Reason) :=
    let message := failure_message error "Registration failed" in
    (Failed message, dispatch (AUTH_FAILURE message) c1) in
  match settled with
  | Fulfilled _ data =>
      match data with
      | VUndefined | VNull => failed (Thrown TypeError)
      | _ =>
          let user := js_get "user" data in
          let token := js_get "token" data in
          let refreshToken := js_get "refreshToken" data in
          let c2 := setItem "token" (js_to_string token) c1 in
          let c3 := setItem "refreshToken" (js_to_string refreshToken) c2 in
          (Succeeded,
           dispatch (AUTH_SUCCESS [("user", user); ("token", token);
                                   ("refreshToken", refreshToken)]) c3)
      end
  | RejectedWith error => failed error
  end.

Definition updateProfile (profileData : JsVal) (c : Client) : Outcome * Client :=
  let '(settled, c1) :=
    axios API_BASE_URL
          (mkConfig (API_BASE_URL +:+ "/user/profile") "put" ∅ profileData false) c in
  match settled with
  | Fulfilled _ data =>
      match js_prop "user" data with
      | Some u => (Succeeded, dispatch (UPDATE_USER u) c1)
      | None => (Failed (failure_message (Thrown TypeError) "Profile update failed"), c1)
      end
  | RejectedWith error => (Failed (failure_message error "Profile update failed"), c1)
  end.

Definition clearError (c : Client) : Client := dispatch CLEAR_ERROR c.

End Actions.
End AuthContext.

(** The view [AppContent] selects. *)
Inductive View := Loading | ShowDashboard | ShowAuthForm.

Definition AppContent (st : SessionState) : View :=
  if truthy (isLoading st) then Loading
  else if isAuthenticated st then ShowDashboard else ShowAuthForm.

(** The stored tokens are the ones the session holds. *)
Definition in_sync (c : Client) : Prop :=
  getItem "token" (c_storage c) = token (c_state c)
  /\ getItem "refreshToken" (c_storage c) = refreshToken (c_state c).

(** ** Routes behind the middleware *)

(** [router.METHOD(path, authenticateToken, handler)]: the handler runs
    when, and only when, the middleware has called [next]. *)
Definition behind_auth `{!Jwt} (env : Env) (req : Request) (handler : M unit) : M unit :=
  fun w =>
    let '(r, w1) := authenticateToken env req w in
    if (next_calls w <? next_calls w1)%nat then handler w1 else (r, w1).

(** [GET /me]: the handler reads the document the middleware attached. *)
Definition me_handler : M unit :=
  try_catch
    (let! w := get_world in
     match w_req_user w with
     | RDoc u =>
         respond 200
           (VObj [("user",
                   VObj [("id", VStr (u_id u)); ("email", VStr (u_email u));
                         ("name", VStr (u_name u)); ("preferences", u_preferences u);
                         ("documentHistory", u_documentHistory u);
                         ("lastLoginAt", match u_lastLoginAt u with
                                         | Some t => VNum t
                                         | None => VUndefined
                                         end);
                         ("createdAt", VNum (u_createdAt u))])])
     | _ => throw TypeError
     end)
    (fun _ => respond 500 (error_body "Server error getting profile" "PROFILE_ERROR")).

(** [POST /logout]: nothing but the acknowledgement. *)
Definition logout_handler : M unit :=
  try_catch
    (respond 200 (VObj [("message", VStr "Logout successful")]))
    (fun _ => respond 500 (error_body "Server error during logout" "LOGOUT_ERROR")).

Definition me_route `{!Jwt} (env : Env) (req : Request) : M unit :=
  behind_auth env req me_handler.
Definition logout_route `{!Jwt} (env : Env) (req : Request) : M unit :=
  behind_auth env req logout_handler.

(** ** The document history of a user *)

(** [user.save()] on a document that was read without its password: the
    paths the document carries are written back, the stored password and
    e-mail stay, and the pre-save hook stamps [updatedAt]. *)
Definition save_loaded (u : User) : M User :=
  do! store_op (Save (u_id u)) in
  let! w := get_world in
  let written (v : User) : User :=
    mkUser (u_id v) (u_email v) (u_password v) (u_name u) (u_preferences u)
           (u_documentHistory u) (u_isEmailVerified v) (u_lastLoginAt v)
           (u_createdAt v) (w_now w) in
  do! modify (set_users (map (fun v => if String.eqb (u_id v) (u_id u) then written v else v)
                             (w_users w))) in
  ret (mkUser (u_id u) (u_email u) (u_password u) (u_name u) (u_preferences u)
              (u_documentHistory u) (u_isEmailVerified u) (u_lastLoginAt u)
              (u_createdAt u) (w_now w)).

Definition with_history (h : JsVal) (u : User) : User :=
  mkUser (u_id u) (u_email u) (u_password u) (u_name u) (u_preferences u) h
         (u_isEmailVerified u) (u_lastLoginAt u) (u_createdAt u) (u_updatedAt u).

(** [arr.slice(-50)] when [arr.length > 50]. *)
Definition keep_last_50 (l : list JsVal) : list JsVal :=
  if (50 <? length l)%nat then drop (length l - 50) l else l.

(** [user.addDocumentToHistory(documentData)]: the pushed subdocument
    gets an [_id]; the cast of its other fields is the driver's. *)
Definition addDocumentToHistory (documentData : list (string * JsVal)) (u : User) : M User :=
  match js_prop "saveHistory" (u_preferences u) with
  | None => throw TypeError
  | Some saveHistory =>
      if truthy saveHistory then
        match u_documentHistory u with
        | VArr l =>
            let! w := get_world in
            let id := pretty (w_next_id w) in
            do! modify (set_next_id (N.succ (w_next_id w))) in
            save_loaded
              (with_history (VArr (keep_last_50 (l ++ [VObj (("_id", VStr id) :: documentData)])))
                            u)
        | _ => throw TypeError
        end
      else save_loaded u
  end.

Definition or_else (v d : JsVal) : JsVal := if truthy v then v else d.

(** [POST /document-history], behind the middleware. *)
Definition add_history_handler (req : Request) : M unit :=
  try_catch
    (let! w := get_world in
     match w_req_user w with
     | RDoc user =>
         let documentData :=
           [("filename", js_get "filename" (body req));
            ("originalText", js_get "originalText" (body req));
            ("simplifiedText", js_get "simplifiedText" (body req));
            ("summary", js_get "summary" (body req));
            ("keyPoints", or_else (js_get "keyPoints" (body req)) (VArr []));
            ("warningFlags", or_else (js_get "warningFlags" (body req)) (VArr []));
            ("documentType", or_else (js_get "documentType" (body req)) (VStr "tos"));
            ("processedAt", VNum (w_now w))] in
         let! user' := addDocumentToHistory documentData user in
         do! modify (set_req_user (RDoc user')) in
         match u_documentHistory user' with
         | VArr l =>
             match last l with
             | Some newest =>
                 match js_prop "_id" newest with
                 | Some id =>
                     respond 200 (VObj [("message",
                                         VStr "Document added to history successfully");
                                        ("documentId", id)])
                 | None => throw TypeError
                 end
             | None => throw TypeError
             end
         | _ => throw TypeError
         end
     | _ => throw TypeError
     end)
    (fun _ => respond 500 (error_body "Server error adding document to history"
                                      "DOCUMENT_HISTORY_ERROR")).

(** [doc._id.toString() !== documentId], which throws without an [_id]. *)
Definition other_document (documentId : string) (doc : JsVal) : option bool :=
  match js_prop "_id" doc with
  | Some VUndefined | Some VNull | None => None
  | Some id => Some (negb (String.eqb (js_to_string id) documentId))
  end.

(** [arr.filter(doc => doc._id.toString() !== documentId)]. *)
Fixpoint without_document (documentId : string) (l : list JsVal) : option (list JsVal) :=
  match l with
  | [] => Some []
  | doc :: r =>
      match other_document documentId doc with
      | None => None
      | Some keep =>
          match without_document documentId r with
          | None => None
          | Some r' => Some (if keep then doc :: r' else r')
          end
      end
  end.

(** [DELETE /document-history/:documentId], behind the middleware. *)
Definition delete_history_handler (documentId : string) : M unit :=
  try_catch
    (let! w := get_world in
     match w_req_user w with
     | RDoc user =>
         match u_documentHistory user with
         | VArr l =>
             match without_document documentId l with
             | Some l' =>
                 do! modify (set_req_user (RDoc (with_history (VArr l') user))) in
                 let! saved := save_loaded (with_history (VArr l') user) in
                 respond 200 (VObj [("message",
                                     VStr "Document removed from history successfully")])
             | None => throw TypeError
             end
         | _ => throw TypeError
         end
     | _ => throw TypeError
     end)
    (fun _ => respond 500 (error_body "Server error deleting document from history"
                                      "DELETE_HISTORY_ERROR")).

(** [DELETE /document-history], behind the middleware. *)
Definition clear_history_handler : M unit :=
  try_catch
    (let! w := get_world in
     match w_req_user w with
     | RDoc user =>
         do! modify (set_req_user (RDoc (with_history (VArr []) user))) in
         let! saved := save_loaded (with_history (VArr []) user) in
         respond 200 (VObj [("message", VStr "Document history cleared successfully")])
     | _ => throw TypeError
     end)
    (fun _ => respond 500 (error_body "Server error clearing document history"
                                      "CLEAR_HISTORY_ERROR")).

(** ** What the further properties of the server speak of *)

Section ServerNotions.
Context `{!Jwt} `{!Bcrypt} (env : Env).

(** The error the [try] block of the middleware throws, if it throws:
    the one [jwt.verify] throws, else the one the lookup throws. *)
Definition thrown_in_middleware (req : Request) (w : World) : option JsError :=
  if truthy_token (bearer_token req) then
    match jwt_verify (token_string (bearer_token req)) (access_secret env) (w_now w) with
    | VerifyThrows e => Some e
    | Decoded _ =>
        match w_faults w with
        | Some e :: _ => Some e
        | _ => None
        end
    end
  else None.

(** The request and the collection let a registration go through. *)
Definition registrable (req : Request) (w : World) (e p nm : string) : Prop :=
  js_get "email" (body req) = VStr e /\ e <> ""
  /\ js_get "password" (body req) = VStr p
  /\ js_get "confirmPassword" (body req) = VStr p
  /\ (6 <= String.length p)%nat
  /\ cast_string (or_else (js_get "name" (body req)) (VStr "")) = Some nm
  /\ email_matches env (js_trim (to_lower e)) = true
  /\ (String.length (js_trim nm) <= 50)%nat
  /\ w_faults w = []
  /\ lookup_email (js_trim (to_lower e)) (w_users w) = None.

(** The document a registration stores. *)
Definition registered (w : World) (e p nm : string) : User :=
  mkUser (pretty (w_next_id w)) (js_trim (to_lower e)) (Some (bcrypt_hash p)) (js_trim nm)
         default_preferences (VArr []) false (Some (w_now w)) (w_now w) (w_now w).

(** [jwt.sign] gives the two tokens for the subject [id] at the time of [w]. *)
Definition signs (id : string) (w : World) (access refresh : string) : Prop :=
  jwt_sign (Some id) (access_secret env) (access_lifetime env) (w_now w) = Some access
  /\ jwt_sign (Some id) (refresh_secret env) "30d" (w_now w) = Some refresh.

End ServerNotions.

(** ** The client in front of the server *)

(** The answers a client gets from a handler run in [w]: the responses
    the handler sent, in order. *)
Definition answered (handler : M unit) (w : World) : list Reply :=
  map (fun '(status, data) => mkReply (Some status) data)
      (drop (length (responses w)) (responses (run handler w))).

(** The refresh call of the handler installed by the render with [state],
    as it goes out. *)
Definition refresh_call (API_BASE_URL : string) (state : SessionState) : RequestConfig :=
  requestInterceptor state
    (mkConfig (API_BASE_URL +:+ "/auth/refresh") "post" ∅
              (VObj [("refreshToken", refreshToken state)]) false).

(** The request as the server gets it: the names of the headers arrive in
    lower case, and the data is the body, whose trip as JSON changes none
    of the values the properties send (strings and [null]; a field that
    is [undefined] is left out, and reads as [undefined]). *)
Definition received (cfg : RequestConfig) : Request :=
  mkRequest (list_to_map (prod_map to_lower id <$> map_to_list (cfg_headers cfg)))
            (cfg_data cfg).

(** ** The states the reducer reaches *)

Definition nullish (v : JsVal) : bool :=
  match v with
  | VUndefined | VNull => true
  | _ => false
  end.

(** The state after a run of actions from the initial state. *)
Definition reached (storage : gmap string string) (actions : list Action) : SessionState :=
  fold_left authReducer actions (initialState storage).

(** [isAuthenticated] implies that both tokens and the user are there. *)
Definition consistent (st : SessionState) : Prop :=
  isAuthenticated st = true ->
  nullish (token st) = false /\ nullish (refreshToken st) = false
  /\ nullish (user st) = false.

(** An [AUTH_SUCCESS] that carries a user and both tokens. *)
Definition complete (a : Action) : Prop :=
  match a with
  | AUTH_SUCCESS p =>
      nullish (assoc "user" p) = false /\ nullish (assoc "token" p) = false
      /\ nullish (assoc "refreshToken" p) = false
  | _ => True
  end.

(** ** A small implementation of the two library interfaces

    Tokens are written in clear: a flag ([x] for a lifetime of ["0"], which
    is over as soon as it starts, [v] otherwise), the subject preceded by
    its length in unary, and the secret.  It satisfies the laws of [Jwt]
    and is used to run the handlers on concrete requests. *)
Module Demo.

Fixpoint ones (n : nat) : string :=
  match n with
  | O => ""
  | S k => String "1" (ones k)
  end.

Definition encode_subject (u : option string) : string :=
  match u with
  | Some s => ones (String.length s) +:+ "0" +:+ s
  | None => "n"
  end.

Definition flag (expiresIn : string) : string :=
  if String.eqb expiresIn "0" then "x" else "v".

Definition token_for (u : option string) (secret expiresIn : string) : string :=
  flag expiresIn +:+ encode_subject u +:+ secret.

(** The lifetimes signing accepts: those that start with a digit. *)
Definition timespan (expiresIn : string) : bool :=
  match expiresIn with
  | String c _ => (("0" <=? c) && (c <=? "9"))%char
  | EmptyString => false
  end.

Definition sign (u : option string) (secret expiresIn : string) (now : Z) : option string :=
  if timespan expiresIn then Some (token_for u secret expiresIn) else None.

Fixpoint count_ones (s : string) : option (nat * string) :=
  match s with
  | String c r =>
      if Ascii.eqb c "1" then
        match count_ones r with
        | Some (n, t) => Some (S n, t)
        | None => None
        end
      else if Ascii.eqb c "0" then Some (O, r)
      else None
  | EmptyString => None
  end.

Fixpoint take_chars (n : nat) (s : string) : option (string * string) :=
  match n, s with
  | O, _ => Some ("", s)
  | S k, String c r =>
      match take_chars k r with
      | Some (a, b) => Some (String c a, b)
      | None => None
      end
  | S _, EmptyString => None
  end.

Definition parse_subject (s : string) : option (option string * string) :=
  match s with
  | String c r =>
      if Ascii.eqb c "n" then Some (None, r)
      else match count_ones s with
           | Some (n, t) =>
               match take_chars n t with
               | Some (u, rest) => Some (Some u, rest)
               | None => None
               end
           | None => None
           end
  | EmptyString => None
  end.

(** The flag (is the token expired?), the subject and the secret. *)
Definition parse (t : string) : option (bool * option string * string) :=
  match t with
  | String c r =>
      if Ascii.eqb c "x" || Ascii.eqb c "v" then
        match parse_subject r with
        | Some (u, secret) => Some (Ascii.eqb c "x", u, secret)
        | None => None
        end
      else None
  | EmptyString => None
  end.

Definition verify (t secret : string) (now : Z) : Verified :=
  match parse t with
  | Some (expired, u, signed_with) =>
      if negb (String.eqb signed_with secret) then
        VerifyThrows (mkError "JsonWebTokenError" None)
      else if expired then VerifyThrows (mkError "TokenExpiredError" None)
      else Decoded u
  | None => VerifyThrows (mkError "JsonWebTokenError" None)
  end.

Definition decode (t : string) : option (option string) :=
  match parse t with
  | Some (_, u, _) => Some u
  | None => None
  end.

Definition env : Env := mkEnv None None None (fun _ => true).

Definition world (us : list User) (fs : list (option JsError)) : World :=
  mkWorld us fs 1000 1 RUndefined [].

Definition alice : User :=
  mkUser "a1" "alice@example.com" (Some "$secret1") "Alice" default_preferences
         (VArr []) false None 10 10.

Definition with_header (h : string) : Request :=
  mkRequest {["authorization" := h]} (VObj []).

Definition with_body (fields : list (string * JsVal)) : Request :=
  mkRequest ∅ (VObj fields).

End Demo.

(** ** Sample requests, worlds and clients *)

Module Samples.
Import Demo.

Definition valid_token : string := token_for (Some "a1") "your-secret-key" "7d".
Definition expired_token : string := token_for (Some "a1") "your-secret-key" "0".
Definition foreign_token : string := token_for (Some "a1") "another-secret" "7d".
Definition alice_refresh_token : string :=
  token_for (Some "a1") "your-refresh-secret-key" "30d".
Definition stale_refresh_token : string :=
  token_for (Some "gone") "your-refresh-secret-key" "30d".

(** An environment whose [JWT_EXPIRES_IN] is not a time span. *)
Definition misconfigured : Env := mkEnv None None (Some "soon") (fun _ => true).

Definition bearer (t : string) : Request := with_header ("Bearer " +:+ t).

Definition credentials (email password : string) : Request :=
  with_body [("email", VStr email); ("password", VStr password)].

Definition registration (email password confirm : JsVal) : Request :=
  with_body [("email", email); ("password", password); ("confirmPassword", confirm)].

Definition store_down : option JsError := Some (mkError "MongoNetworkError" None).

Definition api : string := "http://localhost:5000/api".

Definition signed_in : SessionState :=
  mkState (VObj [("id", VStr "a1")]) (VStr "old") (VStr "r1") true (VBool false) VNull.

Definition profile_request : RequestConfig :=
  mkConfig (api +:+ "/user/profile") "get" {["Authorization" := "Bearer old"]}
           VUndefined false.

Definition forbidden : option (nat * JsVal) :=
  Some (403%nat, error_body "Token expired" "TOKEN_EXPIRED").

Definition renewal : Reply := mkReply (Some 200%nat) (VObj [("token", VStr "new")]).
Definition profile : Reply := mkReply (Some 200%nat) (VObj [("user", VObj [])]).
Definition refused : Reply :=
  mkReply (Some 403%nat) (error_body "Token expired" "TOKEN_EXPIRED").
Definition no_refresh_token : Reply :=
  mkReply (Some 401%nat) (error_body "Refresh token is required" "NO_REFRESH_TOKEN").

(** The client starts with stored tokens; the stored access token has
    expired. *)
Definition stored : gmap string string :=
  <["token" := "old"]> (<["refreshToken" := "r1"]> ∅).

Definition client (replies : list Reply) : Client :=
  mkClient signed_in stored [] replies signed_in [].

Definition me_request : RequestConfig :=
  mkConfig (api +:+ "/auth/me") "get" {["Authorization" := "Bearer old"]} VUndefined false.

Definition starting : Client :=
  mkClient (initialState stored) stored [] [renewal; profile] (initialState stored) [].

Definition renewal_action : Action :=
  AUTH_SUCCESS (("token", VStr "new") :: state_fields (initialState stored)).

(** Only the access token is stored. *)
Definition stored_half : gmap string string := <["token" := "t1"]> ∅.

Definition starting_half : Client :=
  mkClient (initialState stored_half) stored_half []
           [mkReply (Some 200%nat) (VObj [("user", VObj [("id", VStr "a1")])])]
           (initialState stored_half) [].

Definition bootstrap_action : Action :=
  AUTH_SUCCESS [("user", VObj [("id", VStr "a1")]); ("token", VStr "t1");
                ("refreshToken", VNull)].

Definition login_payload : list (string * JsVal) :=
  [("user", VObj [("id", VStr "a1")]); ("token", VStr "t1"); ("refreshToken", VStr "r1")].

Definition session : list Action :=
  [AUTH_START; AUTH_SUCCESS login_payload; UPDATE_USER (VObj [("name", VStr "Al")])].

End Samples.

(** ** Further sample requests, worlds and clients *)

Module Cases.
Import Demo Samples.

Definition bob_registration : Request :=
  with_body [("email", VStr "Bob@Example.com"); ("password", VStr "secret9");
             ("confirmPassword", VStr "secret9"); ("name", VStr " Bob ")].

Definition document (id : string) : JsVal :=
  VObj [("_id", VStr id); ("filename", VStr "terms.txt")].

(** A user whose history is full. *)
Definition hoarder : User :=
  mkUser "h1" "hoarder@example.com" (Some "$secret3") "Hoarder" default_preferences
         (VArr (replicate 50 (document "old"))) false None 10 10.

(** A user who has switched the history off. *)
Definition pat : User :=
  mkUser "p1" "pat@example.com" (Some "$secret2") "Pat"
         (VObj [("theme", VStr "dark"); ("saveHistory", VBool false)])
         (VArr []) false None 10 10.

(** A user with two documents. *)
Definition reader : User :=
  mkUser "r1" "reader@example.com" (Some "$secret4") "Reader" default_preferences
         (VArr [document "d1"; document "d2"]) false None 10 10.

(** The world a handler behind the middleware starts in: the middleware
    has attached the document of [u], read without its password. *)
Definition admitted (u : User) (fs : list (option JsError)) : World :=
  mkWorld [u] fs 1000 1 (RDoc (select_minus_password u)) [].

Definition upload : Request := with_body [("filename", VStr "terms.txt")].

Definition signed_out : Client :=
  mkClient (initialState stored) stored [] [] (initialState stored) [].

Definition answering (replies : list Reply) : Client :=
  mkClient (initialState stored) stored [] replies (initialState stored) [].

Definition login_answer : Reply := mkReply (Some 200%nat) (VObj login_payload).

Definition bad_credentials : Reply :=
  mkReply (Some 401%nat) (error_body "Invalid email or password" "INVALID_CREDENTIALS").

(** A session whose refresh token is the one of [alice]. *)
Definition alice_session : SessionState :=
  mkState (VObj [("id", VStr "a1")]) (VStr expired_token) (VStr alice_refresh_token)
          true (VBool false) VNull.

(** A session without a refresh token: only the access token was stored
    when the client started. *)
Definition half_session : SessionState :=
  mkState (VObj [("id", VStr "a1")]) (VStr "t1") VNull true (VBool false) VNull.

(** A client whose refresh call is answered as the route answers it, and
    whose later requests by [rest]. *)
Definition renewing (rest : list Reply) : Client :=
  mkClient alice_session stored []
           (mkReply (Some 200%nat) (VObj [("token", VStr valid_token)]) :: rest)
           alice_session [].

Definition half_renewing (rest : list Reply) : Client :=
  mkClient half_session stored_half [] (no_refresh_token :: rest) half_session [].

End Cases.

(** * Properties *)

(** ** Reading a log *)

Lemma responses_add_event e w :
  responses (add_event e w)
  = responses w ++ match e with Respond c b => [(c, b)] | _ => [] end.
Proof. unfold responses, add_event; simpl. rewrite omap_app. now destruct e. Qed.

Lemma next_calls_add_event e w :
  next_calls (add_event e w)
  = (next_calls w + match e with Next => 1 | _ => 0 end)%nat.
Proof.
  unfold next_calls, add_event; simpl. rewrite omap_app, length_app. now destruct e.
Qed.

Lemma store_calls_add_event e w :
  store_calls (add_event e w)
  = store_calls w ++ match e with Store c => [c] | _ => [] end.
Proof. unfold store_calls, add_event; simpl. rewrite omap_app. now destruct e. Qed.

(** Unfolds the monad so that a handler steps by computation. *)
Ltac handler_steps :=
  unfold run, try_catch, bind, ret, throw, respond, next, emit, modify, get_world in *;
  simpl in *.

Lemma strict_eq_primitive a b : strict_eq a b = true -> primitive a = true.
Proof. destruct a, b; simpl; congruence. Qed.

(** ** Strings, on examples *)

Example split_space_bearer :
  split_space "Bearer abc.def" = ["Bearer"; "abc.def"]
  /\ split_space "Bearer" = ["Bearer"]
  /\ split_space "Bearer " = ["Bearer"; ""]
  /\ split_space "Bearer  abc" = ["Bearer"; ""; "abc"]
  /\ split_space "" = [""].
Proof. repeat split. Qed.

Example to_lower_email : to_lower "Alice@Example.COM" = "alice@example.com".
Proof. reflexivity. Qed.

Example js_trim_name : js_trim "  Al  ice " = "Al  ice".
Proof. reflexivity. Qed.

(** ** The sample implementation satisfies the laws of [Jwt] *)

Module DemoLaws.
Import Demo.

Lemma append_cons c a b : String c a +:+ b = String c (a +:+ b).
Proof. reflexivity. Qed.

Lemma append_nil b : "" +:+ b = b.
Proof. reflexivity. Qed.

Lemma count_ones_ones n r : count_ones (ones n +:+ String "0" r) = Some (n, r).
Proof.
  induction n as [|n IH]; simpl; rewrite ?append_cons, ?append_nil; simpl;
    [reflexivity|]. now rewrite IH.
Qed.

Lemma take_chars_append s r : take_chars (String.length s) (s +:+ r) = Some (s, r).
Proof.
  induction s as [|c s IH]; simpl; rewrite ?append_cons, ?append_nil; simpl;
    [reflexivity|]. now rewrite IH.
Qed.

Lemma ones_not_n n r :
  exists c t, ones n +:+ String "0" r = String c t /\ Ascii.eqb c "n" = false.
Proof. destruct n; simpl; rewrite ?append_cons, ?append_nil; eauto. Qed.

Lemma parse_subject_encode u r : parse_subject (encode_subject u +:+ r) = Some (u, r).
Proof.
  destruct u as [s|]; [|reflexivity].
  unfold parse_subject, encode_subject.
  assert (E : (ones (String.length s) +:+ "0" +:+ s) +:+ r
              = ones (String.length s) +:+ String "0" (s +:+ r)).
  { generalize (String.length s) as n.
    induction n as [|n IH]; simpl; rewrite ?append_cons, ?append_nil;
      [reflexivity | now rewrite <- IH]. }
  rewrite E.
  destruct (ones_not_n (String.length s) (s +:+ r)) as (c & t & Hc & Hn).
  rewrite Hc, Hn, <- Hc, count_ones_ones, take_chars_append. reflexivity.
Qed.

Lemma decode_sign u s e now t : sign u s e now = Some t -> decode t = Some u.
Proof.
  unfold sign. destruct (timespan e); [|discriminate]. intros [= <-].
  unfold decode, token_for, parse, flag.
  destruct (String.eqb e "0"); rewrite append_cons, append_nil; simpl;
    now rewrite parse_subject_encode.
Qed.

Lemma verify_decode t s now u : verify t s now = Decoded u -> decode t = Some u.
Proof.
  unfold verify, decode. destruct (parse t) as [[[x v] k]|]; [|discriminate].
  destruct (negb (String.eqb k s)); [discriminate|].
  destruct x; [discriminate|]. now intros [= ->].
Qed.

#[export] Instance jwt : Jwt :=
  {| jwt_sign := sign; jwt_verify := verify; jwt_decode := decode;
     jwt_decode_sign := decode_sign; jwt_verify_decode := verify_decode |}.

#[export] Instance bcrypt : Bcrypt :=
  {| bcrypt_hash := fun p => String "$" p;
     bcrypt_compare := fun c h => String.eqb (String "$" c) h |}.

End DemoLaws.

Section Middleware.
Context `{!Jwt} (env : Env).

Lemma lacks_token_falsy req : lacks_token req -> truthy_token (bearer_token req) = false.
Proof.
  unfold lacks_token, bearer_token.
  intros [-> | (h & -> & Hh)]; [reflexivity|].
  destruct (String.eqb h ""); [reflexivity|]. now destruct Hh as [-> | ->].
Qed.

(** C3, as amended: a request whose Authorization header is absent, or
    whose value has no second space-separated field or an empty one, is
    answered 401 NO_TOKEN and nothing else happens: the request is not
    forwarded.  The word before the first space is not looked at. *)
Theorem authenticateToken_no_token req w :
  lacks_token req ->
  run (authenticateToken env req) w
  = add_event (Respond 401 (error_body "Access token is required" "NO_TOKEN")) w
  /\ next_calls (run (authenticateToken env req) w) = next_calls w.
Proof.
  intros Hl%lacks_token_falsy.
  assert (E : run (authenticateToken env req) w
              = add_event (Respond 401 (error_body "Access token is required" "NO_TOKEN")) w).
  { unfold authenticateToken, authenticateToken_try. rewrite Hl. reflexivity. }
  split; [exact E|]. rewrite E, next_calls_add_event. lia.
Qed.

Lemma authenticateToken_verify_throws req w e :
  truthy_token (bearer_token req) = true ->
  jwt_verify (token_string (bearer_token req)) (access_secret env) (w_now w)
  = VerifyThrows e ->
  run (authenticateToken env req) w = run (authenticateToken_catch e) w.
Proof.
  intros Ht Hv. unfold authenticateToken, authenticateToken_try, verify.
  rewrite Ht. handler_steps. now rewrite Hv.
Qed.

(** C4: a presented token that [jwt.verify] refuses as invalid is
    answered 403 INVALID_TOKEN, one it refuses as expired is answered 403
    TOKEN_EXPIRED, the two answers differ, and the request is not
    forwarded. *)
Theorem authenticateToken_bad_token req w e :
  truthy_token (bearer_token req) = true ->
  jwt_verify (token_string (bearer_token req)) (access_secret env) (w_now w)
  = VerifyThrows e ->
  (err_name e = "JsonWebTokenError" ->
   run (authenticateToken env req) w = add_event (Respond 403 invalid_token_body) w)
  /\ (err_name e = "TokenExpiredError" ->
      run (authenticateToken env req) w = add_event (Respond 403 token_expired_body) w)
  /\ invalid_token_body <> token_expired_body
  /\ next_calls (run (authenticateToken env req) w) = next_calls w.
Proof.
  intros Ht Hv. rewrite (authenticateToken_verify_throws req w e Ht Hv).
  unfold authenticateToken_catch. repeat split.
  - intros ->. reflexivity.
  - intros ->. reflexivity.
  - discriminate.
  - destruct (String.eqb (err_name e) "JsonWebTokenError");
      [|destruct (String.eqb (err_name e) "TokenExpiredError")];
      unfold run, respond, emit, modify; simpl; rewrite next_calls_add_event; lia.
Qed.

(** In a collection whose ids are unique, the lookup of the id of a
    stored document yields that document. *)
Lemma lookup_id_stored u us :
  NoDup (map u_id us) -> In u us -> lookup_id (Some (u_id u)) us = Some u.
Proof.
  induction us as [|v us IH]; simpl; intros Hn Hu; [contradiction|].
  apply NoDup_cons in Hn as [Hv Hn].
  destruct Hu as [-> | Hu]; [now rewrite String.eqb_refl|].
  destruct (String.eqb_spec (u_id v) (u_id u)) as [E|_]; [|now apply IH].
  exfalso. apply Hv. rewrite E. apply list_elem_of_In, in_map, Hu.
Qed.

(** C8: a presented token that verifies, with the id of a stored
    document as its subject, attaches that document to the request, field
    by field but without its password hash, and calls [next] once; no
    response is sent and the collection is unchanged. *)
Theorem authenticateToken_forwards req w u :
  truthy_token (bearer_token req) = true ->
  jwt_verify (token_string (bearer_token req)) (access_secret env) (w_now w)
  = Decoded (Some (u_id u)) ->
  store_answers w ->
  In u (w_users w) ->
  NoDup (map u_id (w_users w)) ->
  let w' := run (authenticateToken env req) w in
  w_req_user w'
  = RDoc (mkUser (u_id u) (u_email u) None (u_name u) (u_preferences u)
                 (u_documentHistory u) (u_isEmailVerified u) (u_lastLoginAt u)
                 (u_createdAt u) (u_updatedAt u))
  /\ next_calls w' = S (next_calls w)
  /\ responses w' = responses w
  /\ w_log w' = w_log w ++ [Store (FindById (Some (u_id u))); Next]
  /\ w_users w' = w_users w.
Proof.
  intros Ht Hv Hs Hin Hnd. pose proof (lookup_id_stored u _ Hnd Hin) as Hu.
  unfold authenticateToken, authenticateToken_try, verify, findById_select, store_op,
    poll_fault, store_answers in *.
  rewrite Ht. handler_steps. rewrite Hv. simpl.
  destruct (w_faults w) as [|[e|] fs]; [|contradiction|]; simpl;
    unfold lookup_id in Hu; rewrite Hu; simpl;
    unfold next_calls, responses; simpl;
    rewrite <- !app_assoc, !omap_app, ?length_app; simpl;
    rewrite ?app_nil_r; repeat split; lia.
Qed.

(** C9: whatever the request, the collection and its faults,
    [optionalAuth] sends no response and calls [next] once; it leaves a
    document in [req.user] only when the decode-and-lookup yielded it. *)
Theorem optionalAuth_always_forwards req w :
  let w' := run (optionalAuth env req) w in
  responses w' = responses w
  /\ next_calls w' = S (next_calls w)
  /\ w_users w' = w_users w
  /\ (resolved_identity env req w = None ->
      w_req_user w' = w_req_user w \/ w_req_user w' = RNull)
  /\ (forall u, resolved_identity env req w = Some u -> w_req_user w' = RDoc u).
Proof.
  unfold optionalAuth, resolved_identity, verify, findById_select, store_op, poll_fault.
  destruct (truthy_token (bearer_token req)); handler_steps.
  - destruct (jwt_verify _ _ _) as [uid|e]; simpl.
    + destruct (w_faults w) as [|[e|] fs]; simpl;
        try destruct (lookup_id uid (w_users w)); simpl;
        unfold next_calls, responses; simpl;
        rewrite <- ?app_assoc, !omap_app, ?length_app; simpl;
        rewrite ?app_nil_r; repeat split; try lia; try (intros; congruence);
        try (intros _; now left); try (intros _; now right).
    + unfold next_calls, responses; simpl;
        rewrite !omap_app, ?length_app; simpl;
        rewrite ?app_nil_r; repeat split; try lia; try (intros; congruence);
        intros _; now left.
  - unfold next_calls, responses; simpl;
      rewrite !omap_app, ?length_app; simpl;
      rewrite ?app_nil_r; repeat split; try lia; try (intros; congruence);
      intros _; now left.
Qed.

End Middleware.

Section Routes.
Context `{!Jwt} `{!Bcrypt} (env : Env).

(** A lookup by e-mail only reads: it logs the call and may use up a
    scripted fault. *)
Lemma findByEmail_reads email w r w1 :
  findByEmail email w = (r, w1) ->
  w_users w1 = w_users w /\ responses w1 = responses w
  /\ next_calls w1 = next_calls w /\ w_now w1 = w_now w.
Proof.
  unfold findByEmail, store_op, poll_fault. destruct email; handler_steps;
    try (intros [= <- <-]; now repeat split).
  destruct (w_faults w) as [|[e|] fs]; simpl; intros [= <- <-]; simpl;
    unfold responses, next_calls; simpl; rewrite !omap_app; simpl;
    rewrite ?app_nil_r, ?length_app; simpl; repeat split; lia.
Qed.

(** A first save that throws has inserted nothing. *)
Lemma save_new_throws email password name w e w1 :
  save_new env email password name w = (Throw e, w1) -> w_users w1 = w_users w.
Proof.
  unfold save_new, store_op, poll_fault. handler_steps.
  destruct (cast_string email), (cast_string password), (cast_string name); simpl;
    try (intros [= <- <-]; reflexivity).
  match goal with |- context [if ?c then _ else _] => destruct c end; simpl;
    [intros [= <- <-]; reflexivity|].
  destruct (w_faults w) as [|[x|] fs]; simpl;
    try (intros [= <- <-]; reflexivity);
    match goal with |- context [lookup_email ?a ?b] => destruct (lookup_email a b) end;
    simpl; try (intros [= <- <-]; reflexivity); discriminate.
Qed.


(** C6, as amended: without a refresh token the answer is 401
    NO_REFRESH_TOKEN; with one that [jwt.verify] refuses, whatever the
    error, it is 403 INVALID_REFRESH_TOKEN; otherwise, when [jwt.sign]
    gives an access token, it is 200 with that token, which embeds the
    subject the refresh token embeds, and the body has no [refreshToken]
    field; when [jwt.sign] throws, it is 403 INVALID_REFRESH_TOKEN again.
    Nothing else happens. *)
Theorem refresh_outcomes req w :
  let rt := js_get "refreshToken" (body req) in
  let w' := run (refresh env req) w in
  let refused :=
    Respond 403 (VObj [("message", VStr "Invalid refresh token");
                       ("error", VStr "INVALID_REFRESH_TOKEN")]) in
  (truthy rt = false ->
   w' = add_event (Respond 401 (VObj [("message", VStr "Refresh token is required");
                                      ("error", VStr "NO_REFRESH_TOKEN")])) w)
  /\ (forall e, truthy rt = true ->
        fst (verify_value rt (refresh_secret env) w) = Throw e ->
        w' = add_event refused w)
  /\ (forall uid newToken, truthy rt = true ->
        fst (verify_value rt (refresh_secret env) w) = Ret uid ->
        jwt_sign uid (access_secret env) (access_lifetime env) (w_now w) = Some newToken ->
        w' = add_event (Respond 200 (VObj [("token", VStr newToken)])) w
        /\ jwt_decode newToken = Some uid
        /\ (forall t, rt = VStr t -> jwt_decode t = Some uid)
        /\ js_get "refreshToken" (VObj [("token", VStr newToken)]) = VUndefined)
  /\ (forall uid, truthy rt = true ->
        fst (verify_value rt (refresh_secret env) w) = Ret uid ->
        jwt_sign uid (access_secret env) (access_lifetime env) (w_now w) = None ->
        w' = add_event refused w).
Proof.
  cbv zeta. unfold refresh.
  assert (Hv' : forall uid, fst (verify_value (js_get "refreshToken" (body req))
                                              (refresh_secret env) w) = Ret uid ->
                exists t, js_get "refreshToken" (body req) = VStr t
                          /\ jwt_verify t (refresh_secret env) (w_now w) = Decoded uid).
  { intros uid. unfold verify_value, verify. handler_steps.
    destruct (js_get "refreshToken" (body req)) as [| | | |t| |]; simpl; try discriminate.
    destruct (jwt_verify t _ _) eqn:E; simpl; [|discriminate].
    intros [= <-]. eauto. }
  split; [|split; [|split]].
  - intros ->. reflexivity.
  - intros e -> He. revert He. unfold verify_value, verify. handler_steps.
    destruct (js_get "refreshToken" (body req)); simpl;
      try (intros [= <-]; reflexivity).
    destruct (jwt_verify _ _ _); simpl; [discriminate | intros [= <-]; reflexivity].
  - intros uid newToken Hrt Hv Hs. rewrite Hrt.
    destruct (Hv' uid Hv) as (t & Ht & Hd). rewrite Ht.
    split; [|split; [|split]].
    + unfold verify_value, verify, generateToken. handler_steps. rewrite Hd. simpl.
      now rewrite Hs.
    + eapply jwt_decode_sign, Hs.
    + intros t' [= <-]. eapply jwt_verify_decode, Hd.
    + reflexivity.
  - intros uid Hrt Hv Hs. rewrite Hrt.
    destruct (Hv' uid Hv) as (t & Ht & Hd). rewrite Ht.
    unfold verify_value, verify, generateToken. handler_steps. rewrite Hd. simpl.
    now rewrite Hs.
Qed.

(** C10, as amended: a refresh token that verifies is answered whatever
    the collection holds and whatever faults it is about to raise: no
    operation on the collection is made, so a subject that resolves to no
    identity is answered the same.  The answer is 200 with the new access
    token when [jwt.sign] gives one, and 403 INVALID_REFRESH_TOKEN when
    [jwt.sign] throws. *)
Theorem refresh_ignores_store req w t uid :
  js_get "refreshToken" (body req) = VStr t ->
  t <> "" ->
  jwt_verify t (refresh_secret env) (w_now w) = Decoded uid ->
  let reply :=
    match jwt_sign uid (access_secret env) (access_lifetime env) (w_now w) with
    | Some newToken => Respond 200 (VObj [("token", VStr newToken)])
    | None => Respond 403 (VObj [("message", VStr "Invalid refresh token");
                                 ("error", VStr "INVALID_REFRESH_TOKEN")])
    end in
  forall us fs,
    let w0 := set_faults fs (set_users us w) in
    run (refresh env req) w0 = add_event reply w0
    /\ store_calls (run (refresh env req) w0) = store_calls w0
    /\ w_faults (run (refresh env req) w0) = fs
    /\ (lookup_id uid us = None ->
        w_log (run (refresh env req) w0) = w_log w ++ [reply]).
Proof.
  intros Hb Ht Hv reply us fs w0.
  assert (E : run (refresh env req) w0 = add_event reply w0).
  { subst reply. unfold refresh, verify_value, verify, generateToken. rewrite Hb. simpl.
    apply String.eqb_neq in Ht. rewrite Ht. handler_steps. rewrite Hv. simpl.
    now destruct (jwt_sign _ _ _ _). }
  rewrite E. split; [reflexivity|]. split; [|split; [reflexivity|]].
  - rewrite store_calls_add_event. subst reply.
    destruct (jwt_sign _ _ _ _); simpl; apply app_nil_r.
  - intros _. reflexivity.
Qed.

Lemma too_short_string p :
  js_lt_num (js_length (VStr p)) 6 = (String.length p <? 6)%nat.
Proof.
  simpl. destruct (Nat.ltb_spec (String.length p) 6), (Z.ltb_spec (Z.of_nat (String.length p)) 6);
    try reflexivity; lia.
Qed.

(** C7: registration answers 400 MISSING_FIELDS when the e-mail or the
    password is missing, else 400 PASSWORD_MISMATCH when the confirmation
    differs, else 400 PASSWORD_TOO_SHORT when the password has fewer than
    six characters, else 400 USER_EXISTS when the e-mail resolves; in
    these cases the collection is unchanged.  An error with code 11000
    thrown by a save is answered 400 DUPLICATE_EMAIL, and when the first
    save throws it the collection is unchanged. *)
Theorem register_validation req w :
  let email := js_get "email" (body req) in
  let password := js_get "password" (body req) in
  let confirmPassword := js_get "confirmPassword" (body req) in
  let name := js_get "name" (body req) in
  let w' := run (register env req) w in
  (truthy email = false \/ truthy password = false ->
   w' = add_event (Respond 400 (error_body "Email and password are required"
                                           "MISSING_FIELDS")) w)
  /\ (truthy email = true -> truthy password = true ->
      strict_eq password confirmPassword = false ->
      w' = add_event (Respond 400 (error_body "Passwords do not match"
                                              "PASSWORD_MISMATCH")) w)
  /\ (truthy email = true -> truthy password = true ->
      strict_eq password confirmPassword = true ->
      js_lt_num (js_length password) 6 = true ->
      w' = add_event (Respond 400 (error_body "Password must be at least 6 characters long"
                                              "PASSWORD_TOO_SHORT")) w)
  /\ (forall u w1, passes_validation req ->
      findByEmail email w = (Ret (Some u), w1) ->
      w' = add_event (Respond 400 (error_body "User with this email already exists"
                                              "USER_EXISTS")) w1
      /\ w_users w' = w_users w)
  /\ (forall e w1, register_try env req w = (Throw e, w1) ->
      err_code e = Some 11000%Z ->
      w' = add_event (Respond 400 (error_body "Email already exists"
                                              "DUPLICATE_EMAIL")) w1)
  /\ (forall e w1 w2, passes_validation req ->
      findByEmail email w = (Ret None, w1) ->
      save_new env email password (if truthy name then name else VStr "") w1
      = (Throw e, w2) ->
      err_code e = Some 11000%Z ->
      w' = add_event (Respond 400 (error_body "Email already exists"
                                              "DUPLICATE_EMAIL")) w2
      /\ w_users w' = w_users w).
Proof.
  cbv zeta. unfold register, register_try, passes_validation.
  split; [|split; [|split; [|split; [|split]]]].
  - intros [-> | ->]; [reflexivity|]. now rewrite orb_true_r.
  - intros -> -> ->. reflexivity.
  - intros -> -> -> ->. reflexivity.
  - intros u w1 (-> & -> & -> & ->) Hf. handler_steps. rewrite Hf. simpl.
    split; [reflexivity|]. now destruct (findByEmail_reads _ _ _ _ Hf) as (-> & _).
  - intros e w1 Hr Hc. unfold run, try_catch. rewrite Hr. unfold register_catch.
    rewrite Hc. reflexivity.
  - intros e w1 w2 (-> & -> & -> & ->) Hf Hs Hc. handler_steps. rewrite Hf. simpl.
    rewrite Hs. simpl. unfold register_catch. rewrite Hc. simpl.
    split; [reflexivity|].
    rewrite (save_new_throws _ _ _ _ _ _ Hs).
    now destruct (findByEmail_reads _ _ _ _ Hf) as (-> & _).
Qed.

End Routes.

(** ** The client *)

Lemma exchange cfg c :
  receive cfg (send cfg c)
  = (settle cfg (head (c_replies c)),
     mkClient (c_state c) (c_storage c) (c_sent c ++ [cfg]) (tail (c_replies c))
              (c_installed (commit c)) (c_pending c)).
Proof. unfold receive, commit, send. simpl. now destruct (same_tokens _ _). Qed.

Lemma settle_fulfilled cfg s data :
  (200 <= s < 300)%nat -> settle cfg (Some (mkReply (Some s) data)) = Fulfilled s data.
Proof.
  intros Hs. unfold settle.
  replace ((200 <=? s)%nat && (s <? 300)%nat) with true; [reflexivity|].
  symmetry. apply andb_true_intro. split; [apply Nat.leb_le | apply Nat.ltb_lt]; lia.
Qed.

Lemma settle_no_answer cfg r error :
  settle cfg r = RejectedWith error -> exists response, error = AxiosError cfg response.
Proof.
  unfold settle. destruct r as [[[s|] d]|]; try (intros [= <-]; eauto).
  destruct (_ && _)%bool; [discriminate | intros [= <-]; eauto].
Qed.

Lemma omap_shorter {A B} (f : A -> option B) (l : list A) :
  length (omap f l) <= length l.
Proof. induction l as [|x l IH]; [reflexivity|]. cbn. destruct (f x); cbn; lia. Qed.

Section Interceptor.
Variable API_BASE_URL : string.

(** Whenever the render that installed it holds a token, the request
    interceptor puts that token in the Authorization header, in place of
    a header that is already there. *)
Lemma requestInterceptor_sets_header state config :
  truthy (token state) = true ->
  cfg_headers (requestInterceptor state config) !! "Authorization"
  = Some ("Bearer " +:+ js_to_string (token state)).
Proof.
  intros Ht. unfold requestInterceptor. rewrite Ht. apply lookup_insert_eq.
Qed.

Lemma requestInterceptor_keeps state config :
  cfg_retry (requestInterceptor state config) = cfg_retry config
  /\ cfg_url (requestInterceptor state config) = cfg_url config
  /\ cfg_method (requestInterceptor state config) = cfg_method config
  /\ cfg_data (requestInterceptor state config) = cfg_data config.
Proof. unfold requestInterceptor. now destruct (truthy (token state)). Qed.

(** A handler whose [axios] uses up answers uses them up too, and leaves
    at most one more [logout] in flight. *)
Lemma responseInterceptor_bounds ax state error c :
  (forall cfg c', answers_left (snd (ax cfg c')) <= answers_left c'
                  /\ in_flight (snd (ax cfg c')) <= in_flight c') ->
  answers_left (snd (responseInterceptor API_BASE_URL ax state error c)) <= answers_left c
  /\ in_flight (snd (responseInterceptor API_BASE_URL ax state error c)) <= S (in_flight c).
Proof.
  intros Hax. unfold responseInterceptor.
  destruct error as [originalRequest response|e]; [|simpl; lia].
  destruct (_ && _)%bool; [|simpl; lia].
  destruct (ax (refresh_request API_BASE_URL state) c) as [refreshed c1] eqn:E.
  pose proof (Hax (refresh_request API_BASE_URL state) c) as [H1 H2].
  rewrite E in H1, H2. simpl in H1, H2.
  assert (Hlogout : answers_left (logout API_BASE_URL state c1) <= answers_left c
                    /\ in_flight (logout API_BASE_URL state c1) <= S (in_flight c)).
  { unfold logout, answers_left, in_flight in *.
    destruct (truthy (token state)); [|simpl; lia].
    destruct (c_replies c1); simpl in *; rewrite omap_app, !length_app; simpl; lia. }
  destruct refreshed as [s data|refreshError]; [|exact Hlogout].
  destruct (js_prop "token" data) as [newToken|]; [|exact Hlogout].
  match goal with |- context [ax ?cfg ?c3] => pose proof (Hax cfg c3) as [H3 H4] end.
  unfold answers_left, in_flight in *. simpl in *. lia.
Qed.

Lemma axios_fuel_bounds fuel : forall config c,
  answers_left (snd (axios_fuel API_BASE_URL fuel config c)) <= answers_left c
  /\ in_flight (snd (axios_fuel API_BASE_URL fuel config c)) <= in_flight c.
Proof.
  induction fuel as [|fuel IH]; intros config c; [simpl; lia|].
  cbn [axios_fuel]. rewrite exchange.
  destruct (c_replies c) as [|r rest] eqn:Hr.
  - simpl. unfold answers_left, in_flight. simpl. rewrite Hr. simpl. lia.
  - destruct (settle _ _) as [s data|error]; simpl.
    + unfold answers_left, in_flight. simpl. rewrite Hr. simpl. lia.
    + match goal with
      | |- context [responseInterceptor _ ?ax ?st error ?c1] =>
          destruct (responseInterceptor_bounds ax st error c1 IH) as [H1 H2]
      end.
      unfold answers_left, in_flight in *. simpl in *. rewrite Hr in *. simpl in *. lia.
Qed.

(** The handler does the same with two versions of [axios] that agree on
    the clients with no more answers left. *)
Lemma responseInterceptor_ext ax ax' state error c :
  (forall cfg c', answers_left c' <= answers_left c -> ax cfg c' = ax' cfg c') ->
  (forall cfg c', answers_left (snd (ax cfg c')) <= answers_left c') ->
  responseInterceptor API_BASE_URL ax state error c
  = responseInterceptor API_BASE_URL ax' state error c.
Proof.
  intros Hsame Hless. unfold responseInterceptor.
  destruct error as [originalRequest response|e]; [|reflexivity].
  destruct (_ && _)%bool; [|reflexivity].
  rewrite <- (Hsame _ c) by lia.
  pose proof (Hless (refresh_request API_BASE_URL state) c) as H1.
  destruct (ax (refresh_request API_BASE_URL state) c) as [refreshed c1].
  destruct refreshed as [s data|refreshError]; [|reflexivity].
  destruct (js_prop "token" data) as [newToken|]; [|reflexivity].
  apply Hsame. unfold answers_left in *. simpl in *. lia.
Qed.

(** Fuel beyond the number of answers left makes no difference. *)
Lemma axios_fuel_enough fuel : forall fuel' config c,
  answers_left c < fuel -> answers_left c < fuel' ->
  axios_fuel API_BASE_URL fuel config c = axios_fuel API_BASE_URL fuel' config c.
Proof.
  induction fuel as [|fuel IH]; intros fuel' config c Hf Hf'; [lia|].
  destruct fuel' as [|fuel']; [lia|]. cbn [axios_fuel]. rewrite exchange.
  destruct (c_replies c) as [|r rest] eqn:Hr.
  - simpl. unfold responseInterceptor. simpl. reflexivity.
  - destruct (settle _ _) as [s data|error]; [reflexivity|].
    apply responseInterceptor_ext.
    + intros cfg c' Hc'. apply IH; unfold answers_left in *; simpl in *;
        rewrite Hr in *; simpl in *; lia.
    + intros cfg c'. apply axios_fuel_bounds.
Qed.

(** [axios] is the function the fuel stands for: a call goes through the
    interceptors installed when it is made, and the handler calls [axios]
    again. *)
Lemma axios_unfold config c :
  axios API_BASE_URL config c
  = let state := c_installed c in
    let cfg := requestInterceptor state config in
    let '(settled, c1) := receive cfg (send cfg c) in
    match settled with
    | Fulfilled _ _ => (settled, c1)
    | RejectedWith error =>
        responseInterceptor API_BASE_URL (axios API_BASE_URL) state error c1
    end.
Proof.
  unfold axios at 1. cbn [axios_fuel]. cbv zeta. rewrite exchange.
  destruct (c_replies c) as [|r rest] eqn:Hr.
  - simpl. unfold responseInterceptor. simpl. reflexivity.
  - destruct (settle _ _) as [s data|error]; [reflexivity|].
    apply responseInterceptor_ext.
    + intros cfg c' Hc'. unfold axios.
      apply axios_fuel_enough; unfold answers_left in *; simpl in *; lia.
    + intros cfg c'. apply axios_fuel_bounds.
Qed.

Lemma axios_bounds config c :
  answers_left (snd (axios API_BASE_URL config c)) <= answers_left c
  /\ in_flight (snd (axios API_BASE_URL config c)) <= in_flight c.
Proof. apply axios_fuel_bounds. Qed.

(** A request that is answered 2xx is fulfilled with that answer; the
    handler is not run. *)
Lemma axios_fulfilled config c s data rest :
  c_replies c = mkReply (Some s) data :: rest ->
  (200 <= s < 300)%nat ->
  axios API_BASE_URL config c
  = (Fulfilled s data,
     mkClient (c_state c) (c_storage c)
              (c_sent c ++ [requestInterceptor (c_installed c) config]) rest
              (c_installed (commit c)) (c_pending c)).
Proof.
  intros Hr Hs. rewrite axios_unfold. cbv zeta. rewrite exchange, Hr. cbn [head tail].
  now rewrite settle_fulfilled by exact Hs.
Qed.

(** A request that is rejected with a status other than 403, or with no
    response, or that is marked as retried, is rejected with that error;
    the handler makes no call. *)
Lemma axios_rejected config c error :
  settle (requestInterceptor (c_installed c) config) (head (c_replies c))
  = RejectedWith error ->
  response_status error <> Some 403%nat \/ cfg_retry config = true ->
  axios API_BASE_URL config c
  = (RejectedWith error,
     mkClient (c_state c) (c_storage c)
              (c_sent c ++ [requestInterceptor (c_installed c) config])
              (tail (c_replies c)) (c_installed (commit c)) (c_pending c)).
Proof.
  intros Hs Hno. rewrite axios_unfold. cbv zeta. rewrite exchange, Hs.
  destruct (settle_no_answer _ _ _ Hs) as [response ->].
  unfold responseInterceptor.
  destruct Hno as [Hno | Hretry].
  - rewrite bool_decide_eq_false_2 by exact Hno. reflexivity.
  - destruct (requestInterceptor_keeps (c_installed c) config) as (-> & _).
    rewrite Hretry, andb_false_r. reflexivity.
Qed.

Lemma responseInterceptor_no_response ax state cfg c :
  responseInterceptor API_BASE_URL ax state (AxiosError cfg None) c
  = (RejectedWith (AxiosError cfg None), c).
Proof.
  unfold responseInterceptor. now rewrite bool_decide_eq_false_2 by discriminate.
Qed.

(** Every call of [logout] in flight is answered in the end. *)
Lemma settle_pending_settles fuel : forall c,
  in_flight c <= fuel -> c_pending (settle_pending API_BASE_URL fuel c) = [].
Proof.
  induction fuel as [|fuel IH]; intros c Hc.
  - simpl. unfold in_flight in Hc. destruct (c_pending c); [reflexivity | simpl in Hc; lia].
  - simpl. destruct (c_pending c) as [|p rest] eqn:Hp; [exact Hp|].
    apply IH. unfold resume. destruct p as [[state cfg] answer].
    unfold in_flight in Hc. rewrite Hp in Hc.
    assert (Hcommit : in_flight (commit (set_pending rest c))
                      + match answer with Some _ => 2 | None => 1 end = in_flight c).
    { unfold in_flight, commit. rewrite Hp.
      destruct (same_tokens _ _), answer; cbn; lia. }
    unfold in_flight in Hcommit. rewrite Hp in Hcommit.
    destruct answer as [r|].
    + destruct (settle _ _) as [s data|error].
      * unfold in_flight, logout_finally in *. cbn in *. lia.
      * match goal with
        | |- context [responseInterceptor _ ?ax ?st error ?c1] =>
            destruct (responseInterceptor_bounds ax st error c1 axios_bounds) as [_ H2]
        end.
        unfold in_flight, logout_finally in *. cbn in *. lia.
    + cbn [settle]. rewrite responseInterceptor_no_response.
      unfold in_flight, logout_finally in *. cbn in *. lia.
Qed.

Lemma quiesce_settles c : c_pending (quiesce API_BASE_URL c) = [].
Proof.
  apply settle_pending_settles. unfold in_flight.
  pose proof (omap_shorter snd (c_pending c)) as Hparked. lia.
Qed.

Lemma logout_finally_logged_out c : logged_out (logout_finally c).
Proof.
  unfold logged_out, logout_finally. simpl.
  split; [reflexivity|]. split; [now rewrite lookup_delete_ne, lookup_delete_eq|].
  apply lookup_delete_eq.
Qed.

(** Once the calls of [logout] in flight are answered, the client is
    logged out: the last thing that runs is a [finally] block. *)
Lemma settle_pending_logged_out fuel : forall c,
  logged_out c \/ (c_pending c <> [] /\ fuel <> O) ->
  logged_out (settle_pending API_BASE_URL fuel c).
Proof.
  induction fuel as [|fuel IH]; intros c [Hc | [Hp Hf]]; try exact Hc; try contradiction.
  - simpl. destruct (c_pending c) as [|p rest]; [exact Hc|].
    apply IH. left. unfold resume. destruct p as [[state cfg] answer].
    apply logout_finally_logged_out.
  - simpl. destruct (c_pending c) as [|p rest]; [contradiction|].
    apply IH. left. unfold resume. destruct p as [[state cfg] answer].
    apply logout_finally_logged_out.
Qed.

(** A request whose answer is no 403 is settled by that answer alone:
    the handler makes no call. *)
Lemma axios_plain config c :
  next_status c <> Some 403%nat ->
  axios API_BASE_URL config c
  = (settle (requestInterceptor (c_installed c) config) (head (c_replies c)),
     mkClient (c_state c) (c_storage c)
              (c_sent c ++ [requestInterceptor (c_installed c) config])
              (tail (c_replies c)) (c_installed (commit c)) (c_pending c)).
Proof.
  intros Hn. destruct (settle (requestInterceptor (c_installed c) config)
                              (head (c_replies c))) as [s data|error] eqn:Hs.
  - rewrite axios_unfold. cbv zeta. now rewrite exchange, Hs.
  - rewrite (axios_rejected config c error Hs); [reflexivity|]. left.
    unfold next_status in Hn. unfold settle in Hs.
    destruct (head (c_replies c)) as [[[st|] d]|]; try (injection Hs as <-; discriminate).
    destruct (_ && _)%bool; [discriminate|]. injection Hs as <-. simpl in *. congruence.
Qed.

(** A request marked as retried is settled by its answer alone. *)
Lemma axios_retried config c :
  cfg_retry config = true ->
  axios API_BASE_URL config c
  = (settle (requestInterceptor (c_installed c) config) (head (c_replies c)),
     mkClient (c_state c) (c_storage c)
              (c_sent c ++ [requestInterceptor (c_installed c) config])
              (tail (c_replies c)) (c_installed (commit c)) (c_pending c)).
Proof.
  intros Hretry. rewrite axios_unfold. cbv zeta. rewrite exchange.
  destruct (settle _ _) as [s data|error] eqn:Hs; [reflexivity|].
  destruct (settle_no_answer _ _ _ Hs) as [response ->].
  unfold responseInterceptor.
  destruct (requestInterceptor_keeps (c_installed c) config) as (-> & _).
  now rewrite Hretry, andb_false_r.
Qed.

Lemma commit_same c state :
  c_installed c = state -> same_tokens (c_state c) state = true -> commit c = c.
Proof. intros <- Hs. unfold commit. now rewrite Hs. Qed.

(** C1, what the handler does: on a 403 for a request not marked as
    retried, with the interceptors of its own render installed, the
    handler makes a refresh call that carries the refresh token of that
    render.  When that call is answered 2xx with a token, the handler
    stores it, and issues the original request again, once, marked as
    retried; the Authorization header of that request is the one the
    request interceptor sets, with the token of the render that installed
    it, and the new token only when that render has none.  The handler
    settles as the request issued again does.  When the refresh call fails
    otherwise than by a 403, the handler rejects with its error, and the
    client is logged out once the [logout] call is answered.  A request
    marked as retried is never issued again. *)
Theorem responseInterceptor_renews_once state originalRequest denied c :
  cfg_retry originalRequest = false ->
  c_installed c = state ->
  same_tokens (c_state c) state = true ->
  printable (token state) = true ->
  let error := AxiosError originalRequest (Some (403%nat, denied)) in
  let refreshing :=
    requestInterceptor state
      (mkConfig (API_BASE_URL +:+ "/auth/refresh") "post" ∅
                (VObj [("refreshToken", refreshToken state)]) false) in
  let out := responseInterceptor API_BASE_URL (axios API_BASE_URL) state error c in
  (forall s data newToken rest,
      c_replies c = mkReply (Some s) data :: rest ->
      (200 <= s < 300)%nat ->
      js_prop "token" data = Some newToken ->
      printable newToken = true ->
      let again := requestInterceptor state (renewed originalRequest newToken) in
      c_sent (snd out) = c_sent c ++ [refreshing; again]
      /\ cfg_retry again = true
      /\ cfg_url again = cfg_url originalRequest
      /\ cfg_headers again !! "Authorization"
         = Some ("Bearer " +:+ js_to_string (if truthy (token state) then token state
                                              else newToken))
      /\ token (c_state (snd out)) = newToken
      /\ c_storage (snd out) !! "token" = Some (js_to_string newToken)
      /\ fst out = settle again (head rest)
      /\ c_replies (snd out) = tail rest)
  /\ (forall refreshError,
      settle refreshing (head (c_replies c)) = RejectedWith refreshError ->
      response_status refreshError <> Some 403%nat ->
      fst out = RejectedWith refreshError
      /\ c_sent (snd out)
         = c_sent c ++ refreshing
             :: (if truthy (token state)
                 then [requestInterceptor state
                         (mkConfig (API_BASE_URL +:+ "/auth/logout") "post" ∅
                                   VUndefined false)]
                 else [])
      /\ (truthy (token state) = false -> logged_out (snd out))
      /\ logged_out (quiesce API_BASE_URL (snd out)))
  /\ (forall response c',
      let failed_again := AxiosError (set_retry originalRequest) response in
      responseInterceptor API_BASE_URL (axios API_BASE_URL) state failed_again c'
      = (RejectedWith failed_again, c')).
Proof.
  intros Hretry Hi Hsame _ error refreshing out. subst error refreshing out.
  pose proof (commit_same c state Hi Hsame) as Hcommit.
  unfold responseInterceptor. simpl. rewrite Hretry. simpl.
  split; [|split].
  - intros s data newToken rest Hr Hs Ht _.
    rewrite (axios_fulfilled _ c s data rest Hr Hs), Hcommit, Hi, Ht.
    rewrite axios_retried by reflexivity. simpl. rewrite ?Hi.
    split; [now rewrite <- app_assoc|].
    split; [now destruct (requestInterceptor_keeps state (renewed originalRequest newToken))
              as (-> & _)|].
    split; [now destruct (requestInterceptor_keeps state (renewed originalRequest newToken))
              as (_ & -> & _)|].
    split; [unfold requestInterceptor; destruct (truthy (token state));
            apply lookup_insert_eq|].
    split; [reflexivity|]. split; [apply lookup_insert_eq|]. split; reflexivity.
  - intros refreshError Hs Hno.
    rewrite (axios_rejected _ c refreshError); [|rewrite Hi; exact Hs | now left].
    rewrite Hcommit, Hi. cbn [fst snd].
    split; [reflexivity|]. unfold logout. cbn [c_installed].
    destruct (truthy (token state)) eqn:Et.
    + split; [simpl; now rewrite <- app_assoc|]. split; [discriminate|].
      unfold quiesce. apply settle_pending_logged_out. right. simpl.
      split; [now destruct (c_pending c) | rewrite length_app; simpl; lia].
    + split; [reflexivity|]. split; [intros _; apply logout_finally_logged_out|].
      unfold quiesce. apply settle_pending_logged_out. left.
      apply logout_finally_logged_out.
  - intros response c'. now rewrite andb_false_r.
Qed.

End Interceptor.

Lemma authReducer_consistent st a :
  complete a -> consistent st -> consistent (authReducer st a).
Proof.
  unfold consistent. destruct a; simpl; intros Hc Hst; try exact Hst; try discriminate.
  - intros _. destruct Hc as (? & ? & ?). auto.
  - intros Ha. destruct (Hst Ha) as (? & ? & ?). auto.
Qed.

Lemma fold_consistent actions : forall st,
  Forall complete actions -> consistent st -> consistent (fold_left authReducer actions st).
Proof.
  induction actions as [|a actions IH]; intros st Hall Hst; [exact Hst|].
  inversion Hall as [|? ? Ha Hrest]; subst. simpl.
  apply IH; [exact Hrest|]. now apply authReducer_consistent.
Qed.

(** C2, as amended: in every state reached from the initial state through
    the named transitions, when each AUTH_SUCCESS among them carries a
    user, an access token and a refresh token that are not null,
    [isAuthenticated] implies that the access token, the refresh token and
    the user are not null. *)
Theorem reached_consistent storage actions :
  Forall complete actions -> consistent (reached storage actions).
Proof.
  intros Hall. apply fold_consistent; [exact Hall|]. unfold consistent. discriminate.
Qed.

(** ** Concrete runs *)

Module Runs.
Import Demo DemoLaws Samples.

(** C3, as stated, fails: a header with another scheme word is not
    answered NO_TOKEN.  [Basic abc] is answered 403 INVALID_TOKEN, and a
    valid token after the word [Basic] is accepted and the request
    forwarded. *)
Lemma authenticateToken_ignores_scheme :
  headers (with_header "Basic abc") !! "authorization" = Some "Basic abc"
  /\ String.prefix "Bearer " "Basic abc" = false
  /\ responses (run (authenticateToken env (with_header "Basic abc")) (world [alice] []))
     = [(403%nat, invalid_token_body)]
  /\ responses (run (authenticateToken env (with_header ("Basic " +:+ valid_token)))
                    (world [alice] [])) = []
  /\ next_calls (run (authenticateToken env (with_header ("Basic " +:+ valid_token)))
                     (world [alice] [])) = 1%nat.
Proof. vm_compute. repeat split. Qed.

Lemma authenticateToken_no_token_run :
  run (authenticateToken env (with_header "Bearer")) (world [alice] [])
  = add_event (Respond 401 (error_body "Access token is required" "NO_TOKEN"))
              (world [alice] [])
  /\ run (authenticateToken env (mkRequest ∅ (VObj []))) (world [alice] [])
     = add_event (Respond 401 (error_body "Access token is required" "NO_TOKEN"))
                 (world [alice] []).
Proof.
  split.
  - apply (authenticateToken_no_token env (with_header "Bearer") (world [alice] [])).
    right. exists "Bearer". split; [reflexivity | left; reflexivity].
  - apply (authenticateToken_no_token env (mkRequest ∅ (VObj [])) (world [alice] [])).
    left. reflexivity.
Defined.

Lemma authenticateToken_bad_token_run :
  run (authenticateToken env (bearer foreign_token)) (world [alice] [])
  = add_event (Respond 403 invalid_token_body) (world [alice] [])
  /\ run (authenticateToken env (bearer expired_token)) (world [alice] [])
     = add_event (Respond 403 token_expired_body) (world [alice] []).
Proof.
  split.
  - apply (authenticateToken_bad_token env (bearer foreign_token) (world [alice] [])
             (mkError "JsonWebTokenError" None)); reflexivity.
  - apply (authenticateToken_bad_token env (bearer expired_token) (world [alice] [])
             (mkError "TokenExpiredError" None)); reflexivity.
Defined.

Lemma authenticateToken_forwards_run :
  w_req_user (run (authenticateToken env (bearer valid_token)) (world [alice] []))
  = RDoc (mkUser "a1" "alice@example.com" None "Alice" default_preferences
                 (VArr []) false None 10 10)
  /\ next_calls (run (authenticateToken env (bearer valid_token)) (world [alice] []))
     = 1%nat.
Proof.
  destruct (authenticateToken_forwards env (bearer valid_token) (world [alice] []) alice)
    as (A & B & _);
    [reflexivity | reflexivity | exact I | left; reflexivity
    | simpl; constructor; [apply not_elem_of_nil | constructor] |].
  split; [exact A | exact B].
Defined.

Lemma optionalAuth_store_fault_run :
  responses (run (optionalAuth env (bearer valid_token))
                 (world [alice] [store_down])) = []
  /\ next_calls (run (optionalAuth env (bearer valid_token))
                     (world [alice] [store_down])) = 1%nat.
Proof.
  destruct (optionalAuth_always_forwards env (bearer valid_token)
              (world [alice] [store_down]))
    as (A & B & _).
  split; [exact A | exact B].
Defined.



(** C6, as stated, fails: with a [JWT_EXPIRES_IN] that is not a time span
    a refresh token that verifies is answered 403, not 200. *)
Lemma refresh_refused_when_signing_throws :
  fst (verify_value (VStr alice_refresh_token) (refresh_secret misconfigured)
                    (world [alice] []))
  = Ret (Some "a1")
  /\ responses (run (refresh misconfigured
                             (with_body [("refreshToken", VStr alice_refresh_token)]))
                    (world [alice] []))
     = [(403%nat, error_body "Invalid refresh token" "INVALID_REFRESH_TOKEN")].
Proof. split; reflexivity. Qed.

Lemma refresh_outcomes_run :
  run (refresh env (with_body [])) (world [] [])
  = add_event (Respond 401 (error_body "Refresh token is required" "NO_REFRESH_TOKEN"))
              (world [] [])
  /\ run (refresh env (with_body [("refreshToken", VStr valid_token)])) (world [] [])
     = add_event (Respond 403 (error_body "Invalid refresh token" "INVALID_REFRESH_TOKEN"))
                 (world [] [])
  /\ run (refresh env (with_body [("refreshToken", VStr alice_refresh_token)]))
         (world [alice] [])
     = add_event (Respond 200 (VObj [("token", VStr valid_token)])) (world [alice] [])
  /\ run (refresh misconfigured (with_body [("refreshToken", VStr alice_refresh_token)]))
         (world [alice] [])
     = add_event (Respond 403 (error_body "Invalid refresh token" "INVALID_REFRESH_TOKEN"))
                 (world [alice] []).
Proof.
  split; [|split; [|split]].
  - destruct (refresh_outcomes env (with_body []) (world [] [])) as (A & _).
    now apply A.
  - destruct (refresh_outcomes env (with_body [("refreshToken", VStr valid_token)])
                (world [] [])) as (_ & A & _).
    now apply (A (mkError "JsonWebTokenError" None)).
  - destruct (refresh_outcomes env (with_body [("refreshToken", VStr alice_refresh_token)])
                (world [alice] [])) as (_ & _ & A & _).
    now apply (A (Some "a1") valid_token).
  - destruct (refresh_outcomes misconfigured
                (with_body [("refreshToken", VStr alice_refresh_token)])
                (world [alice] [])) as (_ & _ & _ & A).
    now apply (A (Some "a1")).
Defined.

(** C10, as stated, fails: with a [JWT_EXPIRES_IN] that is not a time
    span, a refresh token that verifies, here one whose subject is not
    stored, is answered 403 and no access token. *)
Lemma refresh_gives_no_token_when_signing_throws :
  jwt_verify stale_refresh_token (refresh_secret misconfigured) 1000 = Decoded (Some "gone")
  /\ responses (run (refresh misconfigured
                             (with_body [("refreshToken", VStr stale_refresh_token)]))
                    (world [alice] [store_down]))
     = [(403%nat, error_body "Invalid refresh token" "INVALID_REFRESH_TOKEN")]
  /\ store_calls (run (refresh misconfigured
                               (with_body [("refreshToken", VStr stale_refresh_token)]))
                      (world [alice] [store_down])) = [].
Proof. split; [|split]; reflexivity. Qed.

Lemma refresh_ignores_store_run :
  lookup_id (Some "gone") [alice] = None
  /\ w_log (run (refresh env (with_body [("refreshToken", VStr stale_refresh_token)]))
                (world [alice] [store_down]))
     = [Respond 200 (VObj [("token", VStr (token_for (Some "gone") "your-secret-key" "7d"))])].
Proof.
  split; [reflexivity|].
  apply (refresh_ignores_store env
           (with_body [("refreshToken", VStr stale_refresh_token)])
           (world [] []) stale_refresh_token (Some "gone") eq_refl
           ltac:(discriminate) eq_refl
           [alice] [store_down]).
  reflexivity.
Defined.

Lemma register_validation_run :
  responses (run (register env (registration (VStr "") (VStr "secret1") (VStr "other")))
                 (world [alice] []))
  = [(400%nat, error_body "Email and password are required" "MISSING_FIELDS")]
  /\ responses (run (register env (registration (VStr "bob@x.org") (VStr "abc") (VStr "abd")))
                    (world [alice] []))
     = [(400%nat, error_body "Passwords do not match" "PASSWORD_MISMATCH")]
  /\ responses (run (register env (registration (VStr "alice@example.com") (VStr "abc")
                                                (VStr "abc")))
                    (world [alice] []))
     = [(400%nat, error_body "Password must be at least 6 characters long"
                             "PASSWORD_TOO_SHORT")]
  /\ responses (run (register env (registration (VStr "Alice@Example.com") (VStr "secret1")
                                                (VStr "secret1")))
                    (world [alice] []))
     = [(400%nat, error_body "User with this email already exists" "USER_EXISTS")]
  /\ responses (run (register env (registration (VStr "bob@x.org") (VStr "secret1")
                                                (VStr "secret1")))
                    (world [alice] [None; Some MongoDuplicateKey]))
     = [(400%nat, error_body "Email already exists" "DUPLICATE_EMAIL")].
Proof.
  split; [|split; [|split; [|split]]].
  - destruct (register_validation env
                (registration (VStr "") (VStr "secret1") (VStr "other")) (world [alice] []))
      as (A & _).
    rewrite A; [reflexivity | now left].
  - destruct (register_validation env
                (registration (VStr "bob@x.org") (VStr "abc") (VStr "abd")) (world [alice] []))
      as (_ & A & _).
    now rewrite A.
  - destruct (register_validation env
                (registration (VStr "alice@example.com") (VStr "abc") (VStr "abc"))
                (world [alice] []))
      as (_ & _ & A & _).
    now rewrite A.
  - destruct (register_validation env
                (registration (VStr "Alice@Example.com") (VStr "secret1") (VStr "secret1"))
                (world [alice] []))
      as (_ & _ & _ & A & _).
    destruct (A alice (add_event (Store (FindOneByEmail "alice@example.com"))
                                 (world [alice] []))) as (-> & _);
      [repeat split | reflexivity | reflexivity].
  - destruct (register_validation env
                (registration (VStr "bob@x.org") (VStr "secret1") (VStr "secret1"))
                (world [alice] [None; Some MongoDuplicateKey]))
      as (_ & _ & _ & _ & _ & A).
    destruct (A MongoDuplicateKey
                (mkWorld [alice] [Some MongoDuplicateKey] 1000 1 RUndefined
                         [Store (FindOneByEmail "bob@x.org")])
                (mkWorld [alice] [] 1000 2 RUndefined
                         [Store (FindOneByEmail "bob@x.org"); Store (Save "1")]))
      as (-> & _);
      [repeat split | reflexivity | reflexivity | reflexivity | reflexivity].
Defined.

(** *** The client *)

Lemma responseInterceptor_renews_once_run :
  c_sent (snd (responseInterceptor api (axios api) signed_in
                 (AxiosError profile_request forbidden) (client [renewal; profile])))
  = [requestInterceptor signed_in (refresh_request api signed_in);
     requestInterceptor signed_in (renewed profile_request (VStr "new"))]
  /\ cfg_headers (requestInterceptor signed_in (renewed profile_request (VStr "new")))
       !! "Authorization" = Some "Bearer old"
  /\ token (c_state (snd (responseInterceptor api (axios api) signed_in
                            (AxiosError profile_request forbidden)
                            (client [renewal; profile]))))
     = VStr "new".
Proof.
  destruct (responseInterceptor_renews_once api signed_in profile_request
              (error_body "Token expired" "TOKEN_EXPIRED") (client [renewal; profile])
              eq_refl eq_refl eq_refl eq_refl) as (A & _).
  destruct (A 200%nat (VObj [("token", VStr "new")]) (VStr "new") [profile]
              eq_refl ltac:(lia) eq_refl eq_refl) as (S1 & _ & _ & H1 & T1 & _).
  split; [exact S1 | split; [exact H1 | exact T1]].
Defined.

(** C1 fails on the code.  With a session that holds the token [old], a
    403 whose renewal succeeds with the token [new] is followed by the
    original request with [Bearer old], the token that was just refused.
    And a refresh call that is itself answered 403 is not followed by a
    logout: the handler runs on that answer too and makes a further
    refresh call, here three in all, until one fails otherwise. *)
Lemma responseInterceptor_sends_refused_token :
  map (fun cfg => (cfg_url cfg, cfg_headers cfg !! "Authorization", cfg_retry cfg))
      (c_sent (snd (responseInterceptor api (axios api) signed_in
                      (AxiosError profile_request forbidden) (client [renewal; refused]))))
  = [(api +:+ "/auth/refresh", Some "Bearer old", false);
     (api +:+ "/user/profile", Some "Bearer old", true)]
  /\ c_storage (snd (responseInterceptor api (axios api) signed_in
                       (AxiosError profile_request forbidden) (client [renewal; refused])))
       !! "token" = Some "new"
  /\ map cfg_url
         (c_sent (snd (responseInterceptor api (axios api) signed_in
                         (AxiosError profile_request forbidden)
                         (client [refused; refused; no_refresh_token]))))
     = [api +:+ "/auth/refresh"; api +:+ "/auth/refresh"; api +:+ "/auth/refresh";
        api +:+ "/auth/logout"; api +:+ "/auth/logout"; api +:+ "/auth/logout"].
Proof. vm_compute. repeat split. Qed.

(** C2, as stated, fails.  A client that starts with only an access token
    in [localStorage] and whose check of it succeeds makes the AUTH_SUCCESS
    transition with a null refresh token.  A client that starts with an
    expired access token, whose first request is answered 403 and whose
    renewal succeeds, makes the AUTH_SUCCESS transition with the fields of
    the state the interceptor holds, whose user is null.  Both states are
    authenticated. *)
Lemma authenticated_without_token_or_user :
  (c_state (checkAuthStatus api starting_half) = reached stored_half [bootstrap_action]
   /\ isAuthenticated (reached stored_half [bootstrap_action]) = true
   /\ refreshToken (reached stored_half [bootstrap_action]) = VNull
   /\ ~ consistent (reached stored_half [bootstrap_action]))
  /\ (c_state (snd (responseInterceptor api (axios api) (initialState stored)
                       (AxiosError me_request forbidden) starting))
      = reached stored [renewal_action]
      /\ isAuthenticated (reached stored [renewal_action]) = true
      /\ user (reached stored [renewal_action]) = VNull
      /\ ~ consistent (reached stored [renewal_action])).
Proof.
  split; (split; [vm_compute; reflexivity|]); (split; [reflexivity|]);
    (split; [reflexivity|]); intros Hc; destruct (Hc eq_refl) as (_ & Hr & Hu);
    discriminate.
Qed.

Lemma reached_consistent_run :
  nullish (token (reached stored session)) = false
  /\ nullish (refreshToken (reached stored session)) = false
  /\ nullish (user (reached stored session)) = false.
Proof.
  apply (reached_consistent stored session).
  - repeat constructor.
  - reflexivity.
Defined.

End Runs.

(** * Further properties *)

(** ** The middleware *)

Lemma split_space_field a b :
  space_free a = true -> split_space (a +:+ String space b) = a :: split_space b.
Proof.
  induction a as [|c a IH]; intros Ha.
  - reflexivity.
  - simpl in Ha. apply andb_prop in Ha as [Hc Ha].
    change (String c a +:+ String space b) with (String c (a +:+ String space b)).
    simpl. rewrite IH by exact Ha. now destruct (Ascii.eqb c space).
Qed.

Lemma split_space_last a : space_free a = true -> split_space a = [a].
Proof.
  induction a as [|c a IH]; simpl; intros Ha; [reflexivity|].
  apply andb_prop in Ha as [Hc Ha]. rewrite IH by exact Ha.
  now destruct (Ascii.eqb c space).
Qed.

(** Collapses the readings of a log that grew by known events. *)
Ltac read_log :=
  unfold next_calls, responses, store_calls; simpl;
  rewrite <- ?app_assoc, ?omap_app, ?length_app; simpl; rewrite ?app_nil_r.

Section MiddlewareOutcomes.
Context `{!Jwt} (env : Env).

(** X1: the token is the second space-separated field of the header and
    nothing else: whatever the first field is, and whatever follows the
    second one after a further space, is ignored. *)
Theorem bearer_token_second_field req scheme t rest :
  space_free scheme = true ->
  space_free t = true ->
  headers req !! "authorization" = Some (scheme +:+ String space t)
  \/ headers req !! "authorization" = Some (scheme +:+ String space (t +:+ String space rest)) ->
  bearer_token req = Some t.
Proof.
  intros Hs Ht Hh. unfold bearer_token.
  assert (Hne : forall x, String.eqb (scheme +:+ String space x) "" = false).
  { intros x. destruct scheme; reflexivity. }
  destruct Hh as [-> | ->]; rewrite Hne, split_space_field by exact Hs; simpl.
  - now rewrite split_space_last.
  - now rewrite split_space_field.
Qed.

(** X2: the middleware either forwards or answers, never both and never
    neither.  It forwards, once and without a response, exactly when the
    decode-and-lookup yields an identity, which it attaches; otherwise it
    sends one response with status 401, 403 or 500 and leaves [req.user]
    alone.  It never changes the collection. *)
Theorem authenticateToken_outcome req w :
  let w' := run (authenticateToken env req) w in
  w_users w' = w_users w
  /\ match resolved_identity env req w with
     | Some u =>
         w_req_user w' = RDoc u /\ next_calls w' = S (next_calls w)
         /\ responses w' = responses w
     | None =>
         w_req_user w' = w_req_user w /\ next_calls w' = next_calls w
         /\ exists status body,
              responses w' = responses w ++ [(status, body)]
              /\ (status = 401 \/ status = 403 \/ status = 500)%nat
     end.
Proof.
  unfold authenticateToken, authenticateToken_try, authenticateToken_catch,
    resolved_identity, verify, findById_select, store_op, poll_fault.
  destruct (truthy_token (bearer_token req)); handler_steps.
  - destruct (jwt_verify _ _ _) as [uid|e]; simpl.
    + destruct (w_faults w) as [|[e|] fs]; simpl;
        try destruct (lookup_id uid (w_users w)); simpl;
        try destruct (String.eqb (err_name e) "JsonWebTokenError");
        try destruct (String.eqb (err_name e) "TokenExpiredError");
        simpl; read_log; repeat split; try lia; eauto 10.
    + destruct (String.eqb (err_name e) "JsonWebTokenError");
        [|destruct (String.eqb (err_name e) "TokenExpiredError")];
        simpl; read_log; repeat split; try lia; eauto 10.
  - read_log. repeat split; try lia; eauto 10.
Qed.

(** X3: a token that verifies but whose subject is not in the collection
    (a deleted account, a payload without [userId]) is answered 401
    INVALID_USER, and the request is not forwarded. *)
Theorem authenticateToken_unknown_user req w uid :
  truthy_token (bearer_token req) = true ->
  jwt_verify (token_string (bearer_token req)) (access_secret env) (w_now w)
  = Decoded uid ->
  store_answers w ->
  lookup_id uid (w_users w) = None ->
  let w' := run (authenticateToken env req) w in
  responses w' = responses w ++ [(401%nat, error_body "User not found" "INVALID_USER")]
  /\ next_calls w' = next_calls w
  /\ w_req_user w' = w_req_user w.
Proof.
  intros Ht Hv Hs Hu.
  unfold authenticateToken, authenticateToken_try, verify, findById_select, store_op,
    poll_fault, store_answers in *.
  rewrite Ht. handler_steps. rewrite Hv. simpl.
  destruct (w_faults w) as [|[e|] fs]; [|contradiction|]; simpl; rewrite Hu; simpl;
    read_log; repeat split; lia.
Qed.

(** X4: an error thrown while verifying or looking up whose name is
    neither JsonWebTokenError nor TokenExpiredError (a token not yet
    valid, a lost connection, an id that cannot be cast) is answered 500
    AUTH_SERVER_ERROR, and the request is not forwarded. *)
Theorem authenticateToken_unexpected_error req w e :
  thrown_in_middleware env req w = Some e ->
  err_name e <> "JsonWebTokenError" ->
  err_name e <> "TokenExpiredError" ->
  let w' := run (authenticateToken env req) w in
  responses w'
  = responses w ++ [(500%nat, error_body "Server error during authentication"
                                          "AUTH_SERVER_ERROR")]
  /\ next_calls w' = next_calls w.
Proof.
  intros Hthrow Hn1%String.eqb_neq Hn2%String.eqb_neq.
  unfold thrown_in_middleware in Hthrow.
  unfold authenticateToken, authenticateToken_try, authenticateToken_catch, verify,
    findById_select, store_op, poll_fault.
  destruct (truthy_token (bearer_token req)); [|discriminate]. handler_steps.
  destruct (jwt_verify _ _ _) as [uid|e']; simpl.
  - destruct (w_faults w) as [|[e'|] fs]; try discriminate.
    injection Hthrow as ->. simpl. rewrite Hn1, Hn2. simpl. read_log. split; [reflexivity | lia].
  - injection Hthrow as ->. rewrite Hn1, Hn2. simpl. read_log. split; [reflexivity | lia].
Qed.

(** X5: whenever the mandatory middleware admits a request, the optional
    one does exactly the same: same identity attached, same single call of
    [next]. *)
Theorem optionalAuth_agrees_when_admitted req w u :
  resolved_identity env req w = Some u ->
  run (optionalAuth env req) w = run (authenticateToken env req) w.
Proof.
  unfold resolved_identity, optionalAuth, authenticateToken, authenticateToken_try,
    verify, findById_select, store_op, poll_fault.
  destruct (truthy_token (bearer_token req)); [|discriminate]. handler_steps.
  destruct (jwt_verify _ _ _) as [uid|e]; [|discriminate]. simpl.
  destruct (w_faults w) as [|[e|] fs]; try discriminate; simpl;
    destruct (lookup_id uid (w_users w)); try discriminate; reflexivity.
Qed.

End MiddlewareOutcomes.

(** ** The routes *)

Section RouteOutcomes.
Context `{!Jwt} `{!Bcrypt} (env : Env).

(** What the middleware leaves behind when it admits a request. *)
Lemma authenticateToken_admits req w u :
  resolved_identity env req w = Some u ->
  let w1 := run (authenticateToken env req) w in
  w_req_user w1 = RDoc u /\ next_calls w1 = S (next_calls w)
  /\ responses w1 = responses w /\ w_users w1 = w_users w /\ w_now w1 = w_now w
  /\ w_faults w1 = tail (w_faults w) /\ w_next_id w1 = w_next_id w.
Proof.
  unfold resolved_identity, authenticateToken, authenticateToken_try, verify,
    findById_select, store_op, poll_fault.
  destruct (truthy_token (bearer_token req)); [|discriminate]. handler_steps.
  destruct (jwt_verify _ _ _) as [uid|e]; [|discriminate]. simpl.
  destruct (w_faults w) as [|[e|] fs] eqn:Ef; try discriminate; simpl;
    destruct (lookup_id uid (w_users w)) as [v|]; try discriminate; simpl;
    intros [= <-]; read_log; repeat split; try exact Ef; lia.
Qed.

Lemma authenticateToken_refuses req w :
  resolved_identity env req w = None ->
  next_calls (run (authenticateToken env req) w) = next_calls w.
Proof.
  unfold resolved_identity, authenticateToken, authenticateToken_try,
    authenticateToken_catch, verify, findById_select, store_op, poll_fault.
  destruct (truthy_token (bearer_token req)); handler_steps.
  - destruct (jwt_verify _ _ _) as [uid|e]; simpl.
    + destruct (w_faults w) as [|[e|] fs]; simpl;
        try destruct (lookup_id uid (w_users w)); try discriminate; simpl;
        try destruct (String.eqb (err_name e) "JsonWebTokenError");
        try destruct (String.eqb (err_name e) "TokenExpiredError");
        simpl; intros _; read_log; lia.
    + destruct (String.eqb (err_name e) "JsonWebTokenError");
        [|destruct (String.eqb (err_name e) "TokenExpiredError")];
        simpl; intros _; read_log; lia.
  - intros _. read_log. lia.
Qed.

(** X6: a handler mounted behind the middleware runs exactly when the
    request is authenticated, on the world the middleware left; for every
    other request the route does what the middleware alone does, so the
    handler has no effect at all. *)
Theorem behind_auth_gate req handler w :
  match resolved_identity env req w with
  | Some u =>
      run (behind_auth env req handler) w = run handler (run (authenticateToken env req) w)
      /\ w_req_user (run (authenticateToken env req) w) = RDoc u
  | None => run (behind_auth env req handler) w = run (authenticateToken env req) w
  end.
Proof.
  destruct (resolved_identity env req w) as [u|] eqn:E.
  - destruct (authenticateToken_admits req w u E) as (Hu & Hn & _).
    unfold behind_auth, run in *.
    destruct (authenticateToken env req w) as [r w1]. simpl in *.
    rewrite Hn. now rewrite (proj2 (Nat.ltb_lt _ _)) by lia.
  - pose proof (authenticateToken_refuses req w E) as Hn.
    unfold behind_auth, run in *.
    destruct (authenticateToken env req w) as [r w1]. simpl in *.
    rewrite Hn. now rewrite Nat.ltb_irrefl.
Qed.

(** X7: for an authenticated request, [GET /me] answers 200 with the id
    and the e-mail of the identity the token resolves to, and the user
    object of the body has no password field. *)
Theorem me_route_profile req w u :
  resolved_identity env req w = Some u ->
  exists profile,
    responses (run (me_route env req) w)
    = responses w ++ [(200%nat, VObj [("user", profile)])]
    /\ js_get "id" profile = VStr (u_id u)
    /\ js_get "email" profile = VStr (u_email u)
    /\ js_get "password" profile = VUndefined
    /\ w_users (run (me_route env req) w) = w_users w.
Proof.
  intros E. destruct (authenticateToken_admits req w u E) as (Hu & Hn & Hr & Hs & _).
  unfold me_route, behind_auth, run in *.
  destruct (authenticateToken env req w) as [r w1]. simpl in *.
  rewrite Hn, (proj2 (Nat.ltb_lt _ _)) by lia.
  unfold me_handler. handler_steps. rewrite Hu. simpl.
  eexists. rewrite responses_add_event, Hr. repeat split. exact Hs.
Qed.

Lemma resolved_identity_same req w w1 :
  w_users w1 = w_users w -> w_now w1 = w_now w ->
  store_answers w -> store_answers w1 ->
  resolved_identity env req w1 = resolved_identity env req w.
Proof.
  unfold resolved_identity, store_answers. intros -> -> Hs Hs1.
  destruct (truthy_token _); [|reflexivity]. destruct (jwt_verify _ _ _); [|reflexivity].
  destruct (w_faults w) as [|[?|] ?], (w_faults w1) as [|[?|] ?];
    try contradiction; reflexivity.
Qed.

(** X8: [POST /logout] revokes nothing.  For an authenticated request it
    answers 200, leaves the collection as it is, and the same request is
    authenticated again afterwards, as the same identity. *)
Theorem logout_route_revokes_nothing req w u :
  resolved_identity env req w = Some u ->
  let w1 := run (logout_route env req) w in
  responses w1 = responses w ++ [(200%nat, VObj [("message", VStr "Logout successful")])]
  /\ w_users w1 = w_users w
  /\ (store_answers w1 -> resolved_identity env req w1 = Some u).
Proof.
  intros E. destruct (authenticateToken_admits req w u E) as (Hu & Hn & Hr & Hs & Ht & _).
  assert (Hsa : store_answers w).
  { unfold resolved_identity in E. unfold store_answers.
    destruct (truthy_token _); [|discriminate]. destruct (jwt_verify _ _ _); [|discriminate].
    destruct (w_faults w) as [|[?|] ?]; try exact I. discriminate. }
  unfold logout_route, behind_auth, run in *.
  destruct (authenticateToken env req w) as [r w1]. simpl in *.
  rewrite Hn, (proj2 (Nat.ltb_lt _ _)) by lia.
  unfold logout_handler. handler_steps. rewrite responses_add_event, Hr.
  repeat split; [exact Hs|].
  intros Hs1. rewrite <- E. apply resolved_identity_same; assumption.
Qed.

Lemma nonempty_of_length p : (6 <= String.length p)%nat -> String.eqb p "" = false.
Proof. destruct p; simpl; [lia | reflexivity]. Qed.

Lemma register_registers req w e p nm access refresh :
  registrable env req w e p nm ->
  signs env (pretty (w_next_id w)) w access refresh ->
  run (register env req) w
  = mkWorld (replace_user (registered w e p nm)
               (w_users w ++ [mkUser (pretty (w_next_id w)) (js_trim (to_lower e))
                                     (Some (bcrypt_hash p)) (js_trim nm) default_preferences
                                     (VArr []) false None (w_now w) (w_now w)]))
            [] (w_now w) (N.succ (w_next_id w)) (w_req_user w)
            (w_log w ++ [Store (FindOneByEmail (to_lower e));
                         Store (Save (pretty (w_next_id w)));
                         Store (Save (pretty (w_next_id w)));
                         Respond 201
                           (VObj [("message", VStr "User registered successfully");
                                  ("user", VObj (user_summary (registered w e p nm)));
                                  ("token", VStr access);
                                  ("refreshToken", VStr refresh)])]).
Proof.
  intros (He & Hne & Hp & Hc & Hlen & Hn & Hm & Hnl & Hf & Hl) (Ha & Hr).
  destruct w as [us fs now nid ru lg]. simpl in *. subst fs.
  unfold register, register_try, findByEmail, save_new, save_existing, generateToken,
    generateRefreshToken, store_op, poll_fault, or_else in *.
  rewrite He, Hp, Hc. simpl.
  apply String.eqb_neq in Hne. rewrite Hne, (nonempty_of_length p Hlen), String.eqb_refl.
  simpl.
  replace (Z.of_nat (String.length p) <? 6)%Z with false
    by (symmetry; apply Z.ltb_ge; lia).
  handler_steps. rewrite Hl. simpl. rewrite Hn. simpl. rewrite Hm. simpl.
  replace (String.length p <? 6)%nat with false by (symmetry; apply Nat.ltb_ge; lia).
  replace (50 <? String.length (js_trim nm))%nat with false
    by (symmetry; apply Nat.ltb_ge; lia).
  simpl. rewrite Hl. simpl. rewrite Ha. simpl. rewrite Hr. simpl.
  unfold registered, add_event. simpl.
  rewrite <- !app_assoc. reflexivity.
Qed.

Lemma lookup_email_replace e u' d us :
  lookup_email e us = None -> u_email u' = e -> u_id d = u_id u' ->
  lookup_email e (replace_user u' (us ++ [d])) = Some u'.
Proof.
  intros Hl He Hd. unfold lookup_email, replace_user in *.
  induction us as [|v us IH]; simpl in *.
  - rewrite Hd, String.eqb_refl. simpl. now rewrite He, String.eqb_refl.
  - destruct (String.eqb (u_email v) e) eqn:Ev; [discriminate|].
    destruct (String.eqb (u_id v) (u_id u')); simpl.
    + now rewrite He, String.eqb_refl.
    + rewrite Ev. now apply IH.
Qed.

(** X9: a registration that passes the checks, with an address that is
    not taken, a collection that answers and a [jwt.sign] that gives the
    two tokens, stores one more document, under the lowercased and trimmed
    address, with the hash of the password and the time of the
    registration as last login.  It answers 201 with the two tokens, which
    both embed the id of the new document, and the user object of the body
    has no password field. *)
Theorem register_creates_account req w e p nm access refresh :
  registrable env req w e p nm ->
  signs env (pretty (w_next_id w)) w access refresh ->
  let w' := run (register env req) w in
  let id := pretty (w_next_id w) in
  exists user,
    responses w'
    = responses w ++ [(201%nat, VObj [("message", VStr "User registered successfully");
                                       ("user", user); ("token", VStr access);
                                       ("refreshToken", VStr refresh)])]
    /\ js_get "id" user = VStr id
    /\ js_get "email" user = VStr (js_trim (to_lower e))
    /\ js_get "password" user = VUndefined
    /\ jwt_decode access = Some (Some id)
    /\ jwt_decode refresh = Some (Some id)
    /\ length (w_users w') = S (length (w_users w))
    /\ exists stored,
         lookup_email (js_trim (to_lower e)) (w_users w') = Some stored
         /\ u_id stored = id
         /\ u_password stored = Some (bcrypt_hash p)
         /\ u_lastLoginAt stored = Some (w_now w).
Proof.
  intros Hr Hs. cbv zeta. rewrite (register_registers req w e p nm access refresh Hr Hs).
  destruct Hr as (_ & _ & _ & _ & _ & _ & _ & _ & _ & Hl).
  destruct Hs as (Ha & Hf).
  eexists. read_log.
  split; [reflexivity|]. split; [reflexivity|]. split; [reflexivity|].
  split; [reflexivity|]. split; [eapply jwt_decode_sign, Ha|].
  split; [eapply jwt_decode_sign, Hf|]. split.
  - unfold replace_user. rewrite length_map, length_app. simpl. lia.
  - exists (registered w e p nm). split; [|repeat split].
    now apply lookup_email_replace.
Qed.

(** X10: after such a registration, a login with the same address, in
    any letter case and with white space around it or not, and the same
    password is answered 200 for the account just created, provided
    [bcrypt.compare] accepts the password against its own hash and
    [jwt.sign] gives the two tokens again; a login with a password that
    [bcrypt.compare] refuses is answered 401 INVALID_CREDENTIALS. *)
Theorem register_then_login req w e p nm access refresh attempt e' p' :
  registrable env req w e p nm ->
  signs env (pretty (w_next_id w)) w access refresh ->
  bcrypt_compare p (bcrypt_hash p) = true ->
  js_get "email" (body attempt) = VStr e' ->
  e' <> "" ->
  js_trim (to_lower e') = js_trim (to_lower e) ->
  js_get "password" (body attempt) = VStr p' ->
  p' <> "" ->
  let w1 := run (register env req) w in
  let w2 := run (login env attempt) w1 in
  (p' = p ->
   exists user,
     responses w2
     = responses w1 ++ [(200%nat, VObj [("message", VStr "Login successful");
                                         ("user", user); ("token", VStr access);
                                         ("refreshToken", VStr refresh)])]
     /\ js_get "id" user = VStr (pretty (w_next_id w)))
  /\ (bcrypt_compare p' (bcrypt_hash p) = false ->
      responses w2
      = responses w1 ++ [(401%nat, VObj [("message", VStr "Invalid email or password");
                                          ("error", VStr "INVALID_CREDENTIALS")])]).
Proof.
  intros Hr Hs Hb He Hne' Hsame Hp Hne. cbv zeta.
  rewrite (register_registers req w e p nm access refresh Hr Hs).
  pose proof Hr as (_ & _ & _ & _ & _ & _ & _ & _ & _ & Hl).
  destruct Hs as (Ha & Hf).
  assert (Hfind : forall d,
    u_id d = pretty (w_next_id w) ->
    lookup_email (js_trim (to_lower e'))
                 (replace_user (registered w e p nm) (w_users w ++ [d]))
    = Some (registered w e p nm)).
  { intros d Hd. rewrite Hsame. apply lookup_email_replace; [exact Hl | | exact Hd].
    reflexivity. }
  unfold login, findByEmail, comparePassword, save_existing, generateToken,
    generateRefreshToken, store_op, poll_fault.
  rewrite He, Hp. simpl.
  apply String.eqb_neq in Hne, Hne'. rewrite Hne, Hne'. simpl.
  handler_steps. rewrite Hfind by reflexivity. simpl.
  split.
  - intros ->. rewrite Hb. simpl. rewrite Ha. simpl. rewrite Hf. simpl.
    eexists. read_log. rewrite <- app_assoc.
    split; reflexivity.
  - intros ->. simpl. read_log. now rewrite <- app_assoc.
Qed.

(** X26: the account is stored before the tokens are signed.  A
    registration that passes the checks, with an address that is not
    taken and a collection that answers, but where [jwt.sign] throws on the
    access token, is answered 500 REGISTRATION_ERROR, and the new document
    is in the collection all the same, with the hash of the password. *)
Theorem register_stores_before_signing req w e p nm :
  registrable env req w e p nm ->
  jwt_sign (Some (pretty (w_next_id w))) (access_secret env) (access_lifetime env) (w_now w)
  = None ->
  let w' := run (register env req) w in
  responses w'
  = responses w ++ [(500%nat, VObj [("message", VStr "Server error during registration");
                                     ("error", VStr "REGISTRATION_ERROR")])]
  /\ w_users w'
     = w_users w ++ [mkUser (pretty (w_next_id w)) (js_trim (to_lower e))
                            (Some (bcrypt_hash p)) (js_trim nm) default_preferences
                            (VArr []) false None (w_now w) (w_now w)].
Proof.
  intros (He & Hne & Hp & Hc & Hlen & Hn & Hm & Hnl & Hf & Hl) Ha.
  destruct w as [us fs now nid ru lg]. simpl in *. subst fs.
  unfold register, register_try, register_catch, findByEmail, save_new, save_existing,
    generateToken, generateRefreshToken, store_op, poll_fault, or_else in *.
  rewrite He, Hp, Hc. simpl.
  apply String.eqb_neq in Hne. rewrite Hne, (nonempty_of_length p Hlen), String.eqb_refl.
  simpl.
  replace (Z.of_nat (String.length p) <? 6)%Z with false
    by (symmetry; apply Z.ltb_ge; lia).
  handler_steps. rewrite Hl. simpl. rewrite Hn. simpl. rewrite Hm. simpl.
  replace (String.length p <? 6)%nat with false by (symmetry; apply Nat.ltb_ge; lia).
  replace (50 <? String.length (js_trim nm))%nat with false
    by (symmetry; apply Nat.ltb_ge; lia).
  simpl. rewrite Hl. simpl. rewrite Ha. simpl.
  split; [read_log; reflexivity | reflexivity].
Qed.

Lemma lookup_id_replace e u u' us :
  lookup_email e us = Some u -> u_id u' = u_id u ->
  lookup_id (Some (u_id u)) (replace_user u' us) = Some u'.
Proof.
  intros Hl Hid. rewrite <- Hid. unfold lookup_email, lookup_id, replace_user in *.
  induction us as [|v us IH]; simpl in *; [discriminate|].
  destruct (String.eqb (u_email v) e) eqn:Ev.
  - injection Hl as ->. rewrite <- Hid, String.eqb_refl. simpl.
    now rewrite String.eqb_refl.
  - destruct (String.eqb (u_id v) (u_id u')) eqn:Ei; simpl.
    + now rewrite String.eqb_refl.
    + rewrite Ei. now apply IH.
Qed.

(** X11: a login with the address of a stored account, in any letter
    case and with white space around it or not, and a password that
    [bcrypt.compare] accepts against the stored hash is answered 200 with
    the two tokens [jwt.sign] gives, which embed the id of that account;
    the last login of the account is stamped with the time of the request,
    its hash stays, and the user object of the body has no password
    field. *)
Theorem login_opens_session attempt w e p u h access refresh :
  js_get "email" (body attempt) = VStr e -> e <> "" ->
  js_get "password" (body attempt) = VStr p -> p <> "" ->
  w_faults w = [] ->
  lookup_email (js_trim (to_lower e)) (w_users w) = Some u ->
  u_password u = Some h ->
  bcrypt_compare p h = true ->
  signs env (u_id u) w access refresh ->
  let w' := run (login env attempt) w in
  exists user,
    responses w'
    = responses w ++ [(200%nat, VObj [("message", VStr "Login successful");
                                       ("user", user); ("token", VStr access);
                                       ("refreshToken", VStr refresh)])]
    /\ js_get "id" user = VStr (u_id u)
    /\ js_get "lastLoginAt" user = VNum (w_now w)
    /\ js_get "password" user = VUndefined
    /\ jwt_decode access = Some (Some (u_id u))
    /\ jwt_decode refresh = Some (Some (u_id u))
    /\ exists stored,
         lookup_id (Some (u_id u)) (w_users w') = Some stored
         /\ u_lastLoginAt stored = Some (w_now w)
         /\ u_password stored = Some h
         /\ u_email stored = u_email u.
Proof.
  intros He Hne Hp Hnp Hf Hl Hh Hb (Ha & Hr). cbv zeta.
  destruct w as [us fs now nid ru lg]. simpl in *. subst fs.
  unfold login, findByEmail, comparePassword, save_existing, generateToken,
    generateRefreshToken, store_op, poll_fault.
  rewrite He, Hp. simpl.
  apply String.eqb_neq in Hne, Hnp. rewrite Hne, Hnp. simpl.
  handler_steps. rewrite Hl. simpl. rewrite Hh, Hb. simpl. rewrite Ha. simpl.
  rewrite Hr. simpl.
  eexists. read_log. split; [reflexivity|].
  split; [reflexivity|]. split; [reflexivity|]. split; [reflexivity|].
  split; [eapply jwt_decode_sign, Ha|]. split; [eapply jwt_decode_sign, Hr|].
  eexists. split; [eapply lookup_id_replace; [exact Hl | reflexivity]|].
  simpl. repeat split.
Qed.

Lemma same_id_same_user (u : User) us :
  NoDup (map u_id us) -> In u us ->
  forall v, In v us -> u_id v = u_id u -> v = u.
Proof.
  induction us as [|x us IH]; simpl; intros Hn Hu v Hv Hid; [contradiction|].
  apply NoDup_cons in Hn as [Hx Hn].
  destruct Hu as [-> | Hu], Hv as [-> | Hv]; auto.
  - exfalso. apply Hx. rewrite <- Hid. apply list_elem_of_In, in_map, Hv.
  - exfalso. apply Hx. rewrite Hid. apply list_elem_of_In, in_map, Hu.
Qed.

Lemma replace_user_accounts u' us :
  (forall v, In v us -> u_id v = u_id u' -> account v = account u') ->
  map account (replace_user u' us) = map account us.
Proof.
  unfold replace_user. induction us as [|x us IH]; simpl; intros Hv; [reflexivity|].
  rewrite IH by (intros v Hin; apply Hv; now right). f_equal.
  destruct (String.eqb (u_id x) (u_id u')) eqn:E; [|reflexivity].
  symmetry. apply Hv; [now left | now apply String.eqb_eq].
Qed.

(** X12: whatever the request and whatever the faults of the collection,
    a login creates no account, deletes none, and changes no id, address,
    password hash or name, in a collection whose ids are unique. *)
Theorem login_keeps_accounts attempt w :
  NoDup (map u_id (w_users w)) ->
  map account (w_users (run (login env attempt) w)) = map account (w_users w).
Proof.
  intros Hnd. unfold login, run, try_catch, bind.
  destruct (negb (truthy (js_get "email" (body attempt)))
            || negb (truthy (js_get "password" (body attempt)))); [reflexivity|].
  destruct (findByEmail (js_get "email" (body attempt)) w) as [res w1] eqn:Hf.
  destruct (findByEmail_reads _ _ _ _ Hf) as (Hu & _).
  destruct res as [[u|]|e]; try (simpl; now rewrite Hu).
  assert (Hin : In u (w_users w)).
  { revert Hf. unfold findByEmail, store_op, poll_fault.
    destruct (js_get "email" (body attempt)); try discriminate. handler_steps.
    destruct (w_faults w) as [|[?|] ?]; simpl; try discriminate;
      intros [= Hfind _]; unfold lookup_email in Hfind;
      apply (List.find_some _ _ Hfind). }
  unfold comparePassword.
  destruct (js_get "password" (body attempt)); try (simpl; now rewrite Hu).
  destruct (u_password u) as [h|] eqn:Hh; [|simpl; now rewrite Hu].
  unfold ret. destruct (negb (bcrypt_compare s h)); [simpl; now rewrite Hu|].
  unfold generateToken, generateRefreshToken, save_existing, store_op, poll_fault.
  handler_steps.
  destruct (jwt_sign _ (access_secret env) _ _); [|simpl; now rewrite Hu]. simpl.
  destruct (jwt_sign _ (refresh_secret env) _ _); [|simpl; now rewrite Hu]. simpl.
  destruct (w_faults w1) as [|[?|] ?]; simpl; try (now rewrite Hu);
    rewrite Hu; apply replace_user_accounts; intros v Hv Hid; simpl in Hid;
    rewrite (same_id_same_user u (w_users w) Hnd Hin v Hv Hid);
    unfold account; simpl; now rewrite Hh.
Qed.

End RouteOutcomes.

(** ** The document history *)

Lemma keep_last_50_length l : length (keep_last_50 l) = min (length l) 50.
Proof.
  unfold keep_last_50. destruct (Nat.ltb_spec 50 (length l)).
  - rewrite length_drop. lia.
  - lia.
Qed.

Lemma keep_last_50_suffix l : exists older, l = older ++ keep_last_50 l.
Proof.
  unfold keep_last_50. destruct (50 <? length l)%nat.
  - exists (take (length l - 50) l). now rewrite take_drop.
  - now exists [].
Qed.

Lemma keep_last_50_last l x : last (keep_last_50 (l ++ [x])) = Some x.
Proof.
  destruct (keep_last_50_suffix (l ++ [x])) as [older Ho].
  pose proof (keep_last_50_length (l ++ [x])) as Hlen.
  rewrite length_app in Hlen. simpl in Hlen.
  destruct (keep_last_50 (l ++ [x])) as [|y k] eqn:Ek; [simpl in Hlen; lia|].
  rewrite <- (last_snoc x l), Ho. now rewrite last_app_cons.
Qed.

(** The stored document with the id of [u], after [u] was saved. *)
Lemma lookup_id_written (u : User) (f : User -> User) us v :
  (forall x, u_id (f x) = u_id x) ->
  lookup_id (Some (u_id u)) us = Some v ->
  lookup_id (Some (u_id u))
    (map (fun x => if String.eqb (u_id x) (u_id u) then f x else x) us) = Some (f v).
Proof.
  intros Hf. unfold lookup_id. induction us as [|x us IH]; simpl; [discriminate|].
  destruct (String.eqb (u_id x) (u_id u)) eqn:E.
  - intros [= ->]. now rewrite Hf, E.
  - rewrite E. exact IH.
Qed.

(** X13: with [saveHistory] on, [addDocumentToHistory] appends the
    document and keeps the last 50: whatever the length before, the
    history afterwards has min(n + 1, 50) documents, it is the tail of the
    old history followed by the new document, which comes last, and this is
    what the stored document holds, with its password hash untouched. *)
Theorem addDocumentToHistory_keeps_last_50 documentData u w flag l v :
  js_prop "saveHistory" (u_preferences u) = Some flag ->
  truthy flag = true ->
  u_documentHistory u = VArr l ->
  store_answers w ->
  lookup_id (Some (u_id u)) (w_users w) = Some v ->
  let added := VObj (("_id", VStr (pretty (w_next_id w))) :: documentData) in
  exists u' w' l',
    addDocumentToHistory documentData u w = (Ret u', w')
    /\ u_documentHistory u' = VArr l'
    /\ length l' = min (S (length l)) 50
    /\ last l' = Some added
    /\ (exists older, l ++ [added] = older ++ l')
    /\ exists v',
         lookup_id (Some (u_id u)) (w_users w') = Some v'
         /\ u_documentHistory v' = VArr l'
         /\ u_password v' = u_password v.
Proof.
  intros Hs Ht Hl Ha Hv added.
  unfold addDocumentToHistory, save_loaded, store_op, poll_fault, store_answers in *.
  rewrite Hs, Ht, Hl. handler_steps.
  exists (mkUser (u_id u) (u_email u) (u_password u) (u_name u) (u_preferences u)
                 (VArr (keep_last_50 (l ++ [added]))) (u_isEmailVerified u)
                 (u_lastLoginAt u) (u_createdAt u) (w_now w)).
  destruct (w_faults w) as [|[e|] fs]; [|contradiction|]; simpl;
    eexists; exists (keep_last_50 (l ++ [added]));
    (split; [reflexivity|]); (split; [reflexivity|]);
    (split; [rewrite keep_last_50_length, length_app; simpl; lia|]);
    (split; [apply keep_last_50_last|]);
    (split; [apply keep_last_50_suffix|]);
    eexists; (split; [apply (lookup_id_written u); [reflexivity | exact Hv]|]);
    split; reflexivity.
Qed.


(** X14: [POST /document-history] for a user who keeps a history answers
    200 with the id of the document it has just stored.  For a user who
    has switched [saveHistory] off it stores no document, and still
    answers with the id of the newest document of the history, an older
    one, or with 500 DOCUMENT_HISTORY_ERROR when the history is empty. *)
Theorem add_history_answers req w u flag l :
  w_req_user w = RDoc u ->
  store_answers w ->
  js_prop "saveHistory" (u_preferences u) = Some flag ->
  u_documentHistory u = VArr l ->
  let w' := run (add_history_handler req) w in
  (truthy flag = true ->
   responses w'
   = responses w ++ [(200%nat, VObj [("message",
                                       VStr "Document added to history successfully");
                                      ("documentId", VStr (pretty (w_next_id w)))])])
  /\ (truthy flag = false ->
      (exists u', w_req_user w' = RDoc u' /\ u_documentHistory u' = VArr l)
      /\ (l = [] ->
          responses w'
          = responses w ++ [(500%nat, error_body "Server error adding document to history"
                                                  "DOCUMENT_HISTORY_ERROR")])
      /\ (forall older id,
            last l = Some older -> js_prop "_id" older = Some id ->
            responses w'
            = responses w ++ [(200%nat, VObj [("message",
                                                VStr "Document added to history successfully");
                                               ("documentId", id)])])).
Proof.
  intros Hu Ha Hs Hl. cbv zeta.
  unfold add_history_handler, addDocumentToHistory, save_loaded, store_op, poll_fault,
    store_answers in *.
  handler_steps. rewrite Hu. simpl. rewrite Hs. split.
  - intros ->. rewrite Hl. simpl.
    destruct (w_faults w) as [|[e|] fs]; [|contradiction|]; simpl;
      rewrite keep_last_50_last; simpl; read_log; reflexivity.
  - intros ->. simpl.
    destruct (w_faults w) as [|[e|] fs]; [|contradiction|]; simpl; rewrite Hl;
      (split; [destruct (last l) as [d|]; [destruct (js_prop "_id" d)|];
               eexists; split; reflexivity|]); split.
    + intros ->. simpl. read_log. reflexivity.
    + intros older id -> ->. simpl. read_log. reflexivity.
    + intros ->. simpl. read_log. reflexivity.
    + intros older id -> ->. simpl. read_log. reflexivity.
Qed.

Lemma without_document_filter documentId l l' :
  without_document documentId l = Some l' ->
  l' = List.filter (fun doc => match other_document documentId doc with
                               | Some keep => keep
                               | None => false
                               end) l.
Proof.
  revert l'. induction l as [|d l IH]; simpl; intros l'.
  - now intros [= <-].
  - destruct (other_document documentId d) as [keep|]; [|discriminate].
    destruct (without_document documentId l) as [r|]; [|discriminate].
    intros [= <-]. rewrite (IH r eq_refl). now destruct keep.
Qed.

(** X15: [DELETE /document-history/:documentId] removes from the history
    exactly the documents with that id and keeps the others in their
    order; it answers 200 also when no document has the id, in which case
    the history is unchanged.  The stored document gets the same history
    and keeps its password hash. *)
Theorem delete_history_removes documentId w u l l' v :
  w_req_user w = RDoc u ->
  store_answers w ->
  u_documentHistory u = VArr l ->
  without_document documentId l = Some l' ->
  lookup_id (Some (u_id u)) (w_users w) = Some v ->
  let w' := run (delete_history_handler documentId) w in
  responses w'
  = responses w ++ [(200%nat, VObj [("message",
                                      VStr "Document removed from history successfully")])]
  /\ l' = List.filter (fun doc => match other_document documentId doc with
                                  | Some keep => keep
                                  | None => false
                                  end) l
  /\ (Forall (fun doc => other_document documentId doc = Some true) l -> l' = l)
  /\ exists v',
       lookup_id (Some (u_id u)) (w_users w') = Some v'
       /\ u_documentHistory v' = VArr l'
       /\ u_password v' = u_password v.
Proof.
  intros Hu Ha Hl Hw Hv. cbv zeta.
  pose proof (without_document_filter _ _ _ Hw) as Hfilter.
  unfold delete_history_handler, save_loaded, store_op, poll_fault, store_answers in *.
  handler_steps. rewrite Hu. simpl. rewrite Hl, Hw. simpl.
  destruct (w_faults w) as [|[e|] fs]; [|contradiction|]; simpl;
    (split; [read_log; reflexivity|]); (split; [exact Hfilter|]);
    (split; [intros Hall; rewrite Hfilter; clear -Hall;
              induction Hall as [|d k Hd _ IH]; simpl; [reflexivity|];
              rewrite Hd; now f_equal|]);
    eexists; (split; [apply (lookup_id_written (with_history (VArr l') u));
                      [reflexivity | exact Hv]|]);
    split; reflexivity.
Qed.

(** ** The actions of the client *)

Lemma failure_message_truthy error fallback :
  fallback <> "" -> truthy (failure_message error fallback) = true.
Proof.
  intros Hf. unfold failure_message.
  match goal with |- context [if truthy ?m then _ else _] => destruct (truthy m) eqn:E end;
    [exact E|]. simpl. now destruct (String.eqb_spec fallback "").
Qed.

Lemma assoc_app k a b :
  assoc k (a ++ b) = if existsb (String.eqb k) (map fst a) then assoc k a else assoc k b.
Proof.
  induction a as [|[k' v] a IH]; simpl; [reflexivity|].
  destruct (String.eqb k k'); [reflexivity | exact IH].
Qed.

Section ClientActions.
Variable API_BASE_URL : string.

(** X16: a 2xx answer to the login request whose body holds two string
    tokens signs the client in: the session takes the body's [user] and
    the two tokens, both tokens go to the storage, which then agrees with
    the session, and the dashboard is selected.  One request was made,
    through the request interceptor. *)
Theorem client_login_fulfilled email password c s data rest t r :
  printable (token (c_installed c)) = true ->
  c_replies c = mkReply (Some s) data :: rest ->
  (200 <= s < 300)%nat ->
  js_get "token" data = VStr t ->
  js_get "refreshToken" data = VStr r ->
  let out := AuthContext.login API_BASE_URL email password c in
  fst out = Succeeded
  /\ c_state (snd out)
     = mkState (js_get "user" data) (VStr t) (VStr r) true (VBool false) VNull
  /\ c_storage (snd out) !! "token" = Some t
  /\ c_storage (snd out) !! "refreshToken" = Some r
  /\ in_sync (snd out)
  /\ AppContent (c_state (snd out)) = ShowDashboard
  /\ c_sent (snd out)
     = c_sent c ++ [requestInterceptor (c_installed c)
                      (mkConfig (API_BASE_URL +:+ "/auth/login") "post" ∅
                                (VObj [("email", email); ("password", password)]) false)]
  /\ c_pending (snd out) = c_pending c.
Proof.
  intros _ Hr Hs Ht Hrt. cbv zeta. unfold AuthContext.login.
  rewrite (axios_fulfilled API_BASE_URL _ (dispatch AUTH_START c) s data rest Hr Hs).
  destruct data; try discriminate. rewrite Ht, Hrt. simpl.
  split; [reflexivity|]. split; [reflexivity|].
  split; [now rewrite lookup_insert_ne, lookup_insert_eq|].
  split; [apply lookup_insert_eq|].
  split; [|repeat split].
  unfold in_sync, getItem. simpl.
  now rewrite lookup_insert_eq, lookup_insert_ne, lookup_insert_eq by discriminate.
Qed.

(** X17: when the answer to the login request is a failure other than a
    403, [login] returns the message of the answer's body, or "Login
    failed" when there is none; the message is never empty.  The session
    ends signed out with that message as its error and the login form is
    selected, but the storage is left as it was: tokens stored before stay
    there.  One request was made. *)
Theorem client_login_rejected email password c error :
  next_status c <> Some 403%nat ->
  settle (requestInterceptor (c_installed c)
            (mkConfig (API_BASE_URL +:+ "/auth/login") "post" ∅
                      (VObj [("email", email); ("password", password)]) false))
         (head (c_replies c)) = RejectedWith error ->
  let out := AuthContext.login API_BASE_URL email password c in
  let message := failure_message error "Login failed" in
  fst out = Failed message
  /\ truthy message = true
  /\ c_state (snd out) = mkState VNull VNull VNull false (VBool false) message
  /\ AppContent (c_state (snd out)) = ShowAuthForm
  /\ c_storage (snd out) = c_storage c
  /\ length (c_sent (snd out)) = S (length (c_sent c))
  /\ c_pending (snd out) = c_pending c.
Proof.
  intros Hn Hs. cbv zeta. unfold AuthContext.login.
  rewrite (axios_plain API_BASE_URL _ (dispatch AUTH_START c)) by exact Hn.
  cbn [dispatch c_installed c_replies]. unfold post_config. rewrite Hs. simpl.
  split; [reflexivity|]. split; [now apply failure_message_truthy|].
  repeat split. rewrite length_app. simpl. lia.
Qed.

(** X18: [register] sends the four fields and treats the answer as
    [login] does.  A 2xx answer whose body holds two string tokens signs
    the client in with the body's [user] and stores both tokens; a failure
    other than a 403 signs the client out with the body's message, or
    "Registration failed", and leaves the storage as it was. *)
Theorem client_register_outcomes email password confirmPassword name c :
  printable (token (c_installed c)) = true ->
  next_status c <> Some 403%nat ->
  let request :=
    requestInterceptor (c_installed c)
      (mkConfig (API_BASE_URL +:+ "/auth/register") "post" ∅
                (VObj [("email", email); ("password", password);
                       ("confirmPassword", confirmPassword); ("name", name)]) false) in
  let out := AuthContext.register API_BASE_URL email password confirmPassword name c in
  c_sent (snd out) = c_sent c ++ [request]
  /\ (forall s data t r,
        settle request (head (c_replies c)) = Fulfilled s data ->
        js_get "token" data = VStr t ->
        js_get "refreshToken" data = VStr r ->
        fst out = Succeeded
        /\ c_state (snd out)
           = mkState (js_get "user" data) (VStr t) (VStr r) true (VBool false) VNull
        /\ c_storage (snd out) = <["refreshToken" := r]> (<["token" := t]> (c_storage c)))
  /\ (forall error,
        settle request (head (c_replies c)) = RejectedWith error ->
        fst out = Failed (failure_message error "Registration failed")
        /\ c_state (snd out)
           = mkState VNull VNull VNull false (VBool false)
                     (failure_message error "Registration failed")
        /\ c_storage (snd out) = c_storage c).
Proof.
  intros _ Hn. cbv zeta. unfold AuthContext.register.
  rewrite (axios_plain API_BASE_URL _ (dispatch AUTH_START c)) by exact Hn.
  cbn [dispatch c_installed c_replies]. unfold post_config. split; [|split].
  - destruct (settle _ _) as [s data|error]; [destruct data|]; reflexivity.
  - intros s data t r -> Ht Hrt. destruct data; try discriminate.
    rewrite Ht, Hrt. repeat split.
  - intros error ->. repeat split.
Qed.


(** X20: when the answer to its request is no 403, [updateProfile] leaves
    the tokens, the authentication flag, the loading flag, the error of
    the session and the storage as they were.  When it fails, the session
    is exactly as before, and the message it returns is never empty. *)
Theorem updateProfile_keeps_session profileData c :
  next_status c <> Some 403%nat ->
  let out := AuthContext.updateProfile API_BASE_URL profileData c in
  token (c_state (snd out)) = token (c_state c)
  /\ refreshToken (c_state (snd out)) = refreshToken (c_state c)
  /\ isAuthenticated (c_state (snd out)) = isAuthenticated (c_state c)
  /\ isLoading (c_state (snd out)) = isLoading (c_state c)
  /\ error (c_state (snd out)) = error (c_state c)
  /\ c_storage (snd out) = c_storage c
  /\ (forall message, fst out = Failed message ->
        c_state (snd out) = c_state c /\ truthy message = true).
Proof.
  intros Hn. cbv zeta. unfold AuthContext.updateProfile.
  rewrite (axios_plain API_BASE_URL _ c) by exact Hn.
  destruct (settle _ _) as [s data|error]; [destruct (js_prop "user" data)|]; simpl;
    (do 6 (split; [reflexivity|])); intros message Hm; try discriminate;
    injection Hm as <-; (split; [reflexivity | now apply failure_message_truthy]).
Qed.

End ClientActions.

(** X21: after UPDATE_USER, a field of the user is the payload's when the
    payload has it, also with a value of [undefined], and otherwise the
    one the user had; with no user before, the fields are the payload's. *)
Theorem update_user_merges st fields k :
  user st = VNull \/ (exists old, user st = VObj old) ->
  js_get k (user (authReducer st (UPDATE_USER (VObj fields))))
  = if existsb (String.eqb k) (map fst fields) then assoc k fields else js_get k (user st).
Proof.
  intros [Hu|[old Hu]]; simpl; rewrite Hu; simpl; rewrite assoc_app;
    destruct (existsb _ _); reflexivity.
Qed.

(** ** A refresh call that is refused *)

Section Refused.
Variable API_BASE_URL : string.

Lemma logout_sent state c :
  exists more, c_sent (logout API_BASE_URL state c) = c_sent c ++ more.
Proof.
  unfold logout. destruct (truthy (token state)); simpl; eauto.
  exists []. now rewrite app_nil_r.
Qed.

(** A handler whose [axios] only adds to the requests made does so too. *)
Lemma responseInterceptor_sent ax state error c :
  (forall cfg c', exists more, c_sent (snd (ax cfg c')) = c_sent c' ++ more) ->
  exists more,
    c_sent (snd (responseInterceptor API_BASE_URL ax state error c)) = c_sent c ++ more.
Proof.
  intros Hax. unfold responseInterceptor.
  assert (Hnone : exists more, c_sent c = c_sent c ++ more)
    by (exists []; now rewrite app_nil_r).
  destruct error as [originalRequest response|e]; [|exact Hnone].
  destruct (_ && _)%bool; [|exact Hnone].
  destruct (Hax (refresh_request API_BASE_URL state) c) as [m1 H1].
  destruct (ax (refresh_request API_BASE_URL state) c) as [refreshed c1]. simpl in H1.
  assert (Hlogout : exists more,
             c_sent (logout API_BASE_URL state c1) = c_sent c ++ more).
  { destruct (logout_sent state c1) as [m2 H2]. exists (m1 ++ m2).
    now rewrite H2, H1, app_assoc. }
  destruct refreshed as [s data|refreshError]; [|exact Hlogout].
  destruct (js_prop "token" data) as [newToken|]; [|exact Hlogout].
  match goal with |- context [ax ?cfg ?c3] => destruct (Hax cfg c3) as [m3 H3] end.
  exists (m1 ++ m3). rewrite H3. simpl. now rewrite H1, app_assoc.
Qed.

Lemma axios_fuel_sent fuel : forall config c,
  exists more, c_sent (snd (axios_fuel API_BASE_URL fuel config c)) = c_sent c ++ more.
Proof.
  induction fuel as [|fuel IH]; intros config c.
  - exists []. simpl. now rewrite app_nil_r.
  - cbn [axios_fuel]. rewrite exchange.
    destruct (settle _ _) as [s data|error]; [simpl; eauto|].
    match goal with
    | |- context [responseInterceptor _ ?ax ?st error ?c1] =>
        destruct (responseInterceptor_sent ax st error c1 IH) as [m H]
    end.
    rewrite H. simpl. rewrite <- app_assoc. eauto.
Qed.

(** Every call of [axios] makes its request, through the request
    interceptor installed at the time, and whatever is made after it comes
    after it. *)
Lemma axios_sent config c :
  exists more,
    c_sent (snd (axios API_BASE_URL config c))
    = c_sent c ++ requestInterceptor (c_installed c) config :: more.
Proof.
  rewrite axios_unfold. cbv zeta. rewrite exchange.
  destruct (settle _ _) as [s data|error]; [exists []; reflexivity|].
  match goal with
  | |- context [responseInterceptor _ ?ax ?st error ?c1] =>
      destruct (responseInterceptor_sent ax st error c1) as [m H]
  end.
  - intros cfg c'. apply axios_fuel_sent.
  - rewrite H. simpl. rewrite <- app_assoc. eauto.
Qed.

(** X27: a refresh call that is itself answered 403 does not end the
    session: the handler runs on that answer as on any other 403 and makes
    a second refresh call, the same as the first, before anything else. *)
Theorem refresh_refused_is_tried_again state originalRequest denied c refusal rest :
  cfg_retry originalRequest = false ->
  c_installed c = state ->
  same_tokens (c_state c) state = true ->
  printable (token state) = true ->
  c_replies c = mkReply (Some 403%nat) refusal :: rest ->
  let out := responseInterceptor API_BASE_URL (axios API_BASE_URL) state
               (AxiosError originalRequest (Some (403%nat, denied))) c in
  exists more,
    c_sent (snd out)
    = c_sent c ++ refresh_call API_BASE_URL state :: refresh_call API_BASE_URL state :: more.
Proof.
  intros Hretry Hi Hsame _ Hr. cbv zeta.
  pose proof (commit_same c state Hi Hsame) as Hcommit.
  assert (Hax : forall cfg c', exists more,
             c_sent (snd (axios API_BASE_URL cfg c')) = c_sent c' ++ more).
  { intros cfg c'. destruct (axios_sent cfg c') as [m H]. eauto. }
  unfold responseInterceptor at 1. simpl. rewrite Hretry. simpl.
  rewrite axios_unfold. cbv zeta. rewrite exchange, Hr, Hcommit, Hi. simpl.
  assert (Hnot : cfg_retry (requestInterceptor state (refresh_request API_BASE_URL state))
                 = false)
    by now destruct (requestInterceptor_keeps state (refresh_request API_BASE_URL state))
         as (-> & _).
  rewrite Hnot. simpl.
  match goal with
  | |- context [axios API_BASE_URL (refresh_request API_BASE_URL state) ?c1] =>
      destruct (axios_sent (refresh_request API_BASE_URL state) c1) as [m1 H1];
      destruct (axios API_BASE_URL (refresh_request API_BASE_URL state) c1)
        as [second c2]
  end.
  simpl in H1.
  repeat first
    [ match goal with
      | |- context [match js_prop "token" ?d with _ => _ end] =>
          destruct (js_prop "token" d)
      | |- context [match ?x with Fulfilled _ _ => _ | RejectedWith _ => _ end] =>
          is_var x; destruct x
      | |- context [axios API_BASE_URL ?cfg ?cl] =>
          let m := fresh "m" in
          let H := fresh "H" in
          destruct (Hax cfg cl) as [m H];
          destruct (axios API_BASE_URL cfg cl) as [? ?]; simpl in H
      | |- context [logout API_BASE_URL ?st ?cl] =>
          let m := fresh "m" in
          let H := fresh "H" in
          destruct (logout_sent st cl) as [m H]; rewrite H; clear H
      end
    | progress simpl ];
    eexists;
    repeat match goal with
           | H : c_sent ?x = _ |- context [c_sent ?x] => rewrite H; clear H
           end;
    unfold refresh_call, refresh_request, post_config;
    rewrite <- ?app_assoc; simpl; reflexivity.
Qed.

End Refused.

(** ** The client in front of the server *)

Lemma answered_one handler w status data :
  responses (run handler w) = responses w ++ [(status, data)] ->
  answered handler w = [mkReply (Some status) data].
Proof. intros Hr. unfold answered. now rewrite Hr, drop_app_length. Qed.

Section Renewal.
Context `{!Jwt} (env : Env).
Variables (API_BASE_URL : string) (state : SessionState).

Lemma refresh_call_token :
  js_get "refreshToken" (body (received (refresh_call API_BASE_URL state))) = refreshToken state.
Proof.
  unfold received, refresh_call. simpl.
  destruct (requestInterceptor_keeps state
              (mkConfig (API_BASE_URL +:+ "/auth/refresh") "post" ∅
                        (VObj [("refreshToken", refreshToken state)]) false))
    as (_ & _ & _ & ->).
  reflexivity.
Qed.

(** X22: the interceptor in front of the [refresh] route.  With a session
    that holds the token [old] and a refresh token that verifies, a 403 on
    a request not yet retried ends with a new access token in the session
    and in the storage: the one the route signed, which embeds the subject
    of the refresh token.  The request issued again, however, carries
    [old]. *)
Theorem renewal_keeps_subject w originalRequest denied c rest old rt uid newToken :
  cfg_retry originalRequest = false ->
  c_installed c = state ->
  same_tokens (c_state c) state = true ->
  token state = VStr old -> old <> "" ->
  refreshToken state = VStr rt -> rt <> "" ->
  jwt_verify rt (refresh_secret env) (w_now w) = Decoded uid ->
  jwt_sign uid (access_secret env) (access_lifetime env) (w_now w) = Some newToken ->
  c_replies c = answered (refresh env (received (refresh_call API_BASE_URL state))) w ++ rest ->
  let out := responseInterceptor API_BASE_URL (axios API_BASE_URL) state
               (AxiosError originalRequest (Some (403%nat, denied))) c in
  let again := requestInterceptor state (renewed originalRequest (VStr newToken)) in
  token (c_state (snd out)) = VStr newToken
  /\ jwt_decode newToken = Some uid
  /\ c_storage (snd out) !! "token" = Some newToken
  /\ c_sent (snd out) = c_sent c ++ [(refresh_call API_BASE_URL state); again]
  /\ cfg_headers again !! "Authorization" = Some ("Bearer " +:+ old)
  /\ cfg_retry again = true
  /\ fst out = settle again (head rest).
Proof.
  intros Hretry Hi Hsame Hold Hne Hrt Hrne Hv Hs Hc. cbv zeta.
  assert (Ha : answered (refresh env (received (refresh_call API_BASE_URL state))) w
               = [mkReply (Some 200%nat) (VObj [("token", VStr newToken)])]).
  { apply answered_one. unfold refresh, verify_value, verify, generateToken.
    rewrite refresh_call_token, Hrt. handler_steps.
    destruct (String.eqb_spec rt ""); [contradiction|]. simpl. rewrite Hv. simpl.
    rewrite Hs. simpl. read_log. reflexivity. }
  rewrite Ha in Hc. simpl in Hc.
  pose proof (commit_same c state Hi Hsame) as Hcommit.
  unfold responseInterceptor. simpl. rewrite Hretry. simpl.
  rewrite (axios_fulfilled _ _ c 200%nat _ rest Hc) by lia.
  rewrite Hcommit, Hi. simpl.
  rewrite axios_retried by reflexivity. simpl.
  split; [reflexivity|]. split; [eapply jwt_decode_sign, Hs|].
  split; [apply lookup_insert_eq|]. split; [now rewrite <- app_assoc|].
  split; [unfold requestInterceptor; rewrite Hold; simpl;
          destruct (String.eqb_spec old ""); [contradiction|]; apply lookup_insert_eq|].
  split; [|reflexivity].
  now destruct (requestInterceptor_keeps state (renewed originalRequest (VStr newToken)))
    as (-> & _).
Qed.

(** X23: when the session has no refresh token, a 403 on a request not
    yet retried ends the session.  The route answers 401
    NO_REFRESH_TOKEN, the handler rejects with that answer and calls
    [logout]: without a token in the session the client is logged out at
    once, with one the [logout] request goes out first and takes the next
    answer of the network, and the client is logged out once that answer
    has come, whatever it is. *)
Theorem missing_refresh_token_ends_session w originalRequest denied c rest :
  cfg_retry originalRequest = false ->
  c_installed c = state ->
  same_tokens (c_state c) state = true ->
  printable (token state) = true ->
  truthy (refreshToken state) = false ->
  c_replies c = answered (refresh env (received (refresh_call API_BASE_URL state))) w ++ rest ->
  let out := responseInterceptor API_BASE_URL (axios API_BASE_URL) state
               (AxiosError originalRequest (Some (403%nat, denied))) c in
  let logout_call :=
    requestInterceptor state
      (mkConfig (API_BASE_URL +:+ "/auth/logout") "post" ∅ VUndefined false) in
  fst out
  = RejectedWith
      (AxiosError (refresh_call API_BASE_URL state)
         (Some (401%nat, VObj [("message", VStr "Refresh token is required");
                               ("error", VStr "NO_REFRESH_TOKEN")])))
  /\ logged_out (quiesce API_BASE_URL (snd out))
  /\ (truthy (token state) = false ->
      logged_out (snd out) /\ c_sent (snd out) = c_sent c ++ [(refresh_call API_BASE_URL state)])
  /\ (truthy (token state) = true ->
      c_state (snd out) = c_state c
      /\ c_sent (snd out) = c_sent c ++ [(refresh_call API_BASE_URL state); logout_call]
      /\ c_pending (snd out) = c_pending c ++ [(state, logout_call, head rest)]).
Proof.
  intros Hretry Hi Hsame _ Hrt Hc. cbv zeta.
  assert (Ha : answered (refresh env (received (refresh_call API_BASE_URL state))) w
               = [mkReply (Some 401%nat)
                    (VObj [("message", VStr "Refresh token is required");
                           ("error", VStr "NO_REFRESH_TOKEN")])]).
  { apply answered_one. unfold refresh. rewrite refresh_call_token, Hrt.
    handler_steps. read_log. reflexivity. }
  rewrite Ha in Hc. simpl in Hc.
  pose proof (commit_same c state Hi Hsame) as Hcommit.
  unfold responseInterceptor. simpl. rewrite Hretry. simpl.
  rewrite (axios_rejected _ _ c
             (AxiosError (refresh_call API_BASE_URL state)
                (Some (401%nat, VObj [("message", VStr "Refresh token is required");
                                      ("error", VStr "NO_REFRESH_TOKEN")]))));
    [|rewrite Hi, Hc; reflexivity | left; discriminate].
  rewrite Hcommit, Hi. cbn [fst snd].
  split; [reflexivity|]. unfold logout. cbn [c_installed].
  destruct (truthy (token state)) eqn:Et.
  - split.
    + unfold quiesce. apply settle_pending_logged_out. right. simpl.
      split; [now destruct (c_pending c) | rewrite length_app; simpl; lia].
    + split; [discriminate|]. intros _. simpl. rewrite Hc. simpl.
      split; [reflexivity|]. split; [now rewrite <- app_assoc | reflexivity].
  - split.
    + unfold quiesce. apply settle_pending_logged_out. left.
      apply logout_finally_logged_out.
    + split; [|discriminate]. intros _.
      split; [apply logout_finally_logged_out | reflexivity].
Qed.

End Renewal.

(** ** The history when the collection fails *)

(** X24: [DELETE /document-history] empties the history of the user and
    answers 200; the stored document keeps its password hash and its
    e-mail address.  When the write fails it answers 500
    CLEAR_HISTORY_ERROR and the collection is as before. *)
Theorem clear_history_outcomes w u :
  w_req_user w = RDoc u ->
  let w' := run clear_history_handler w in
  (forall v,
     store_answers w ->
     lookup_id (Some (u_id u)) (w_users w) = Some v ->
     responses w'
     = responses w ++ [(200%nat, VObj [("message",
                                         VStr "Document history cleared successfully")])]
     /\ exists v',
          lookup_id (Some (u_id u)) (w_users w') = Some v'
          /\ u_documentHistory v' = VArr []
          /\ u_password v' = u_password v
          /\ u_email v' = u_email v)
  /\ (forall e fs,
        w_faults w = Some e :: fs ->
        responses w'
        = responses w ++ [(500%nat, error_body "Server error clearing document history"
                                                "CLEAR_HISTORY_ERROR")]
        /\ w_users w' = w_users w).
Proof.
  intros Hu. cbv zeta.
  unfold clear_history_handler, save_loaded, store_op, poll_fault, store_answers.
  handler_steps. rewrite Hu. simpl. split.
  - intros v Ha Hv.
    destruct (w_faults w) as [|[e|] fs]; [|contradiction|]; simpl;
      (split; [read_log; reflexivity|]);
      eexists; (split; [apply (lookup_id_written (with_history (VArr []) u));
                        [reflexivity | exact Hv]|]);
      repeat split.
  - intros e fs ->. simpl. split; [read_log; reflexivity | reflexivity].
Qed.

(** X25: when the write of the document fails, [POST /document-history]
    and [DELETE /document-history/:documentId] answer 500 with their own
    code, and the collection is as before: nothing of the history the
    handler built in memory is stored. *)
Theorem history_write_failure req documentId w u e fs flag l l' :
  w_req_user w = RDoc u ->
  w_faults w = Some e :: fs ->
  js_prop "saveHistory" (u_preferences u) = Some flag ->
  u_documentHistory u = VArr l ->
  without_document documentId l = Some l' ->
  (responses (run (add_history_handler req) w)
   = responses w ++ [(500%nat, error_body "Server error adding document to history"
                                           "DOCUMENT_HISTORY_ERROR")]
   /\ w_users (run (add_history_handler req) w) = w_users w)
  /\ (responses (run (delete_history_handler documentId) w)
      = responses w ++ [(500%nat, error_body "Server error deleting document from history"
                                              "DELETE_HISTORY_ERROR")]
      /\ w_users (run (delete_history_handler documentId) w) = w_users w).
Proof.
  intros Hu Hf Hs Hl Hw.
  unfold add_history_handler, delete_history_handler, addDocumentToHistory, save_loaded,
    store_op, poll_fault.
  handler_steps. rewrite Hu. simpl. rewrite Hs, Hl, Hw. simpl. split.
  - destruct (truthy flag); simpl; rewrite Hf; simpl; split;
      [read_log; reflexivity | reflexivity | read_log; reflexivity | reflexivity].
  - rewrite Hf. simpl. split; [read_log; reflexivity | reflexivity].
Qed.

(** ** Further concrete runs *)

Module MoreRuns.
Import Demo DemoLaws Samples Cases.

Lemma bearer_token_second_field_run :
  bearer_token (with_header "Basic abc") = Some "abc"
  /\ bearer_token (with_header "Bearer abc def") = Some "abc".
Proof.
  split.
  - apply (bearer_token_second_field (with_header "Basic abc") "Basic" "abc" "");
      [reflexivity | reflexivity | left; reflexivity].
  - apply (bearer_token_second_field (with_header "Bearer abc def") "Bearer" "abc" "def");
      [reflexivity | reflexivity | right; reflexivity].
Defined.

Lemma authenticateToken_outcome_run :
  w_users (run (authenticateToken env (bearer valid_token)) (world [alice] [])) = [alice].
Proof.
  exact (proj1 (authenticateToken_outcome env (bearer valid_token) (world [alice] []))).
Defined.

Lemma authenticateToken_unknown_user_run :
  responses (run (authenticateToken env (bearer valid_token)) (world [] []))
  = [(401%nat, error_body "User not found" "INVALID_USER")]
  /\ next_calls (run (authenticateToken env (bearer valid_token)) (world [] [])) = 0%nat.
Proof.
  destruct (authenticateToken_unknown_user env (bearer valid_token) (world [] [])
              (Some "a1")) as (A & B & _);
    [reflexivity | reflexivity | exact I | reflexivity |].
  split; [exact A | exact B].
Defined.

Lemma authenticateToken_unexpected_error_run :
  responses (run (authenticateToken env (bearer valid_token)) (world [alice] [store_down]))
  = [(500%nat, error_body "Server error during authentication" "AUTH_SERVER_ERROR")]
  /\ next_calls (run (authenticateToken env (bearer valid_token))
                     (world [alice] [store_down])) = 0%nat.
Proof.
  destruct (authenticateToken_unexpected_error env (bearer valid_token)
              (world [alice] [store_down]) (mkError "MongoNetworkError" None)) as (A & B);
    [reflexivity | discriminate | discriminate |].
  split; [exact A | exact B].
Defined.

Lemma optionalAuth_agrees_when_admitted_run :
  run (optionalAuth env (bearer valid_token)) (world [alice] [])
  = run (authenticateToken env (bearer valid_token)) (world [alice] []).
Proof.
  apply (optionalAuth_agrees_when_admitted env (bearer valid_token) (world [alice] [])
           (select_minus_password alice)).
  reflexivity.
Defined.

Lemma behind_auth_gate_run :
  run (behind_auth env (bearer foreign_token) clear_history_handler) (world [hoarder] [])
  = run (authenticateToken env (bearer foreign_token)) (world [hoarder] []).
Proof.
  exact (behind_auth_gate env (bearer foreign_token) clear_history_handler
           (world [hoarder] [])).
Defined.

Lemma me_route_profile_run :
  exists profile,
    responses (run (me_route env (bearer valid_token)) (world [alice] []))
    = [(200%nat, VObj [("user", profile)])]
    /\ js_get "email" profile = VStr "alice@example.com"
    /\ js_get "password" profile = VUndefined.
Proof.
  destruct (me_route_profile env (bearer valid_token) (world [alice] [])
              (select_minus_password alice)) as (profile & A & _ & B & C & _);
    [reflexivity|].
  exists profile. split; [exact A | split; [exact B | exact C]].
Defined.

Lemma logout_route_revokes_nothing_run :
  responses (run (logout_route env (bearer valid_token)) (world [alice] []))
  = [(200%nat, VObj [("message", VStr "Logout successful")])]
  /\ resolved_identity env (bearer valid_token)
        (run (logout_route env (bearer valid_token)) (world [alice] []))
     = Some (select_minus_password alice).
Proof.
  destruct (logout_route_revokes_nothing env (bearer valid_token) (world [alice] [])
              (select_minus_password alice)) as (A & _ & B);
    [reflexivity|].
  split; [exact A | apply B; exact I].
Defined.

Lemma bob_registrable :
  registrable env bob_registration (world [alice] []) "Bob@Example.com" "secret9" " Bob ".
Proof.
  unfold registrable. simpl.
  split; [reflexivity|]. split; [discriminate|]. split; [reflexivity|].
  split; [reflexivity|]. split; [lia|]. split; [reflexivity|]. split; [reflexivity|].
  split; [lia|]. split; reflexivity.
Qed.

Lemma bob_tokens :
  signs env (pretty 1%N) (world [alice] [])
        (token_for (Some (pretty 1%N)) "your-secret-key" "7d")
        (token_for (Some (pretty 1%N)) "your-refresh-secret-key" "30d").
Proof. split; reflexivity. Qed.

Lemma register_creates_account_run :
  exists user,
    responses (run (register env bob_registration) (world [alice] []))
    = [(201%nat, VObj [("message", VStr "User registered successfully");
                       ("user", user);
                       ("token", VStr (token_for (Some (pretty 1%N)) "your-secret-key" "7d"));
                       ("refreshToken",
                        VStr (token_for (Some (pretty 1%N)) "your-refresh-secret-key"
                                        "30d"))])]
    /\ js_get "email" user = VStr "bob@example.com"
    /\ length (w_users (run (register env bob_registration) (world [alice] []))) = 2%nat.
Proof.
  destruct (register_creates_account env bob_registration (world [alice] [])
              "Bob@Example.com" "secret9" " Bob "
              (token_for (Some (pretty 1%N)) "your-secret-key" "7d")
              (token_for (Some (pretty 1%N)) "your-refresh-secret-key" "30d")
              bob_registrable bob_tokens)
    as (user & A & _ & B & _ & _ & _ & D & _).
  exists user.
  split; [exact A | split; [exact B | exact D]].
Defined.

Lemma register_then_login_run :
  exists user,
    responses (run (login env (credentials " BOB@example.com " "secret9"))
                   (run (register env bob_registration) (world [alice] [])))
    = responses (run (register env bob_registration) (world [alice] []))
      ++ [(200%nat, VObj [("message", VStr "Login successful"); ("user", user);
                          ("token",
                           VStr (token_for (Some (pretty 1%N)) "your-secret-key" "7d"));
                          ("refreshToken",
                           VStr (token_for (Some (pretty 1%N)) "your-refresh-secret-key"
                                           "30d"))])]
    /\ js_get "id" user = VStr (pretty 1%N).
Proof.
  destruct (register_then_login env bob_registration (world [alice] [])
              "Bob@Example.com" "secret9" " Bob "
              (token_for (Some (pretty 1%N)) "your-secret-key" "7d")
              (token_for (Some (pretty 1%N)) "your-refresh-secret-key" "30d")
              (credentials " BOB@example.com " "secret9") " BOB@example.com " "secret9")
    as (A & _);
    [exact bob_registrable | exact bob_tokens | reflexivity | reflexivity | discriminate
    | reflexivity | reflexivity | discriminate |].
  exact (A eq_refl).
Defined.

Lemma login_opens_session_run :
  exists user,
    responses (run (login env (credentials "Alice@example.com" "secret1"))
                   (world [alice] []))
    = [(200%nat, VObj [("message", VStr "Login successful");
                       ("user", user); ("token", VStr valid_token);
                       ("refreshToken", VStr alice_refresh_token)])]
    /\ js_get "id" user = VStr "a1"
    /\ js_get "password" user = VUndefined
    /\ jwt_decode valid_token = Some (Some "a1").
Proof.
  destruct (login_opens_session env (credentials "Alice@example.com" "secret1")
              (world [alice] []) "Alice@example.com" "secret1" alice "$secret1"
              valid_token alice_refresh_token)
    as (user & A & B & _ & C & D & _);
    [reflexivity | discriminate | reflexivity | discriminate | reflexivity
    | reflexivity | reflexivity | reflexivity | split; reflexivity |].
  exists user.
  split; [exact A | split; [exact B | split; [exact C | exact D]]].
Defined.

Lemma login_keeps_accounts_run :
  map account (w_users (run (login env (credentials "alice@example.com" "secret1"))
                            (world [alice] [])))
  = [account alice].
Proof.
  apply (login_keeps_accounts env (credentials "alice@example.com" "secret1")
           (world [alice] [])).
  simpl. constructor; [apply not_elem_of_nil | constructor].
Defined.

Lemma addDocumentToHistory_keeps_last_50_run :
  exists u' w' l',
    addDocumentToHistory [("filename", VStr "terms.txt")] (select_minus_password hoarder)
                         (world [hoarder] [])
    = (Ret u', w')
    /\ u_documentHistory u' = VArr l'
    /\ length l' = 50%nat
    /\ last l' = Some (VObj [("_id", VStr (pretty 1%N)); ("filename", VStr "terms.txt")]).
Proof.
  destruct (addDocumentToHistory_keeps_last_50 [("filename", VStr "terms.txt")]
              (select_minus_password hoarder) (world [hoarder] []) (VBool true)
              (replicate 50 (document "old")) hoarder)
    as (u' & w' & l' & A & B & C & D & _);
    [reflexivity | reflexivity | reflexivity | exact I | reflexivity |].
  exists u', w', l'.
  split; [exact A | split; [exact B | split; [exact C | exact D]]].
Defined.

Lemma add_history_answers_run :
  responses (run (add_history_handler upload) (admitted pat []))
  = [(500%nat, error_body "Server error adding document to history"
                          "DOCUMENT_HISTORY_ERROR")]
  /\ responses (run (add_history_handler upload) (admitted alice []))
     = [(200%nat, VObj [("message", VStr "Document added to history successfully");
                        ("documentId", VStr (pretty 1%N))])].
Proof.
  split.
  - destruct (add_history_answers upload (admitted pat []) (select_minus_password pat)
                (VBool false) []) as (_ & A);
      [reflexivity | exact I | reflexivity | reflexivity |].
    destruct (A eq_refl) as (_ & B & _). exact (B eq_refl).
  - destruct (add_history_answers upload (admitted alice []) (select_minus_password alice)
                (VBool true) []) as (A & _);
      [reflexivity | exact I | reflexivity | reflexivity |].
    exact (A eq_refl).
Defined.

Lemma delete_history_removes_run :
  responses (run (delete_history_handler "d1") (admitted reader []))
  = [(200%nat, VObj [("message", VStr "Document removed from history successfully")])]
  /\ exists v',
       lookup_id (Some "r1") (w_users (run (delete_history_handler "d1")
                                           (admitted reader []))) = Some v'
       /\ u_documentHistory v' = VArr [document "d2"]
       /\ u_password v' = Some "$secret4".
Proof.
  destruct (delete_history_removes "d1" (admitted reader []) (select_minus_password reader)
              [document "d1"; document "d2"] [document "d2"] reader)
    as (A & _ & _ & B);
    [reflexivity | exact I | reflexivity | reflexivity | reflexivity |].
  split; [exact A | exact B].
Defined.

Lemma client_login_fulfilled_run :
  fst (AuthContext.login api (VStr "alice@example.com") (VStr "secret1")
         (answering [login_answer])) = Succeeded
  /\ AppContent (c_state (snd (AuthContext.login api (VStr "alice@example.com")
                                 (VStr "secret1") (answering [login_answer]))))
     = ShowDashboard
  /\ in_sync (snd (AuthContext.login api (VStr "alice@example.com") (VStr "secret1")
                     (answering [login_answer]))).
Proof.
  destruct (client_login_fulfilled api (VStr "alice@example.com") (VStr "secret1")
              (answering [login_answer]) 200%nat (VObj login_payload) [] "t1" "r1")
    as (A & _ & _ & _ & C & B & _);
    [reflexivity | reflexivity | lia | reflexivity | reflexivity |].
  split; [exact A | split; [exact B | exact C]].
Defined.

Lemma client_login_rejected_run :
  fst (AuthContext.login api (VStr "alice@example.com") (VStr "wrong12")
         (answering [bad_credentials])) = Failed (VStr "Invalid email or password")
  /\ c_storage (snd (AuthContext.login api (VStr "alice@example.com") (VStr "wrong12")
                       (answering [bad_credentials]))) = stored
  /\ token (c_state (snd (AuthContext.login api (VStr "alice@example.com")
                            (VStr "wrong12") (answering [bad_credentials])))) = VNull.
Proof.
  destruct (client_login_rejected api (VStr "alice@example.com") (VStr "wrong12")
              (answering [bad_credentials])
              (AxiosError
                 (requestInterceptor (initialState stored)
                    (mkConfig (api +:+ "/auth/login") "post" ∅
                              (VObj [("email", VStr "alice@example.com");
                                     ("password", VStr "wrong12")]) false))
                 (Some (401%nat, error_body "Invalid email or password"
                                            "INVALID_CREDENTIALS"))))
    as (A & _ & B & _ & C & _);
    [discriminate | reflexivity |].
  split; [exact A | split; [exact C | exact (f_equal token B)]].
Defined.

Lemma client_register_outcomes_run :
  fst (AuthContext.register api (VStr "bob@example.com") (VStr "secret9") (VStr "secret9")
         (VStr "Bob") (answering [])) = Failed (VStr "Registration failed").
Proof.
  destruct (client_register_outcomes api (VStr "bob@example.com") (VStr "secret9")
              (VStr "secret9") (VStr "Bob") (answering [])) as (_ & _ & A);
    [reflexivity | discriminate |].
  exact (proj1 (A _ eq_refl)).
Defined.


Lemma updateProfile_keeps_session_run :
  token (c_state (snd (AuthContext.updateProfile api (VObj [("name", VStr "Al")])
                         (client [no_refresh_token])))) = VStr "old".
Proof.
  destruct (updateProfile_keeps_session api (VObj [("name", VStr "Al")])
              (client [no_refresh_token])) as (A & _); [discriminate|].
  exact A.
Defined.

Lemma update_user_merges_run :
  js_get "name" (user (authReducer signed_in
                         (UPDATE_USER (VObj [("name", VStr "Al")])))) = VStr "Al"
  /\ js_get "id" (user (authReducer signed_in
                          (UPDATE_USER (VObj [("name", VStr "Al")])))) = VStr "a1".
Proof.
  split.
  - apply (update_user_merges signed_in [("name", VStr "Al")] "name").
    right. eexists. reflexivity.
  - apply (update_user_merges signed_in [("name", VStr "Al")] "id").
    right. eexists. reflexivity.
Defined.

Lemma renewal_keeps_subject_run :
  token (c_state (snd (responseInterceptor api (axios api) alice_session
                         (AxiosError profile_request forbidden)
                         (renewing [refused]))))
  = VStr valid_token
  /\ cfg_headers (requestInterceptor alice_session
                    (renewed profile_request (VStr valid_token)))
       !! "Authorization" = Some ("Bearer " +:+ expired_token)
  /\ c_sent (snd (responseInterceptor api (axios api) alice_session
                    (AxiosError profile_request forbidden) (renewing [refused])))
     = [refresh_call api alice_session;
        requestInterceptor alice_session (renewed profile_request (VStr valid_token))].
Proof.
  destruct (renewal_keeps_subject env api alice_session (world [alice] []) profile_request
              (error_body "Token expired" "TOKEN_EXPIRED") (renewing [refused]) [refused]
              expired_token alice_refresh_token (Some "a1") valid_token)
    as (A & _ & _ & B & C & _);
    [reflexivity | reflexivity | reflexivity | reflexivity | discriminate | reflexivity
    | discriminate | reflexivity | reflexivity | reflexivity |].
  split; [exact A | split; [exact C | exact B]].
Defined.

Lemma missing_refresh_token_ends_session_run :
  fst (responseInterceptor api (axios api) half_session
         (AxiosError profile_request forbidden) (half_renewing []))
  = RejectedWith
      (AxiosError (refresh_call api half_session)
                  (Some (401%nat, error_body "Refresh token is required"
                                            "NO_REFRESH_TOKEN")))
  /\ logged_out (quiesce api (snd (responseInterceptor api (axios api) half_session
                                     (AxiosError profile_request forbidden)
                                     (half_renewing [])))).
Proof.
  destruct (missing_refresh_token_ends_session env api half_session (world [alice] [])
              profile_request (error_body "Token expired" "TOKEN_EXPIRED")
              (half_renewing []) [])
    as (A & B & _);
    [reflexivity | reflexivity | reflexivity | reflexivity | reflexivity | reflexivity |].
  split; [exact A | exact B].
Defined.

Lemma register_stores_before_signing_run :
  responses (run (register misconfigured bob_registration) (world [alice] []))
  = [(500%nat, error_body "Server error during registration" "REGISTRATION_ERROR")]
  /\ map u_email (w_users (run (register misconfigured bob_registration)
                               (world [alice] [])))
     = ["alice@example.com"; "bob@example.com"].
Proof.
  destruct (register_stores_before_signing misconfigured bob_registration
              (world [alice] []) "Bob@Example.com" "secret9" " Bob ") as (A & B).
  - unfold registrable. simpl.
    split; [reflexivity|]. split; [discriminate|]. split; [reflexivity|].
    split; [reflexivity|]. split; [lia|]. split; [reflexivity|]. split; [reflexivity|].
    split; [lia|]. split; reflexivity.
  - reflexivity.
  - split; [exact A | exact (f_equal (map u_email) B)].
Defined.

Lemma refresh_refused_is_tried_again_run :
  exists more,
    c_sent (snd (responseInterceptor api (axios api) signed_in
                   (AxiosError profile_request forbidden)
                   (client [refused; refused; no_refresh_token])))
    = refresh_call api signed_in :: refresh_call api signed_in :: more.
Proof.
  exact (refresh_refused_is_tried_again api signed_in profile_request
           (error_body "Token expired" "TOKEN_EXPIRED")
           (client [refused; refused; no_refresh_token])
           (error_body "Token expired" "TOKEN_EXPIRED") [refused; no_refresh_token]
           eq_refl eq_refl eq_refl eq_refl eq_refl).
Defined.

Lemma clear_history_outcomes_run :
  responses (run clear_history_handler (admitted hoarder []))
  = [(200%nat, VObj [("message", VStr "Document history cleared successfully")])]
  /\ w_users (run clear_history_handler (admitted hoarder [store_down])) = [hoarder].
Proof.
  destruct (clear_history_outcomes (admitted hoarder []) (select_minus_password hoarder))
    as (A & _); [reflexivity|].
  destruct (clear_history_outcomes (admitted hoarder [store_down])
              (select_minus_password hoarder)) as (_ & B); [reflexivity|].
  split.
  - exact (proj1 (A hoarder I eq_refl)).
  - exact (proj2 (B _ _ eq_refl)).
Defined.

Lemma history_write_failure_run :
  responses (run (add_history_handler upload) (admitted reader [store_down]))
  = [(500%nat, error_body "Server error adding document to history"
                          "DOCUMENT_HISTORY_ERROR")]
  /\ w_users (run (delete_history_handler "d1") (admitted reader [store_down])) = [reader].
Proof.
  destruct (history_write_failure upload "d1" (admitted reader [store_down])
              (select_minus_password reader) (mkError "MongoNetworkError" None) []
              (VBool true) [document "d1"; document "d2"] [document "d2"])
    as ((A & _) & (_ & B));
    [reflexivity | reflexivity | reflexivity | reflexivity | reflexivity |].
  split; [exact A | exact B].
Defined.

End MoreRuns.
